(** * HDFC statement extraction: a shallow embedding of [analysis_hdfc.py]

    The script reads the tables of a PDF bank statement, keeps the rows
    with at least seven cells, resolves the header, cleans the amount,
    date and narration columns, and writes a spreadsheet.

    Python text is a sequence of Unicode code points, so a [pystr] is a
    list of code points.  A number of the frame is given by its exact
    value.  Which texts [pd.to_numeric] recognises as numerals, and
    when it stores a column as integers, is modelled; the binary64
    number its C reader computes for a recognised numeral is taken as
    given (a parameter of the section below). *)

From Stdlib Require Import NArith ZArith QArith Qpower Lia String Ascii DecimalString.
From stdpp Require Import base list.

(** ** Python text *)

Abbreviation pystr := (list N).

(** An ASCII literal as Python text. *)
Definition py (s : string) : pystr :=
  List.map N_of_ascii (list_ascii_of_string s).

Definition pystr_eqb (a b : pystr) : bool :=
  bool_decide (a = b).

Definition between (lo hi c : N) : bool :=
  ((lo <=? c) && (c <=? hi))%N.

(** [str.isspace] for one character: the code points Python strips. *)
Definition py_isspace (c : N) : bool :=
  between 9 13 c || between 28 32 c || (c =? 133)%N || (c =? 160)%N
  || (c =? 5760)%N || between 8192 8202 c || (c =? 8232)%N
  || (c =? 8233)%N || (c =? 8239)%N || (c =? 8287)%N || (c =? 12288)%N.

(** What is left of [s] after its longest prefix of characters in [p]. *)
Fixpoint dropwhile (p : N -> bool) (s : pystr) : pystr :=
  match s with
  | [] => []
  | c :: s' => if p c then dropwhile p s' else s
  end.

Definition lstrip (s : pystr) : pystr := dropwhile py_isspace s.

Definition rstrip (s : pystr) : pystr := rev (lstrip (rev s)).

(** [s.strip()] *)
Definition strip (s : pystr) : pystr := rstrip (lstrip s).

Fixpoint startswith (pre s : pystr) : bool :=
  match pre, s with
  | [], _ => true
  | p :: pre', c :: s' => (p =? c)%N && startswith pre' s'
  | _ :: _, [] => false
  end.

(** [s.replace(old, new)] for a non-empty [old]: the occurrences are
    taken left to right and do not overlap; [skip] counts the characters
    of a matched occurrence still to pass over. *)
Fixpoint replace_from (old new : pystr) (skip : nat) (s : pystr) : pystr :=
  match s with
  | [] => []
  | c :: s' =>
      match skip with
      | S k => replace_from old new k s'
      | O =>
          if startswith old s
          then new ++ replace_from old new (length old - 1) s'
          else c :: replace_from old new 0 s'
      end
  end.

(** [s.replace(old, new)]; an empty [old] matches between all characters. *)
Definition str_replace (old new s : pystr) : pystr :=
  match old with
  | [] => new ++ flat_map (fun c => c :: new) s
  | _ :: _ => replace_from old new 0 s
  end.

(** ** Case-insensitive search: [re.search(pat, s, re.IGNORECASE)]
    for a pattern of ASCII letters.

    The engine compares the lower-case image of the subject character
    with the lower-cased pattern letter.  Among the code points outside
    ASCII only U+0130 and U+212A have an ASCII lower-case image (i and
    k); the engine moreover treats i and U+0131, and s and U+017F, as
    the same letter. *)
Definition sre_lower (c : N) : N :=
  if between 65 90 c then (c + 32)%N
  else if (c =? 304)%N then 105%N
  else if (c =? 8490)%N then 107%N
  else c.

Definition sre_ieq (p c : N) : bool :=
  let lo := sre_lower p in
  let lc := sre_lower c in
  (lc =? lo)%N
  || ((lo =? 105)%N && (lc =? 305)%N)
  || ((lo =? 115)%N && (lc =? 383)%N).

Fixpoint startswith_ci (pat s : pystr) : bool :=
  match pat, s with
  | [], _ => true
  | p :: pat', c :: s' => sre_ieq p c && startswith_ci pat' s'
  | _ :: _, [] => false
  end.

(** [Series.str.contains(pat, case=False)] on one cell. *)
Fixpoint contains_ci (pat s : pystr) : bool :=
  startswith_ci pat s
  || match s with
     | [] => false
     | _ :: s' => contains_ci pat s'
     end.

(** ** Decimal numerals *)

Definition is_ascii_digit (c : N) : bool := between 48 57 c.

Definition digit_char (d : N) : N := (48 + d)%N.

(** The leading run of ASCII digits of [s] (as digit values) and the rest. *)
Fixpoint span_digits (s : pystr) : list N * pystr :=
  match s with
  | c :: s' =>
      if is_ascii_digit c
      then let (ds, rest) := span_digits s' in ((c - 48)%N :: ds, rest)
      else ([], s)
  | [] => ([], [])
  end.

Definition digits_value (ds : list N) : N :=
  fold_left (fun acc d => (10 * acc + d)%N) ds 0%N.

Definition decimal (ip fp : list N) : Q :=
  Qmake (Z.of_N (digits_value (ip ++ fp))) (Z.to_pos (10 ^ Z.of_nat (length fp))).

(** A binary64 number other than NaN: a finite one, given by its exact
    value, or an infinity. *)
Inductive float64 :=
  | Finite (q : Q)
  | Infinite (negative : bool).

(** A numeral as the C reader behind [pd.to_numeric] takes it apart: a
    sign, the digits before the point, the digits after it when there
    is a point, and the exponent when there is one. *)
Record numeral := mknumeral {
  negative : bool;
  int_digits : list N;
  fraction : option (list N);
  exponent : option Z
}.

(** The white space of the C reader: the space and the controls 9 to 13. *)
Definition is_c_space (c : N) : bool := (c =? 32)%N || between 9 13 c.

(** An optional sign: whether it is a minus, and the rest. *)
Definition read_sign (s : pystr) : bool * pystr :=
  match s with
  | c :: s' =>
      if (c =? 45)%N then (true, s')
      else if (c =? 43)%N then (false, s')
      else (false, s)
  | [] => (false, [])
  end.

Definition signed (neg : bool) (n : N) : Z :=
  if neg then (- Z.of_N n)%Z else Z.of_N n.

(** An optional point followed by digits. *)
Definition read_fraction (s : pystr) : option (list N) * pystr :=
  match s with
  | c :: s' =>
      if (c =? 46)%N then let (fp, rest) := span_digits s' in (Some fp, rest)
      else (None, s)
  | [] => (None, [])
  end.

(** An optional exponent: the letter e or E, an optional sign, digits.
    Without a digit the letter is not consumed. *)
Definition read_exponent (s : pystr) : option Z * pystr :=
  match s with
  | c :: s' =>
      if (c =? 101)%N || (c =? 69)%N then
        let (neg, s1) := read_sign s' in
        let (ds, rest) := span_digits s1 in
        match ds with
        | [] => (None, s)
        | _ :: _ => (Some (signed neg (digits_value ds)), rest)
        end
      else (None, s)
  | [] => (None, [])
  end.

(** The numerals of the C reader: white space, an optional sign, ASCII
    digits, an optional point and digits, at least one digit so far, an
    optional exponent, white space, and nothing after.  Any other text,
    in particular one with a character outside ASCII, is no numeral.
    (The text is taken to hold no NUL character, at which the C reader
    would stop.) *)
Definition read_numeral (s : pystr) : option numeral :=
  let (neg, s1) := read_sign (dropwhile is_c_space s) in
  let (ip, s2) := span_digits s1 in
  let (fr, s3) := read_fraction s2 in
  match ip ++ default [] fr with
  | [] => None
  | _ :: _ =>
      let (ex, s4) := read_exponent s3 in
      match dropwhile is_c_space s4 with
      | [] => Some {| negative := neg; int_digits := ip; fraction := fr;
                      exponent := ex |}
      | _ :: _ => None
      end
  end.

Definition ascii_lower (c : N) : N :=
  if between 65 90 c then (c + 32)%N else c.

(** The words read as an infinity when the text is no numeral, compared
    without regard to case; the result tells whether it is the negative
    one. *)
Definition read_inf (s : pystr) : option bool :=
  let l := List.map ascii_lower s in
  if pystr_eqb l (py "inf") || pystr_eqb l (py "+inf")
     || pystr_eqb l (py "infinity") || pystr_eqb l (py "+infinity")
  then Some false
  else if pystr_eqb l (py "-inf") || pystr_eqb l (py "-infinity")
  then Some true
  else None.

(** A numeral without point and exponent is also read as an integer. *)
Definition maybe_int (n : numeral) : bool :=
  match fraction n, exponent n with
  | None, None => true
  | _, _ => false
  end.

Definition numeral_int (n : numeral) : Z :=
  signed (negative n) (digits_value (int_digits n)).

(** The exact value a numeral denotes. *)
Definition numeral_value (n : numeral) : Q :=
  let m := decimal (int_digits n) (default [] (fraction n)) in
  let m := match exponent n with
           | Some e => (m * Qpower 10 e)%Q
           | None => m
           end in
  if negative n then (- m)%Q else m.

(** The text of an unsigned numeral without exponent. *)
Definition numeral_text (ip : list N) (fr : option (list N)) : pystr :=
  List.map digit_char ip
  ++ match fr with
     | Some fp => 46%N :: List.map digit_char fp
     | None => []
     end.

(** The bounds of the integer columns: int64 and uint64. *)
Definition int64_min : Z := (- 2 ^ 63)%Z.

Definition int64_max : Z := (2 ^ 63 - 1)%Z.

Definition uint64_max : Z := (2 ^ 64 - 1)%Z.

(** The decimal text of a natural number, as [str(n)] prints it. *)
Definition str_of_nat (n : nat) : pystr :=
  py (NilEmpty.string_of_uint (Nat.to_uint n)).

(** ** Calendar dates *)

Record date := mkdate { year : N; month : N; day : N }.

Definition is_leap (y : N) : bool :=
  ((y mod 4 =? 0) && (negb (y mod 100 =? 0) || (y mod 400 =? 0)))%N.

Definition days_in_month (y m : N) : N :=
  if (m =? 2)%N then (if is_leap y then 29 else 28)%N
  else if ((m =? 4) || (m =? 6) || (m =? 9) || (m =? 11))%N then 30%N
  else 31%N.

(** A date of the proleptic Gregorian calendar in the range of
    [datetime] (years 1 to 9999), which contains every pandas timestamp. *)
Definition valid_date (d : date) : bool :=
  between 1 9999 (year d) && between 1 12 (month d)
  && between 1 (days_in_month (year d) (month d)) (day d).

(** [%d] and [%m]: two digits, zero-padded. *)
Definition zero_pad2 (n : N) : pystr :=
  [digit_char (n / 10 mod 10); digit_char (n mod 10)]%N.

(** [%Y]: four digits for the years of [valid_date]. *)
Definition zero_pad4 (n : N) : pystr :=
  [digit_char (n / 1000 mod 10); digit_char (n / 100 mod 10);
   digit_char (n / 10 mod 10); digit_char (n mod 10)]%N.

(** [ts.strftime("%d/%m/%Y")] *)
Definition strftime (d : date) : pystr :=
  zero_pad2 (day d) ++ [47%N] ++ zero_pad2 (month d) ++ [47%N] ++ zero_pad4 (year d).

(** Reading zero-padded day/month/year text day first: two digits, a
    slash, two digits, a slash, four digits, naming a calendar date.
    This is the re-reading the rendered dates are checked against; the
    parser the script calls is the [to_datetime] of the section below. *)
Definition parse_ddmmyyyy (s : pystr) : option date :=
  match s with
  | [d1; d2; s1; m1; m2; s2; y1; y2; y3; y4] =>
      if forallb is_ascii_digit [d1; d2; m1; m2; y1; y2; y3; y4]
         && (s1 =? 47)%N && (s2 =? 47)%N
      then
        let d := {| year := digits_value (List.map (fun c => c - 48)%N [y1; y2; y3; y4]);
                    month := digits_value (List.map (fun c => c - 48)%N [m1; m2]);
                    day := digits_value (List.map (fun c => c - 48)%N [d1; d2]) |} in
        if valid_date d then Some d else None
      else None
  | _ => None
  end.

(** ** Table cells, frames, exceptions *)

(** What a cell of the data frame can hold: text, the [None] that pads
    a short row, a finite number (an int64 or a binary64, by its exact
    value), an infinity, NaN, a timestamp (its calendar date), or NaT. *)
Inductive value :=
  | VStr (s : pystr)
  | VNone
  | VNum (q : Q)
  | VInf (negative : bool)
  | VNaN
  | VDate (d : date)
  | VNaT.

(** A column label: a position of the initial frame, or a cell value
    once the header is resolved. *)
Inductive label :=
  | LInt (i : nat)
  | LVal (v : value).

(** A data frame, row-major: each row carries its index label. *)
Record frame := mkframe {
  columns : list label;
  rows : list (nat * list value)
}.

Inductive exn_class :=
  | FileNotFoundError
  | ValueError
  | AttributeError
  | IndexError
  | KeyError
  | TypeError
  | OtherException.

Record exn := mkexn { exn_kind : exn_class; exn_msg : pystr }.

Inductive result (A : Type) :=
  | Return (a : A)
  | Raise (e : exn).

Arguments Return {A} a.
Arguments Raise {A} e.

#[export] Instance result_ret : MRet result := fun A a => Return a.

#[export] Instance result_bind : MBind result := fun A B f m =>
  match m with
  | Return a => f a
  | Raise e => Raise e
  end.

(** What the run shows to the outside: lines printed, the frame
    preview, and the spreadsheet written. *)
Inductive event :=
  | Printed (line : pystr)
  | PrintedFrame (df : frame)
  | ToExcel (path : pystr) (df : frame).

(** Console output so far, and a value or the exception that ended the
    computation. *)
Record io (A : Type) := IO { output : list event; outcome : result A }.

Arguments IO {A} output outcome.
Arguments output {A} i.
Arguments outcome {A} i.

#[export] Instance io_ret : MRet io := fun A a => IO [] (Return a).

#[export] Instance io_bind : MBind io := fun A B f m =>
  match outcome m with
  | Return a => IO (output m ++ output (f a)) (outcome (f a))
  | Raise e => IO (output m) (Raise e)
  end.

Definition print (line : pystr) : io unit := IO [Printed line] (Return tt).

Definition print_frame (df : frame) : io unit := IO [PrintedFrame df] (Return tt).

Definition lift {A} (r : result A) : io A := IO [] r.

(** One page: what [page.extract_tables()] gives, tables of rows of
    optional cells, or the exception it raises. *)
Definition raw_row := list (option pystr).
Definition page := result (list (list raw_row)).

(** The environment of a run: the PDF opener and the outcome of writing
    the spreadsheet ([None]: written). *)
Record world := mkworld {
  pdfplumber_open : pystr -> option pystr -> result (list page);
  to_excel_error : pystr -> frame -> option exn
}.

(** ** Row normalisation (the loops over pages, tables and rows) *)

(** [cell.strip() if cell else ''], the empty text for a falsy cell:
    [None] and the empty text are falsy. *)
Definition clean_cell (cell : option pystr) : pystr :=
  match cell with
  | Some (c :: s) => strip (c :: s)
  | Some [] => []
  | None => []
  end.

(** The body of [for row in table]. *)
Definition append_row (all_transactions : list (list pystr)) (row : raw_row)
    : list (list pystr) :=
  let clean_row := List.map clean_cell row in
  if (length clean_row <? 7)%nat then all_transactions
  else all_transactions ++ [clean_row].

Definition read_table (all_transactions : list (list pystr)) (table : list raw_row)
    : list (list pystr) :=
  fold_left append_row table all_transactions.

(** The body of [for i, page in enumerate(pdf.pages)]. *)
Definition read_page (all_transactions : list (list pystr)) (p : page)
    : result (list (list pystr)) :=
  tables ← p;
  mret (fold_left read_table tables all_transactions).

Fixpoint read_pages (all_transactions : list (list pystr)) (pages : list page)
    : result (list (list pystr)) :=
  match pages with
  | [] => mret all_transactions
  | p :: pages' =>
      all_transactions' ← read_page all_transactions p;
      read_pages all_transactions' pages'
  end.

(** ** The data frame operations the script uses *)

Definition width (data : list (list pystr)) : nat :=
  foldr (fun r w => Nat.max (length r) w) 0%nat data.

(** A row of text cells, padded with [None] to [w] columns. *)
Definition pad_row (w : nat) (r : list pystr) : list value :=
  List.map VStr r ++ replicate (w - length r) VNone.

(** [pd.DataFrame(all_transactions)]: as many columns as the longest
    row, shorter rows padded, positions as labels and as index. *)
Definition DataFrame (data : list (list pystr)) : frame :=
  let w := width data in
  {| columns := List.map LInt (seq 0 w);
     rows := imap (fun i r => (i, pad_row w r)) data |}.

(** The values of the column at position [j]. *)
Definition column (j : nat) (df : frame) : list value :=
  List.map (fun r => default VNone (r.2 !! j)) (rows df).

(** [Series.str.contains(pat, case=False, na=False)] on one cell. *)
Definition str_contains (pat : pystr) (v : value) : bool :=
  match v with
  | VStr s => contains_ci pat s
  | _ => false
  end.

Definition headers : list pystr :=
  [py "Date"; py "Narration"; py "Chq./Ref.No."; py "Value Date";
   py "Withdrawal Amount"; py "Deposit Amount"; py "Closing Balance"].

(** [(df[0].str.contains("Date", ...)) & (df[1].str.contains("Narration", ...))]
    on the initial frame of a run, whose rows have at least seven
    cells, so that both columns exist. *)
Definition header_mask (df : frame) : list bool :=
  zip_with andb
    (List.map (str_contains (py "Date")) (column 0 df))
    (List.map (str_contains (py "Narration")) (column 1 df)).

Definition length_mismatch (expected given : nat) : exn :=
  {| exn_kind := ValueError;
     exn_msg := py "Length mismatch: Expected axis has " ++ str_of_nat expected
                ++ py " elements, new values have " ++ str_of_nat given
                ++ py " elements" |}.

(** [df.columns = names]: one name per column, or a [ValueError]. *)
Definition set_columns (names : list label) (df : frame) : result frame :=
  if (length names =? length (columns df))%nat
  then Return {| columns := names; rows := rows df |}
  else Raise (length_mismatch (length (columns df)) (length names)).

(** [df[mask]]: the rows whose mask entry is true, index labels kept. *)
Definition select_rows (mask : list bool) (df : frame) : frame :=
  {| columns := columns df;
     rows := List.map fst (List.filter snd (zip (rows df) mask)) |}.

(** [df.iloc[0]] *)
Definition iloc0 (df : frame) : result (list value) :=
  match rows df with
  | r :: _ => Return r.2
  | [] => Raise {| exn_kind := IndexError;
                   exn_msg := py "single positional indexer is out-of-bounds" |}
  end.

(** [df[1:]] *)
Definition tail_rows (df : frame) : frame :=
  {| columns := columns df; rows := drop 1 (rows df) |}.

(** Lines 46 to 55: the header mask decides between the fixed names and
    the first row. *)
Definition resolve_header (df : frame) : result frame :=
  let mask := header_mask df in
  if existsb id mask then
    df' ← set_columns (List.map (fun h => LVal (VStr h)) headers) df;
    mret (select_rows (List.map negb mask) df')
  else
    first ← iloc0 df;
    df' ← set_columns (List.map LVal first) df;
    mret (tail_rows df').

Definition is_label (col : pystr) (l : label) : bool :=
  match l with
  | LVal (VStr s) => pystr_eqb s col
  | _ => false
  end.

(** [col in df.columns] *)
Definition has_column (col : pystr) (df : frame) : bool :=
  existsb (is_label col) (columns df).

(** The positions of the columns labelled [col]. *)
Definition get_loc (col : pystr) (df : frame) : list nat :=
  List.filter (fun j => is_label col (default (LInt 0) (columns df !! j)))
    (seq 0 (length (columns df))).

(** One row with the value [v] written at position [j]. *)
Definition write_cell (j : nat) (r : nat * list value) (v : value) : nat * list value :=
  (r.1, <[j:=v]> r.2).

(** Writing one value per row into the column at position [j].  The
    pandas functions of this script give one value per row; values of
    any other length are the [ValueError] pandas raises for them. *)
Definition set_column (j : nat) (vals : list value) (df : frame) : result frame :=
  if (length vals =? length (rows df))%nat
  then Return {| columns := columns df;
                 rows := zip_with (write_cell j) (rows df) vals |}
  else Raise {| exn_kind := ValueError;
                exn_msg := py "Length of values does not match length of index" |}.

(** [df[col] = f(df[col])].  [df[col]] is a series when one column has
    the label; when several have it, it is a frame and the expression
    [f] raises [on_frame]; with none it is a [KeyError]. *)
Definition update_column (col : pystr) (f : list value -> result (list value))
    (on_frame : exn) (df : frame) : result frame :=
  match get_loc col df with
  | [j] => vals ← f (column j df); set_column j vals df
  | [] => Raise {| exn_kind := KeyError; exn_msg := col |}
  | _ :: _ :: _ => Raise on_frame
  end.

Definition no_str_accessor : exn :=
  {| exn_kind := AttributeError;
     exn_msg := py "'DataFrame' object has no attribute 'str'" |}.

Definition duplicate_keys : exn :=
  {| exn_kind := ValueError; exn_msg := py "cannot assemble with duplicate keys" |}.

Definition no_dt_accessor : exn :=
  {| exn_kind := AttributeError;
     exn_msg := py "Can only use .dt accessor with datetimelike values" |}.

(** [df.reset_index(drop=True)] *)
Definition reset_index (df : frame) : frame :=
  {| columns := columns df; rows := imap (fun i r => (i, r.2)) (rows df) |}.

(** [df.head(n)] *)
Definition head (n : nat) (df : frame) : frame :=
  {| columns := columns df; rows := take n (rows df) |}.

(** ** Sample inputs and library instances for the closed examples *)

(** A [\d] table holding the Arabic-Indic digits only. *)
Definition arabic_indic_digit (c : N) : bool := between 1632 1641 c.

(** ISO text for a timestamp, nothing for the rest. *)
Definition plain_str (v : value) : pystr :=
  match v with
  | VDate d => zero_pad4 (year d) ++ [45%N] ++ zero_pad2 (month d) ++ [45%N] ++ zero_pad2 (day d)
  | _ => []
  end.

(** A reader that computes the exact value of every numeral, as the
    reader of pandas does for the amounts of the closed examples below,
    which binary64 holds exactly. *)
Definition exact_reader (n : numeral) : option float64 :=
  Some (Finite (numeral_value n)).

(** The three numbers of a text of the shape A/B/Y: one or two ASCII
    digits, a slash, one or two digits, a slash, four digits. *)
Definition slash_fields (s : pystr) : option (N * N * N) :=
  let (a, r1) := span_digits s in
  match r1 with
  | c1 :: r2 =>
      let (b, r3) := span_digits r2 in
      match r3 with
      | c2 :: r4 =>
          let (y, r5) := span_digits r4 in
          match r5 with
          | [] =>
              if (c1 =? 47)%N && (c2 =? 47)%N
                 && between 1 2 (N.of_nat (length a))
                 && between 1 2 (N.of_nat (length b))
                 && (length y =? 4)%nat
              then Some (digits_value a, digits_value b, digits_value y)
              else None
          | _ :: _ => None
          end
      | [] => None
      end
  | [] => None
  end.

(** The order in which the first two numbers are taken. *)
Inductive date_order :=
  | DayFirst
  | MonthFirst.

(** The dates a nanosecond timestamp can hold at midnight. *)
Definition in_timestamp_range (d : date) : bool :=
  between 16770922 22620411 (year d * 10000 + month d * 100 + day d)%N.

(** The three numbers as a date, in the given order. *)
Definition fields_date (o : date_order) (f : N * N * N) : date :=
  let '(a, b, y) := f in
  match o with
  | DayFirst => {| year := y; month := b; day := a |}
  | MonthFirst => {| year := y; month := a; day := b |}
  end.

(** The timestamp the three numbers give in that order, if any. *)
Definition read_fields (o : date_order) (f : N * N * N) : option date :=
  let d := fields_date o f in
  if valid_date d && in_timestamp_range d then Some d else None.

(** The order chosen for one text under [dayfirst=True]: the day comes
    first unless the second number cannot be a month while the first
    can. *)
Definition preferred_order (f : N * N * N) : date_order :=
  let '(a, b, _) := f in
  if (b <=? 12)%N then DayFirst
  else if (a <=? 12)%N then MonthFirst
  else DayFirst.

(** The cells that are skipped when the first cell is looked for:
    missing values, the empty text and the words for NaT. *)
Definition is_null_cell (v : value) : bool :=
  match v with
  | VStr s =>
      pystr_eqb s [] || pystr_eqb s (py "NaT") || pystr_eqb s (py "nat")
      || pystr_eqb s (py "NAT") || pystr_eqb s (py "nan") || pystr_eqb s (py "NaN")
      || pystr_eqb s (py "NAN")
  | _ => true
  end.

(** One cell read in the order of the column's format or, without a
    format, in its own preferred order; a cell of another shape than
    A/B/Y is NaT. *)
Definition read_cell_as (o : option date_order) (v : value) : option date :=
  match v with
  | VStr s =>
      match slash_fields s with
      | Some f => read_fields (default (preferred_order f) o) f
      | None => None
      end
  | _ => None
  end.

(** [pd.to_datetime(column, dayfirst=True, errors="coerce")] of pandas 2
    on a column of text cells whose first cell that is not null has
    the shape A/B/Y.  When that cell names a calendar date in its
    preferred order, this order is the format of the whole column: a
    cell that names no date in that order is NaT, and so is a cell of
    any other shape.  When it names no calendar date there is no
    format, and each cell is read in its own preferred order.
    Outside the model, and given NaT throughout, are the columns whose
    first cell has another shape or names a date beyond the range of
    a timestamp; within a column, the words now and today, digits from
    outside ASCII, and the cells of another shape in a column without
    format are given NaT as well, where pandas may read a date. *)
Definition to_datetime_slash (vals : list value) : result (list (option date)) :=
  match List.filter (fun v => negb (is_null_cell v)) vals with
  | VStr s :: _ =>
      match slash_fields s with
      | Some f =>
          let d := fields_date (preferred_order f) f in
          if valid_date d then
            if in_timestamp_range d
            then Return (List.map (read_cell_as (Some (preferred_order f))) vals)
            else Return (List.map (fun _ => None) vals)
          else Return (List.map (read_cell_as None) vals)
      | None => Return (List.map (fun _ => None) vals)
      end
  | _ => Return (List.map (fun _ => None) vals)
  end.

Definition header_row : raw_row :=
  List.map Some headers.

Definition salary_row : raw_row :=
  [Some (py "01/04/2024"); Some (py "Salary Credit" ++ [10%N] ++ py "ABC Corp");
   Some (py "REF1"); Some (py "01/04/2024"); Some []; Some (py "5,000.00");
   Some (py "10,000.00")].

(** The same two rows as an eight-column table reads them: the layout
    detection has found one more, empty, column. *)
Definition wide_header_row : raw_row := header_row ++ [None].

Definition wide_row : raw_row := salary_row ++ [None].

(** One page with one table: the header and the record; the same as an
    eight-column table; and a page whose only row is too short. *)
Definition statement_pages : list (list (list raw_row)) := [[[header_row; salary_row]]].

Definition wide_pages : list (list (list raw_row)) := [[[wide_header_row; wide_row]]].

Definition blank_pages : list (list (list raw_row)) := [[[[Some (py "scanned"); None]]]].

(** The table expected for [statement_pages]. *)
Definition salary_frame : frame :=
  {| columns := List.map (fun h => LVal (VStr h)) headers;
     rows := [(0%nat, [VStr (py "01/04/2024"); VStr (py "Salary Credit ABC Corp");
                       VStr (py "REF1"); VStr (py "01/04/2024");
                       VNum 0; VNum (500000 # 100); VNum (1000000 # 100)])] |}.

(** A record whose closing balance carries a credit mark. *)
Definition credit_row : raw_row :=
  [Some (py "02/04/2024"); Some (py "Interest"); Some (py "REF2");
   Some (py "02/04/2024"); Some []; Some (py "12.50"); Some (py "12 Cr")].

Definition credit_pages : list (list (list raw_row)) := [[[header_row; credit_row]]].

(** The table expected for [credit_pages]. *)
Definition credit_frame : frame :=
  {| columns := List.map (fun h => LVal (VStr h)) headers;
     rows := [(0%nat, [VStr (py "02/04/2024"); VStr (py "Interest");
                       VStr (py "REF2"); VStr (py "02/04/2024");
                       VNum 0; VNum (1250 # 100); VNum 12])] |}.

(** Two records: the date of the first can only be read month first,
    the date of the second can be read either way. *)
Definition month_first_row : raw_row :=
  [Some (py "04/13/2024"); Some (py "Card"); Some (py "REF3");
   Some (py "04/13/2024"); Some (py "100.00"); Some []; Some (py "900.00")].

Definition ambiguous_row : raw_row :=
  [Some (py "01/04/2024"); Some (py "Cash"); Some (py "REF4");
   Some (py "01/04/2024"); Some []; Some (py "50.00"); Some (py "950.00")].

Definition mixed_date_pages : list (list (list raw_row)) :=
  [[[header_row; month_first_row; ambiguous_row]]].

(** The table expected for [mixed_date_pages]. *)
Definition mixed_date_frame : frame :=
  {| columns := List.map (fun h => LVal (VStr h)) headers;
     rows := [(0%nat, [VStr (py "13/04/2024"); VStr (py "Card"); VStr (py "REF3");
                       VStr (py "13/04/2024");
                       VNum (10000 # 100); VNum 0; VNum (90000 # 100)]);
              (1%nat, [VStr (py "04/01/2024"); VStr (py "Cash"); VStr (py "REF4");
                       VStr (py "04/01/2024");
                       VNum 0; VNum (5000 # 100); VNum (95000 # 100)])] |}.

(** A world whose PDF opens to the given pages and whose spreadsheet
    can be written. *)
Definition world_of (pages : list (list (list raw_row))) : world :=
  {| pdfplumber_open := fun _ _ => Return (List.map Return pages);
     to_excel_error := fun _ _ => None |}.

(** Exceptions of the environment: the input file is absent, a page
    cannot be decoded, the output cannot be written. *)
Definition no_such_file : exn :=
  {| exn_kind := FileNotFoundError;
     exn_msg := py "[Errno 2] No such file or directory: 'statement.pdf'" |}.

Definition broken_page : exn :=
  {| exn_kind := OtherException; exn_msg := py "Unexpected EOF" |}.

Definition permission_denied : exn :=
  {| exn_kind := OtherException;
     exn_msg := py "[Errno 13] Permission denied: 'hdfc_cleaned_data.xlsx'" |}.

Definition missing_world : world :=
  {| pdfplumber_open := fun _ _ => Raise no_such_file;
     to_excel_error := fun _ _ => None |}.

(** The statement followed by a page that cannot be decoded. *)
Definition torn_world : world :=
  {| pdfplumber_open := fun _ _ =>
       Return (List.map Return statement_pages ++ [Raise broken_page]);
     to_excel_error := fun _ _ => None |}.

Definition readonly_world : world :=
  {| pdfplumber_open := fun _ _ => Return (List.map Return statement_pages);
     to_excel_error := fun _ _ => Some permission_denied |}.

(** A table of another layout: no row has Date and Narration in its
    first two cells, so its first row serves as the header. *)
Definition ledger_header : list pystr :=
  [py "Txn Date"; py "Description"; py "Ref"; py "Value Date"; py "Debit";
   py "Credit"; py "Balance"].

Definition ledger_record : list pystr :=
  [py "02/04/2024"; py "ATM"; py "R2"; py "03/04/2024"; py "500.00"; [];
   py "9,500.00"].

(** The statement after header resolution, before the field cleaner. *)
Definition salary_resolved : frame :=
  {| columns := List.map (fun h => LVal (VStr h)) headers;
     rows := [(1%nat, [VStr (py "01/04/2024");
                       VStr (py "Salary Credit" ++ [10%N] ++ py "ABC Corp");
                       VStr (py "REF1"); VStr (py "01/04/2024");
                       VStr []; VStr (py "5,000.00"); VStr (py "10,000.00")])] |}.

(** A first row that names two columns Narration. *)
Definition twin_header : list pystr :=
  [py "Sl"; py "Narration"; py "Narration"; py "Ref"; py "Debit"; py "Credit";
   py "Balance"].

(** ** The field cleaner, the extraction function and the entry point *)

Section Pipeline.

(** Four functions of Python and pandas that the script relies on and
    that are taken as given: which code points beyond ASCII the regular
    expression class [\d] contains; the text [str] gives for a number
    or a timestamp; [pd.to_datetime(series, dayfirst=True,
    errors="coerce")], which reads a whole column at once and yields,
    for each position, a calendar date or nothing (NaT), unless it
    raises; and the number the C reader of [pd.to_numeric] computes
    for a numeral it has recognised, or nothing when the cell is not
    converted after all (the reader reports a value out of range, or
    Python refuses the integer for its number of digits). *)
Variable unicode_Nd : N -> bool.
Variable py_str : value -> pystr.
Variable to_datetime : list value -> result (list (option date)).
Variable xstrtod : numeral -> option float64.

(** The class [\d] of a text pattern: the decimal digits of Unicode. *)
Definition re_digit (c : N) : bool :=
  is_ascii_digit c || ((128 <=? c)%N && unicode_Nd c).

(** [re.sub] of the pattern [[^\d.]] by the empty text: only digits
    and points stay. *)
Definition re_sub_non_numeric (s : pystr) : pystr :=
  List.filter (fun c => re_digit c || (c =? 46)%N) s.

(** One element under [Series.astype(str)]. *)
Definition astype_str (v : value) : pystr :=
  match v with
  | VStr s => s
  | VNone => py "None"
  | VNaN => py "nan"
  | VNaT => py "NaT"
  | VInf false => py "inf"
  | VInf true => py "-inf"
  | VNum _ | VDate _ => py_str v
  end.

(** [s.astype(str).str.replace(old, new, regex=False)] *)
Definition series_replace (old new : pystr) (vals : list value) : result (list value) :=
  Return (List.map (fun v => VStr (str_replace old new (astype_str v))) vals).

(** [s.astype(str).str.replace(pat, empty, regex=True)] for the pattern
    [[^\d.]] of line 61. *)
Definition series_re_sub (vals : list value) : result (list value) :=
  Return (List.map (fun v => VStr (re_sub_non_numeric (astype_str v))) vals).

(** One text cell under [pd.to_numeric]: the number read and, for a
    numeral without point and exponent, the integer Python makes of
    it; [None] is the NaN of [errors="coerce"]. *)
Definition read_text (s : pystr) : option (float64 * option Z) :=
  match s with
  | [] => None
  | _ :: _ =>
      match read_numeral s with
      | Some n =>
          match xstrtod n with
          | Some f => Some (f, if maybe_int n then Some (numeral_int n) else None)
          | None => None
          end
      | None =>
          match read_inf s with
          | Some neg => Some (Infinite neg, None)
          | None => None
          end
      end
  end.

(** One cell of an object column: a number is taken as a float, a
    missing value and anything that is neither text nor number as NaN. *)
Definition read_value (v : value) : option (float64 * option Z) :=
  match v with
  | VStr s => read_text s
  | VNum q => Some (Finite q, None)
  | VInf neg => Some (Infinite neg, None)
  | _ => None
  end.

(** The integer of a cell that can stay an integer: it was read as one
    and lies between [int64_min] and [uint64_max]. *)
Definition as_integer (r : option (float64 * option Z)) : option Z :=
  match r with
  | Some (_, Some z) =>
      if (int64_min <=? z)%Z && (z <=? uint64_max)%Z then Some z else None
  | _ => None
  end.

(** The column is stored as integers when every cell can stay an
    integer, unless a negative one meets one above [int64_max]. *)
Definition integer_column (rs : list (option (float64 * option Z))) : bool :=
  forallb (fun r => match as_integer r with Some _ => true | None => false end) rs
  && negb (existsb (fun r => match as_integer r with
                             | Some z => (z <? 0)%Z
                             | None => false
                             end) rs
           && existsb (fun r => match as_integer r with
                                | Some z => (int64_max <? z)%Z
                                | None => false
                                end) rs).

Definition as_float (r : option (float64 * option Z)) : value :=
  match r with
  | Some (Finite q, _) => VNum q
  | Some (Infinite neg, _) => VInf neg
  | None => VNaN
  end.

(** [pd.to_numeric(s, errors="coerce")]: an integer column when all
    cells allow it, a float column with NaN for the unread cells
    otherwise. *)
Definition to_numeric (vals : list value) : list value :=
  let rs := List.map read_value vals in
  if integer_column rs
  then List.map (fun r => match as_integer r with
                          | Some z => VNum (inject_Z z)
                          | None => VNaN
                          end) rs
  else List.map as_float rs.

(** [fillna(x)] on one cell of a numeric column. *)
Definition fillna (x : value) (v : value) : value :=
  match v with
  | VNaN => x
  | _ => v
  end.

(** [pd.to_numeric(s, errors="coerce").fillna(0.0)] *)
Definition series_to_numeric (vals : list value) : result (list value) :=
  Return (List.map (fillna (VNum 0)) (to_numeric vals)).

(** The text of a cell that reaches [pd.to_numeric]: what lines 60 and
    61 leave of it. *)
Definition kept_text (v : value) : pystr :=
  re_sub_non_numeric (str_replace (py ",") [] (astype_str v)).

(** The three statements of lines 60 to 62 as they act on one cell of
    a column that is stored as floats. *)
Definition clean_amount (v : value) : value :=
  fillna (VNum 0) (as_float (read_text (kept_text v))).

(** The integer of a cell that can stay an integer after lines 60 and
    61, and whether all cells of a column have one. *)
Definition integer_amount (v : value) : option Z :=
  as_integer (read_text (kept_text v)).

Definition integer_amounts (vals : list value) : bool :=
  forallb (fun v => match integer_amount v with Some _ => true | None => false end) vals.

(** The three statements as they act on a whole column. *)
Definition amount_column (vals : list value) : list value :=
  if integer_amounts vals
  then List.map (fun v => VNum (inject_Z (default 0%Z (integer_amount v)))) vals
  else List.map clean_amount vals.

Definition cols_to_clean : list pystr :=
  [py "Withdrawal Amount"; py "Deposit Amount"; py "Closing Balance"].

Definition frame_to_numeric : exn :=
  {| exn_kind := TypeError;
     exn_msg := py "arg must be a list, tuple, 1-d array, or Series" |}.

(** Lines 59 to 62, the body of [for col in cols_to_clean]. *)
Definition clean_amount_column (col : pystr) (df : frame) : result frame :=
  if has_column col df then
    df1 ← update_column col (series_replace (py ",") []) no_str_accessor df;
    df2 ← update_column col series_re_sub no_str_accessor df1;
    update_column col series_to_numeric frame_to_numeric df2
  else Return df.

Fixpoint clean_amounts (cols : list pystr) (df : frame) : result frame :=
  match cols with
  | [] => Return df
  | col :: cols' => df' ← clean_amount_column col df; clean_amounts cols' df'
  end.

(** [pd.to_datetime(s, dayfirst=True, errors="coerce")] as a column. *)
Definition series_to_datetime (vals : list value) : result (list value) :=
  ds ← to_datetime vals;
  mret (List.map (fun o => match o with Some d => VDate d | None => VNaT end) ds).

Definition is_datetimelike (v : value) : bool :=
  match v with
  | VDate _ | VNaT => true
  | _ => false
  end.

(** [s.dt.strftime("%d/%m/%Y")]: NaT gives NaN. *)
Definition dt_strftime (vals : list value) : result (list value) :=
  if forallb is_datetimelike vals
  then Return (List.map (fun v => match v with
                                  | VDate d => VStr (strftime d)
                                  | _ => VNaN
                                  end) vals)
  else Raise no_dt_accessor.

(** The two statements on a date column, one after the other. *)
Definition clean_dates (vals : list value) : result (list value) :=
  vs ← series_to_datetime vals; dt_strftime vs.

Definition frame_dt : exn :=
  {| exn_kind := AttributeError;
     exn_msg := py "'DataFrame' object has no attribute 'dt'" |}.

(** Lines 65 to 68 and 70 to 74. *)
Definition clean_date_column (col : pystr) (df : frame) : result frame :=
  if has_column col df then
    df1 ← update_column col series_to_datetime duplicate_keys df;
    update_column col dt_strftime frame_dt df1
  else Return df.

(** [replace("\n", " ")] as it acts on one cell. *)
Definition clean_narration (v : value) : value :=
  VStr (str_replace [10%N] [32%N] (astype_str v)).

(** Lines 78 to 81. *)
Definition clean_narration_column (df : frame) : result frame :=
  if has_column (py "Narration") df then
    update_column (py "Narration") (series_replace [10%N] [32%N]) no_str_accessor df
  else Return df.

(** Lines 57 to 83. *)
Definition clean_fields (df : frame) : result frame :=
  df1 ← clean_amounts cols_to_clean df;
  df2 ← clean_date_column (py "Date") df1;
  df3 ← clean_date_column (py "Value Date") df2;
  df4 ← clean_narration_column df3;
  mret (reset_index df4).

Definition processing_message (n : nat) (pdf_path : pystr) : pystr :=
  py "Processing " ++ str_of_nat n ++ py " pages in '" ++ pdf_path ++ py "'...".

Definition no_data_message : pystr :=
  py "Error: No data found. The PDF might be an image scan or have a different layout.".

Definition extract_hdfc_statement (w : world) (pdf_path : pystr)
    (password : option pystr) : io (option frame) :=
  pages ← lift (pdfplumber_open w pdf_path password);
  print (processing_message (length pages) pdf_path);;
  all_transactions ← lift (read_pages [] pages);
  match all_transactions with
  | [] => print no_data_message;; mret None
  | _ :: _ =>
      df ← lift (resolve_header (DataFrame all_transactions));
      df' ← lift (clean_fields df);
      mret (Some df')
  end.

Definition pdf_filename : pystr := py "statement.pdf".

Definition output_file : pystr := py "hdfc_cleaned_data.xlsx".

(** [df_result.to_excel(output_file, index=False)] *)
Definition to_excel (w : world) (path : pystr) (df : frame) : io unit :=
  match to_excel_error w path df with
  | Some e => IO [] (Raise e)
  | None => IO [ToExcel path df] (Return tt)
  end.

(** The body of the [try] of the entry point. *)
Definition try_block (w : world) : io unit :=
  df_result ← extract_hdfc_statement w pdf_filename None;
  match df_result with
  | Some df =>
      print (10%N :: py "--- Preview of Extracted Data ---");;
      print_frame (head 10 df);;
      to_excel w output_file df;;
      print (10%N :: py "Success! Data saved to: " ++ output_file)
  | None => mret tt
  end.

(** The entry point with its two handlers; the result is what the run
    shows to the outside. *)
Definition main (w : world) : list event :=
  let r := try_block w in
  match outcome r with
  | Return _ => output r
  | Raise e =>
      match exn_kind e with
      | FileNotFoundError =>
          output r ++ [Printed (py "Error: The file '" ++ pdf_filename
                              ++ py "' was not found. Please check the name.")]
      | _ =>
          output r ++ [Printed (py "An unexpected error occurred: " ++ exn_msg e)]
      end
  end.

(** The pattern [^[\d,]*\.?\d*$] of the specification, as a full match:
    digits and commas, at most one point, digits. *)
Definition amount_pattern (s : pystr) : bool :=
  let rest := dropwhile (fun c => re_digit c || (c =? 44)%N) s in
  forallb re_digit (match rest with
                    | c :: rest' => if (c =? 46)%N then rest' else rest
                    | [] => []
                    end).

(** The index labels and the cell rows of a frame. *)
Definition index (df : frame) : list nat := List.map fst (rows df).

Definition body (df : frame) : list (list value) := List.map snd (rows df).

(** The header test of line 46 on the cells of one row. *)
Definition row_is_header (cells : list value) : bool :=
  str_contains (py "Date") (default VNone (cells !! 0%nat))
  && str_contains (py "Narration") (default VNone (cells !! 1%nat)).

(** The rows that remain on the first branch: those that do not match. *)
Definition data_rows (df : frame) : list (nat * list value) :=
  List.filter (fun r => negb (row_is_header r.2)) (rows df).

(** A frame is rectangular when every row has one cell per column. *)
Definition rectangular (df : frame) : Prop :=
  Forall (fun r => length r.2 = length (columns df)) (rows df).

(** One step of the field cleaner seen from outside: labels, index and
    shape stay, the columns labelled [col] change as [g] says, and the
    other columns stay as they are. *)
Definition column_step (col : pystr) (g : list value -> list value -> Prop)
    (df df' : frame) : Prop :=
  columns df' = columns df /\ index df' = index df /\ rectangular df'
  /\ forall j l, columns df !! j = Some l ->
       if is_label col l then g (column j df) (column j df')
       else column j df' = column j df.

(** The six labels the field cleaner looks for. *)
Definition cleaned_labels : list pystr :=
  cols_to_clean ++ [py "Date"; py "Value Date"; py "Narration"].

Definition is_cleaned_label (l : label) : bool :=
  existsb (fun col => is_label col l) cleaned_labels.

(** The header test of line 46 on a normalised row of text cells. *)
Definition row_matches (r : list pystr) : bool :=
  contains_ci (py "Date") (default [] (r !! 0%nat))
  && contains_ci (py "Narration") (default [] (r !! 1%nat)).

(** The number of decimal points of a text. *)
Definition count_points (s : pystr) : nat :=
  length (List.filter (fun c => (c =? 46)%N) s).

(** The lines of the entry point. *)
Definition preview_line : pystr := 10%N :: py "--- Preview of Extracted Data ---".

Definition success_line : pystr := 10%N :: py "Success! Data saved to: " ++ output_file.

Definition file_not_found_line : pystr :=
  py "Error: The file '" ++ pdf_filename ++ py "' was not found. Please check the name.".

Definition unexpected_line (e : exn) : pystr :=
  py "An unexpected error occurred: " ++ exn_msg e.

(** What the two handlers of the entry point print for an exception. *)
Definition report (e : exn) : event :=
  match exn_kind e with
  | FileNotFoundError => Printed file_not_found_line
  | _ => Printed (unexpected_line e)
  end.

(** Each of the six labels is carried by at most one column. *)
Definition labels_unique (df : frame) : Prop :=
  forall col, In col cleaned_labels -> length (get_loc col df) <= 1.

(** [pd.to_datetime] reads the columns labelled Date and Value Date of
    the frame: on each it gives one result per cell and does not raise. *)
Definition dates_read (df : frame) : Prop :=
  forall col j, In col [py "Date"; py "Value Date"] -> get_loc col df = [j] ->
    exists ds, to_datetime (column j df) = Return ds
               /\ length ds = length (column j df).

(** The frame header resolution gives on its first branch: the seven
    names over the rows that do not match the header pattern. *)
Definition statement_frame (data : list (list pystr)) : frame :=
  {| columns := List.map (fun h => LVal (VStr h)) headers;
     rows := data_rows (DataFrame data) |}.

(** What the two statements on a date column make of one result of the
    parser. *)
Definition render_date (o : option date) : value :=
  match o with
  | Some d => VStr (strftime d)
  | None => VNaN
  end.

(** A cell of a float column after [fillna(0.0)], from what the reader
    gave for its numeral. *)
Definition filled (o : option float64) : value :=
  match o with
  | Some (Finite q) => VNum q
  | Some (Infinite neg) => VInf neg
  | None => VNum 0
  end.

(** The characters line 61 keeps. *)
Definition kept_char (c : N) : bool := re_digit c || (c =? 46)%N.

(** A text that is no numeral although it holds digits and points
    only: it has no ASCII digit (the empty text, a lone point), more
    than one point, or a digit from outside ASCII. *)
Definition not_a_numeral (k : pystr) : Prop :=
  existsb is_ascii_digit k = false \/ 2 <= count_points k
  \/ existsb (fun c => (128 <=? c)%N) k = true.

(** Digit values. *)
Definition digits (ds : list N) : Prop := Forall (fun d => (d < 10)%N) ds.

(** A binary64 number that is not below zero: a finite one from zero
    on, or the positive infinity. *)
Definition float_nonneg (f : float64) : Prop :=
  match f with
  | Finite q => (0 <= q)%Q
  | Infinite neg => neg = false
  end.

(** The reader gives no number below zero for a numeral without a
    minus sign. *)
Definition reader_keeps_sign : Prop :=
  forall n f, xstrtod n = Some f -> negative n = false -> float_nonneg f.

(** ** Facts about lists *)

Lemma lookup_map {A B} (f : A -> B) (l : list A) (i : nat) :
  List.map f l !! i = f <$> (l !! i).
Proof.
  revert i. induction l as [|x l IH]; intros [|i]; try reflexivity. apply IH.
Qed.

(** ** Facts about the text functions *)

Lemma dropwhile_split (p : N -> bool) (s : pystr) :
  exists pre, s = pre ++ dropwhile p s /\ forallb p pre = true.
Proof.
  induction s as [|c s IH]; simpl.
  - exists []. split; reflexivity.
  - destruct (p c) eqn:Hc.
    + destruct IH as [pre [Heq Hall]].
      exists (c :: pre). simpl. rewrite Hc, Hall. split; [congruence | reflexivity].
    + exists []. split; reflexivity.
Qed.

Lemma dropwhile_head (p : N -> bool) (s : pystr) (c : N) (rest : pystr) :
  dropwhile p s = c :: rest -> p c = false.
Proof.
  induction s as [|x s IH]; simpl; [discriminate |].
  destruct (p x) eqn:Hx; [exact IH |].
  intros H. injection H as -> _. exact Hx.
Qed.

Lemma dropwhile_fixed (p : N -> bool) (s : pystr) :
  (forall c rest, s = c :: rest -> p c = false) -> dropwhile p s = s.
Proof.
  destruct s as [|c s]; [reflexivity |]. intros H. cbn [dropwhile].
  rewrite (H c s eq_refl). reflexivity.
Qed.

Lemma forallb_rev {A} (p : A -> bool) (l : list A) :
  forallb p (rev l) = forallb p l.
Proof.
  induction l as [|x l IH]; simpl; [reflexivity |].
  rewrite forallb_app, IH. simpl. rewrite andb_true_r. apply andb_comm.
Qed.

(** [strip] removes a run of white space at each end and nothing else. *)
Lemma strip_split (s : pystr) :
  exists pre suf, s = pre ++ strip s ++ suf
    /\ forallb py_isspace pre = true /\ forallb py_isspace suf = true.
Proof.
  unfold strip, rstrip, lstrip.
  destruct (dropwhile_split py_isspace s) as [pre [Hs Hpre]].
  destruct (dropwhile_split py_isspace (rev (dropwhile py_isspace s))) as [suf [Ht Hsuf]].
  exists pre, (rev suf). split; [| split].
  - rewrite <- rev_app_distr, <- Ht, rev_involutive. exact Hs.
  - exact Hpre.
  - rewrite forallb_rev. exact Hsuf.
Qed.

Lemma strip_first (s : pystr) (c : N) (rest : pystr) :
  strip s = c :: rest -> py_isspace c = false.
Proof.
  unfold strip, rstrip, lstrip. intros H.
  destruct (dropwhile_split py_isspace (rev (dropwhile py_isspace s))) as [suf [Ht _]].
  apply (f_equal (@rev N)) in Ht. rewrite rev_involutive, rev_app_distr, H in Ht.
  simpl in Ht. exact (dropwhile_head _ _ _ _ Ht).
Qed.

Lemma strip_last (s : pystr) (c : N) (front : pystr) :
  strip s = front ++ [c] -> py_isspace c = false.
Proof.
  unfold strip, rstrip. intros H.
  apply (f_equal (@rev N)) in H. rewrite rev_involutive, rev_app_distr in H.
  simpl in H. exact (dropwhile_head _ _ _ _ H).
Qed.

Lemma clean_cell_strip (s : pystr) : clean_cell (Some s) = strip s.
Proof. destruct s; reflexivity. Qed.

(** Replacing a single character works character by character. *)
Lemma replace_from_char (c : N) (new s : pystr) :
  replace_from [c] new 0 s = flat_map (fun x => if (c =? x)%N then new else [x]) s.
Proof.
  induction s as [|x s IH]; [reflexivity |].
  cbn [replace_from startswith flat_map length Nat.sub].
  destruct s; cbn [startswith]; rewrite andb_true_r;
    destruct (c =? x)%N; rewrite IH; reflexivity.
Qed.

Lemma flat_map_delete (c : N) (s : pystr) :
  flat_map (fun x => if (c =? x)%N then [] else [x]) s
  = List.filter (fun x => negb (x =? c)%N) s.
Proof.
  induction s as [|x s IH]; [reflexivity |].
  cbn [flat_map List.filter]. rewrite (N.eqb_sym x c), IH.
  destruct (c =? x)%N; reflexivity.
Qed.

Lemma flat_map_subst (c c' : N) (s : pystr) :
  flat_map (fun x => if (c =? x)%N then [c'] else [x]) s
  = List.map (fun x => if (x =? c)%N then c' else x) s.
Proof.
  induction s as [|x s IH]; [reflexivity |].
  cbn [flat_map List.map]. rewrite (N.eqb_sym x c), IH.
  destruct (c =? x)%N; reflexivity.
Qed.

Lemma replace_comma (s : pystr) :
  str_replace (py ",") [] s = List.filter (fun x => negb (x =? 44)%N) s.
Proof.
  change (str_replace (py ",") [] s) with (replace_from [44%N] [] 0 s).
  rewrite replace_from_char. apply flat_map_delete.
Qed.

Lemma replace_newline (s : pystr) :
  str_replace [10%N] [32%N] s = List.map (fun x => if (x =? 10)%N then 32%N else x) s.
Proof.
  change (str_replace [10%N] [32%N] s) with (replace_from [10%N] [32%N] 0 s).
  rewrite replace_from_char. apply flat_map_subst.
Qed.

(** ** Row normalisation *)

Lemma append_row_spec (acc : list (list pystr)) (row : raw_row) :
  append_row acc row
  = acc ++ List.map (List.map clean_cell)
             (List.filter (fun r => (7 <=? length r)%nat) [row]).
Proof.
  unfold append_row. cbn [List.filter]. rewrite length_map.
  destruct (Nat.ltb_spec (length row) 7) as [Hlt | Hge].
  - destruct (Nat.leb_spec 7 (length row)); [lia |]. symmetry. apply app_nil_r.
  - destruct (Nat.leb_spec 7 (length row)); [reflexivity | lia].
Qed.

Lemma read_table_spec (table : list raw_row) (acc : list (list pystr)) :
  read_table acc table
  = acc ++ List.map (List.map clean_cell)
             (List.filter (fun r => (7 <=? length r)%nat) table).
Proof.
  unfold read_table. revert acc.
  induction table as [|row table IH]; intros acc; cbn [fold_left].
  - symmetry. apply app_nil_r.
  - rewrite IH, append_row_spec, <- app_assoc, <- List.map_app, <- List.filter_app.
    reflexivity.
Qed.

Lemma read_tables_spec (tables : list (list raw_row)) (acc : list (list pystr)) :
  fold_left read_table tables acc
  = acc ++ List.map (List.map clean_cell)
             (List.filter (fun r => (7 <=? length r)%nat) (concat tables)).
Proof.
  revert acc. induction tables as [|t tables IH]; intros acc; cbn [fold_left concat].
  - symmetry. apply app_nil_r.
  - rewrite IH, read_table_spec, <- app_assoc, <- List.map_app, <- List.filter_app.
    reflexivity.
Qed.

Lemma read_pages_spec (pages : list (list (list raw_row))) (acc : list (list pystr)) :
  read_pages acc (List.map Return pages)
  = Return (acc ++ List.map (List.map clean_cell)
                     (List.filter (fun r => (7 <=? length r)%nat)
                        (concat (concat pages)))).
Proof.
  revert acc. induction pages as [|p pages IH]; intros acc; cbn [List.map read_pages concat].
  - rewrite app_nil_r. reflexivity.
  - unfold read_page. cbn [mbind result_bind mret result_ret].
    rewrite IH, read_tables_spec, <- app_assoc, <- List.map_app, <- List.filter_app.
    rewrite concat_app. reflexivity.
Qed.

(** A page that cannot be read ends the loop with its exception. *)
Lemma read_pages_raise (before : list (list (list raw_row))) (e : exn)
    (after : list page) (acc : list (list pystr)) :
  read_pages acc (List.map Return before ++ Raise e :: after) = Raise e.
Proof.
  revert acc. induction before as [|p before IH]; intros acc.
  - reflexivity.
  - cbn [List.map app read_pages]. unfold read_page.
    cbn [mbind result_bind mret result_ret]. apply IH.
Qed.

(** C3. Every raw row read from the PDF has each cell stripped of
    leading and trailing white space (a missing cell becomes the empty
    text), and it is in the normalised table exactly when it has at
    least seven cells: the table is the stripped rows of at least seven
    cells, in their original order, so no shorter row is in it. *)
Theorem normalized_rows (pages : list (list (list raw_row))) :
  let kept := List.filter (fun r => (7 <=? length r)%nat) (concat (concat pages)) in
  read_pages [] (List.map Return pages) = Return (List.map (List.map clean_cell) kept)
  /\ Forall (fun row => 7 <= length row) (List.map (List.map clean_cell) kept)
  /\ clean_cell None = []
  /\ forall s, clean_cell (Some s) = strip s
       /\ (exists pre suf, s = pre ++ strip s ++ suf
             /\ forallb py_isspace pre = true /\ forallb py_isspace suf = true)
       /\ (forall c rest, strip s = c :: rest -> py_isspace c = false)
       /\ (forall c front, strip s = front ++ [c] -> py_isspace c = false).
Proof.
  intros kept. split; [| split; [| split]].
  - apply (read_pages_spec pages []).
  - apply List.Forall_forall. intros row Hin.
    apply in_map_iff in Hin. destruct Hin as [raw [<- Hraw]].
    apply List.filter_In in Hraw. destruct Hraw as [_ Hlen].
    rewrite length_map. apply Nat.leb_le. exact Hlen.
  - reflexivity.
  - intros s. split; [apply clean_cell_strip |].
    split; [apply strip_split |].
    split; [apply strip_first | apply strip_last].
Qed.

(** ** The narration column *)

Lemma series_replace_newline (vals : list value) :
  series_replace [10%N] [32%N] vals = Return (List.map clean_narration vals).
Proof. reflexivity. Qed.

(** ** The amount columns *)

Lemma between_spec (lo hi c : N) :
  between lo hi c = true <-> (lo <= c /\ c <= hi)%N.
Proof.
  unfold between. rewrite andb_true_iff, !N.leb_le. reflexivity.
Qed.

Lemma comma_not_kept : re_digit 44 || (44 =? 46)%N = false.
Proof. reflexivity. Qed.

Lemma filter_filter_comma (s : pystr) :
  re_sub_non_numeric (List.filter (fun x => negb (x =? 44)%N) s)
  = re_sub_non_numeric s.
Proof.
  unfold re_sub_non_numeric.
  induction s as [|c s IH]; [reflexivity |].
  cbn [List.filter]. destruct (N.eqb_spec c 44) as [-> | Hne]; cbn [negb].
  - rewrite comma_not_kept. exact IH.
  - cbn [List.filter]. rewrite IH. reflexivity.
Qed.

Lemma filter_id {A} (p : A -> bool) (l : list A) :
  forallb p l = true -> List.filter p l = l.
Proof.
  induction l as [|x l IH]; [reflexivity |].
  cbn [forallb List.filter]. intros H. apply andb_true_iff in H.
  destruct H as [Hx Hl]. rewrite Hx, (IH Hl). reflexivity.
Qed.

Lemma forallb_weaken {A} (p q : A -> bool) (l : list A) :
  (forall x, p x = true -> q x = true) -> forallb p l = true -> forallb q l = true.
Proof.
  intros Hpq. induction l as [|x l IH]; [reflexivity |].
  cbn [forallb]. rewrite !andb_true_iff. intros [Hx Hl]. auto.
Qed.

(** A comma-free text that matches the amount pattern holds digits and
    points only, so the regular expression deletes nothing from it. *)
Lemma amount_pattern_kept (s : pystr) :
  amount_pattern s = true ->
  forallb (fun c => negb (c =? 44)%N) s = true ->
  re_sub_non_numeric s = s.
Proof.
  unfold amount_pattern, re_sub_non_numeric. intros Hpat Hcomma.
  apply filter_id.
  destruct (dropwhile_split (fun c => re_digit c || (c =? 44)%N) s) as [pre [Hs Hpre]].
  set (rest := dropwhile (fun c => re_digit c || (c =? 44)%N) s) in *.
  rewrite Hs in Hcomma. rewrite forallb_app in Hcomma.
  apply andb_true_iff in Hcomma. destruct Hcomma as [Hc1 Hc2].
  rewrite Hs, forallb_app. apply andb_true_iff. split.
  - clear Hs. induction pre as [|c pre IH]; [reflexivity |].
    cbn [forallb] in *. apply andb_true_iff in Hpre, Hc1.
    destruct Hpre as [Hc Hpre], Hc1 as [Hn Hc1].
    rewrite (IH Hc1 Hpre), andb_true_r.
    destruct (c =? 44)%N; [discriminate |].
    rewrite orb_false_r in Hc. rewrite Hc. reflexivity.
  - destruct rest as [|c rest']; [reflexivity |].
    destruct (N.eqb_spec c 46) as [-> | Hne].
    + cbn [forallb]. rewrite N.eqb_refl, orb_true_r. cbn [andb].
      revert Hpat. apply forallb_weaken. intros x ->. reflexivity.
    + revert Hpat. apply forallb_weaken. intros x ->. reflexivity.
Qed.

Lemma decimal_nonneg (ip fp : list N) : (0 <= decimal ip fp)%Q.
Proof. unfold decimal, Qle. cbn [Qnum Qden]. lia. Qed.

(** *** Texts of digits and points *)

Lemma kept_char_cases (c : N) :
  kept_char c = true -> (48 <= c /\ c <= 57)%N \/ (128 <= c)%N \/ c = 46%N.
Proof.
  unfold kept_char, re_digit, is_ascii_digit.
  rewrite !orb_true_iff, andb_true_iff, between_spec, N.leb_le, N.eqb_eq.
  intros [[H | [H _]] | H]; auto.
Qed.

Lemma digit_kept (c : N) : is_ascii_digit c = true -> kept_char c = true.
Proof. unfold kept_char, re_digit. intros ->. reflexivity. Qed.

Lemma digit_char_digit (d : N) : (d < 10)%N -> is_ascii_digit (digit_char d) = true.
Proof. intros Hd. apply between_spec. unfold digit_char. lia. Qed.

Lemma kept_text_filter (v : value) :
  kept_text v = List.filter kept_char (astype_str v).
Proof.
  unfold kept_text. rewrite replace_comma. apply filter_filter_comma.
Qed.

Lemma kept_text_kept (v : value) : forallb kept_char (kept_text v) = true.
Proof.
  rewrite kept_text_filter. apply forallb_forall. intros c Hc.
  apply List.filter_In in Hc. apply Hc.
Qed.

(** The text of a list of digit values. *)
Lemma span_digits_numeral (ds : list N) (rest : pystr) :
  digits ds ->
  span_digits rest = ([], rest) ->
  span_digits (List.map digit_char ds ++ rest) = (ds, rest).
Proof.
  intros Hds Hrest. induction Hds as [|d ds Hd _ IH]; [exact Hrest |].
  cbn [List.map app span_digits].
  rewrite (digit_char_digit d Hd), IH. f_equal. f_equal. unfold digit_char. lia.
Qed.

(** What [span_digits] splits off is the text of digit values, and the
    rest does not start with a digit. *)
Lemma span_digits_spec (s : pystr) (ds : list N) (rest : pystr) :
  span_digits s = (ds, rest) ->
  s = List.map digit_char ds ++ rest /\ digits ds
  /\ forall c r, rest = c :: r -> is_ascii_digit c = false.
Proof.
  revert ds rest. induction s as [|c s IH]; intros ds rest; cbn [span_digits].
  - intros [= <- <-]. split; [reflexivity | split; [constructor | discriminate]].
  - destruct (is_ascii_digit c) eqn:Hc.
    + destruct (span_digits s) as [ds' rest'] eqn:Hs. intros [= <- <-].
      destruct (IH ds' rest' eq_refl) as [-> [Hds Hstop]].
      apply between_spec in Hc.
      split; [| split; [| exact Hstop]].
      * cbn [List.map app]. f_equal. unfold digit_char. lia.
      * constructor; [lia | exact Hds].
    + intros [= <- <-].
      split; [reflexivity | split; [constructor |]].
      intros c' r [= <- <-]. exact Hc.
Qed.

Lemma span_digits_stop (s : pystr) :
  (forall c r, s = c :: r -> is_ascii_digit c = false) -> span_digits s = ([], s).
Proof.
  destruct s as [|c s]; [reflexivity |]. intros H. cbn [span_digits].
  rewrite (H c s eq_refl). reflexivity.
Qed.

Lemma digits_text_kept (ds : list N) :
  digits ds -> forallb is_ascii_digit (List.map digit_char ds) = true.
Proof.
  intros Hds. induction Hds as [|d ds Hd _ IH]; [reflexivity |].
  cbn [List.map forallb]. rewrite (digit_char_digit d Hd), IH. reflexivity.
Qed.

Lemma digits_no_points (pre : pystr) :
  forallb is_ascii_digit pre = true -> count_points pre = 0.
Proof.
  unfold count_points. induction pre as [|c pre IH]; [reflexivity |].
  cbn [forallb List.filter]. intros H. apply andb_true_iff in H. destruct H as [Hc Hp].
  apply between_spec in Hc. destruct (N.eqb_spec c 46); [lia | auto].
Qed.

Lemma digits_ascii (pre : pystr) :
  forallb is_ascii_digit pre = true -> existsb (fun c => (128 <=? c)%N) pre = false.
Proof.
  induction pre as [|c pre IH]; [reflexivity |].
  cbn [forallb existsb]. intros H. apply andb_true_iff in H. destruct H as [Hc Hp].
  apply between_spec in Hc. rewrite (IH Hp), orb_false_r. apply N.leb_gt. lia.
Qed.

Lemma count_points_app (a b : pystr) :
  count_points (a ++ b) = count_points a + count_points b.
Proof. unfold count_points. rewrite List.filter_app, length_app. reflexivity. Qed.



(** The text of an unsigned numeral holds a digit, at most one point
    and ASCII characters only, all of which line 61 keeps. *)
Lemma numeral_text_facts (ip : list N) (fr : option (list N)) :
  digits ip -> digits (default [] fr) -> ip ++ default [] fr <> [] ->
  existsb is_ascii_digit (numeral_text ip fr) = true
  /\ count_points (numeral_text ip fr) <= 1
  /\ existsb (fun c => (128 <=? c)%N) (numeral_text ip fr) = false
  /\ forallb kept_char (numeral_text ip fr) = true.
Proof.
  intros Hip Hfp Hne. unfold numeral_text.
  pose proof (digits_text_kept ip Hip) as Kip.
  pose proof (digits_text_kept _ Hfp) as Kfp.
  split; [| split; [| split]].
  - rewrite existsb_app. destruct ip as [|d ip].
    + destruct fr as [fp |]; [| contradiction].
      cbn [default from_option id app] in Hne, Hfp. destruct fp as [|d fp]; [contradiction |].
      cbn [List.map existsb app]. apply Forall_inv in Hfp.
      rewrite (digit_char_digit d Hfp). reflexivity.
    + cbn [List.map existsb]. apply Forall_inv in Hip.
      rewrite (digit_char_digit d Hip). reflexivity.
  - rewrite count_points_app, (digits_no_points _ Kip).
    destruct fr as [fp |]; [cbn [default from_option id] in Kfp | cbn; lia].
    change (46%N :: List.map digit_char fp) with ([46%N] ++ List.map digit_char fp).
    rewrite count_points_app, (digits_no_points _ Kfp). cbn. lia.
  - rewrite existsb_app, (digits_ascii _ Kip).
    destruct fr as [fp |]; [| reflexivity].
    cbn [existsb default from_option id] in *. rewrite (digits_ascii _ Kfp). reflexivity.
  - rewrite forallb_app. apply andb_true_iff. split.
    + revert Kip. apply forallb_weaken. exact digit_kept.
    + destruct fr as [fp |]; [| reflexivity].
      cbn [forallb default from_option id] in *. apply andb_true_iff. split; [reflexivity |].
      revert Kfp. apply forallb_weaken. exact digit_kept.
Qed.

(** *** Reading a text of digits and points *)

Lemma dropwhile_space_kept (s : pystr) :
  forallb kept_char s = true -> dropwhile is_c_space s = s.
Proof.
  intros Hs. apply dropwhile_fixed. intros c rest ->.
  cbn [forallb] in Hs. apply andb_true_iff in Hs. destruct Hs as [Hc _].
  apply kept_char_cases in Hc. unfold is_c_space.
  apply orb_false_iff. split.
  - apply N.eqb_neq. lia.
  - destruct (between 9 13 c) eqn:Hb; [| reflexivity].
    apply between_spec in Hb. lia.
Qed.

Lemma read_sign_kept (s : pystr) :
  forallb kept_char s = true -> read_sign s = (false, s).
Proof.
  destruct s as [|c s]; [reflexivity |]. intros Hs.
  cbn [forallb] in Hs. apply andb_true_iff in Hs. destruct Hs as [Hc _].
  apply kept_char_cases in Hc. unfold read_sign.
  destruct (N.eqb_spec c 45); [lia |]. destruct (N.eqb_spec c 43); [lia |]. reflexivity.
Qed.

Lemma read_exponent_kept (s : pystr) :
  forallb kept_char s = true -> read_exponent s = (None, s).
Proof.
  destruct s as [|c s]; [reflexivity |]. intros Hs.
  cbn [forallb] in Hs. apply andb_true_iff in Hs. destruct Hs as [Hc _].
  apply kept_char_cases in Hc. unfold read_exponent.
  destruct (N.eqb_spec c 101); [lia |]. destruct (N.eqb_spec c 69); [lia |]. reflexivity.
Qed.

(** A text of digits and points that is read as a numeral is the text
    of an unsigned numeral without exponent. *)
Lemma read_numeral_kept (k : pystr) (n : numeral) :
  forallb kept_char k = true -> read_numeral k = Some n ->
  exists ip fr,
    n = mknumeral false ip fr None /\ k = numeral_text ip fr
    /\ digits ip /\ digits (default [] fr) /\ ip ++ default [] fr <> [].
Proof.
  intros Hk. unfold read_numeral.
  rewrite (dropwhile_space_kept k Hk), (read_sign_kept k Hk).
  destruct (span_digits k) as [ip s2] eqn:Hip.
  destruct (span_digits_spec _ _ _ Hip) as [-> [Dip Stop2]].
  rewrite forallb_app in Hk. apply andb_true_iff in Hk. destruct Hk as [_ Hk2].
  destruct s2 as [|c s'].
  - cbn [read_fraction default from_option id]. rewrite app_nil_r.
    destruct ip as [|d ip'] eqn:Eip; [discriminate |].
    cbn [read_exponent dropwhile]. intros [= <-].
    exists (d :: ip'), None. unfold numeral_text. rewrite !app_nil_r.
    repeat split; [exact Dip | constructor | discriminate].
  - cbn [read_fraction].
    destruct (N.eqb_spec c 46) as [-> | Hne].
    + destruct (span_digits s') as [fp s3] eqn:Hfp.
      destruct (span_digits_spec _ _ _ Hfp) as [-> [Dfp Stop3]].
      cbn [default from_option id].
      destruct (ip ++ fp) as [|x xs] eqn:Hall; [discriminate |].
      cbn [forallb] in Hk2. apply andb_true_iff in Hk2. destruct Hk2 as [_ Hk3].
      rewrite forallb_app in Hk3. apply andb_true_iff in Hk3. destruct Hk3 as [_ Hk3].
      rewrite (read_exponent_kept s3 Hk3), (dropwhile_space_kept s3 Hk3).
      destruct s3 as [|y s3]; [| discriminate]. intros [= <-].
      exists ip, (Some fp). unfold numeral_text. rewrite app_nil_r. cbn [default from_option id].
      repeat split; [exact Dip | exact Dfp | rewrite Hall; discriminate].
    + cbn [default from_option id]. rewrite app_nil_r.
      destruct ip as [|d ip']; [discriminate |].
      rewrite (read_exponent_kept (c :: s') Hk2), (dropwhile_space_kept (c :: s') Hk2).
      discriminate.
Qed.

(** Conversely, the text of an unsigned numeral is read as that numeral. *)
Lemma read_numeral_text (ip : list N) (fr : option (list N)) :
  digits ip -> digits (default [] fr) -> ip ++ default [] fr <> [] ->
  read_numeral (numeral_text ip fr) = Some (mknumeral false ip fr None).
Proof.
  intros Hip Hfp Hne.
  destruct (numeral_text_facts ip fr Hip Hfp Hne) as [_ [_ [_ Hk]]].
  unfold read_numeral.
  rewrite (dropwhile_space_kept _ Hk), (read_sign_kept _ Hk).
  unfold numeral_text. destruct fr as [fp |]; cbn [default from_option id] in *.
  - rewrite (span_digits_numeral ip _ Hip) by reflexivity.
    cbn [read_fraction]. rewrite N.eqb_refl.
    pose proof (span_digits_numeral fp [] Hfp eq_refl) as Hspan.
    rewrite app_nil_r in Hspan. rewrite Hspan. cbn [default from_option id].
    destruct (ip ++ fp); [contradiction | reflexivity].
  - rewrite app_nil_r in *.
    pose proof (span_digits_numeral ip [] Hip eq_refl) as Hspan.
    rewrite app_nil_r in Hspan. rewrite Hspan.
    destruct ip; [contradiction | reflexivity].
Qed.

Lemma read_inf_kept (k : pystr) :
  forallb kept_char k = true -> read_inf k = None.
Proof.
  destruct k as [|c k]; [reflexivity |]. intros Hk.
  cbn [forallb] in Hk. apply andb_true_iff in Hk. destruct Hk as [Hc _].
  apply kept_char_cases in Hc.
  assert (Hlow : ascii_lower c = c).
  { unfold ascii_lower. destruct (between 65 90 c) eqn:Hb; [| reflexivity].
    apply between_spec in Hb. lia. }
  unfold read_inf, pystr_eqb. cbn [List.map]. rewrite Hlow.
  repeat match goal with
         | |- context [bool_decide (c :: ?l = py ?w)] =>
             rewrite (bool_decide_eq_false_2 (c :: l = py w))
               by (intros E; apply (f_equal (fun s => List.hd 0%N s)) in E;
                   vm_compute in E; lia)
         end.
  reflexivity.
Qed.

(** What [pd.to_numeric] reads from a text of digits and points. *)
Lemma read_text_kept (k : pystr) :
  forallb kept_char k = true ->
  read_text k
  = match read_numeral k with
    | Some n =>
        match xstrtod n with
        | Some f => Some (f, if maybe_int n then Some (numeral_int n) else None)
        | None => None
        end
    | None => None
    end.
Proof.
  intros Hk. unfold read_text. destruct k as [|c k].
  - reflexivity.
  - destruct (read_numeral (c :: k)); [reflexivity |].
    rewrite (read_inf_kept _ Hk). reflexivity.
Qed.

Lemma read_text_numeral (ip : list N) (fr : option (list N)) :
  digits ip -> digits (default [] fr) -> ip ++ default [] fr <> [] ->
  read_text (numeral_text ip fr)
  = match xstrtod (mknumeral false ip fr None) with
    | Some f => Some (f, match fr with
                         | None => Some (Z.of_N (digits_value ip))
                         | Some _ => None
                         end)
    | None => None
    end.
Proof.
  intros Hip Hfp Hne.
  destruct (numeral_text_facts ip fr Hip Hfp Hne) as [_ [_ [_ Hk]]].
  rewrite (read_text_kept _ Hk), (read_numeral_text ip fr Hip Hfp Hne).
  destruct (xstrtod _); [| reflexivity]. destruct fr; reflexivity.
Qed.

(** A text of digits and points that is no numeral is read as NaN. *)
Lemma read_text_not_a_numeral (k : pystr) :
  forallb kept_char k = true -> not_a_numeral k -> read_text k = None.
Proof.
  intros Hk Hnot. rewrite (read_text_kept k Hk).
  destruct (read_numeral k) as [n |] eqn:Hn; [| reflexivity].
  destruct (read_numeral_kept k n Hk Hn) as [ip [fr [_ [-> [Hip [Hfp Hne]]]]]].
  destruct (numeral_text_facts ip fr Hip Hfp Hne) as [F1 [F2 [F3 _]]].
  destruct Hnot as [H | [H | H]]; [congruence | lia | congruence].
Qed.

(** Every text of digits and points is the text of an unsigned numeral
    or no numeral at all. *)
Lemma kept_text_shape (k : pystr) :
  forallb kept_char k = true ->
  not_a_numeral k
  \/ exists ip fr, k = numeral_text ip fr /\ digits ip /\ digits (default [] fr)
                   /\ ip ++ default [] fr <> [].
Proof.
  intros Hk. unfold not_a_numeral.
  destruct (existsb is_ascii_digit k) eqn:Hdig; [| auto].
  destruct (existsb (fun c => (128 <=? c)%N) k) eqn:Hhigh; [auto |].
  destruct (le_lt_dec 2 (count_points k)) as [Htwo | Hone]; [auto |].
  right.
  assert (Hpoint : forall s c r, forallb kept_char s = true ->
            existsb (fun c => (128 <=? c)%N) s = false ->
            s = c :: r -> is_ascii_digit c = false -> c = 46%N).
  { intros s c r Hs Hh -> Hc. cbn [forallb existsb] in Hs, Hh.
    apply andb_true_iff in Hs. destruct Hs as [Hs _].
    apply orb_false_iff in Hh. destruct Hh as [Hh _]. apply N.leb_gt in Hh.
    apply kept_char_cases in Hs. destruct Hs as [Hs | [Hs | Hs]]; [| lia | exact Hs].
    apply between_spec in Hs. unfold is_ascii_digit in Hc. congruence. }
  destruct (span_digits k) as [ip s2] eqn:Hip.
  destruct (span_digits_spec _ _ _ Hip) as [-> [Dip Stop2]].
  pose proof (digits_text_kept ip Dip) as Kip.
  rewrite forallb_app in Hk. apply andb_true_iff in Hk. destruct Hk as [_ Hk2].
  rewrite existsb_app, (digits_ascii _ Kip) in Hhigh. cbn [orb] in Hhigh.
  rewrite count_points_app, (digits_no_points _ Kip) in Hone.
  destruct s2 as [|c s'].
  - exists ip, None. unfold numeral_text. cbn [default from_option id]. rewrite !app_nil_r in *.
    repeat split; [exact Dip | constructor |].
    intros ->. discriminate Hdig.
  - assert (c = 46%N) as -> by (apply (Hpoint _ c s' Hk2 Hhigh eq_refl), (Stop2 c s' eq_refl)).
    destruct (span_digits s') as [fp s3] eqn:Hfp.
    destruct (span_digits_spec _ _ _ Hfp) as [-> [Dfp Stop3]].
    pose proof (digits_text_kept fp Dfp) as Kfp.
    cbn [forallb existsb] in Hk2, Hhigh.
    apply andb_true_iff in Hk2. destruct Hk2 as [_ Hk3].
    rewrite forallb_app in Hk3. apply andb_true_iff in Hk3. destruct Hk3 as [_ Hk3].
    rewrite existsb_app, (digits_ascii _ Kfp) in Hhigh. cbn [orb] in Hhigh.
    change (46%N :: List.map digit_char fp ++ s3)
      with ([46%N] ++ List.map digit_char fp ++ s3) in Hone.
    rewrite !count_points_app, (digits_no_points _ Kfp) in Hone.
    destruct s3 as [|y s3].
    + exists ip, (Some fp). unfold numeral_text. cbn [default from_option id]. rewrite app_nil_r.
      repeat split; [exact Dip | exact Dfp |].
      intros Hnil. apply app_eq_nil in Hnil. destruct Hnil as [-> ->].
      discriminate Hdig.
    + assert (y = 46%N) as -> by (apply (Hpoint _ y s3 Hk3 Hhigh eq_refl), (Stop3 y s3 eq_refl)).
      change (46%N :: s3) with ([46%N] ++ s3) in Hone.
      rewrite count_points_app in Hone. cbn in Hone. lia.
Qed.

(** *** The amount cells *)

(** A cell whose digits and points form no numeral is cleaned to zero. *)
Lemma clean_amount_zero (v : value) :
  not_a_numeral (kept_text v) -> clean_amount v = VNum 0.
Proof.
  intros H. unfold clean_amount.
  rewrite (read_text_not_a_numeral _ (kept_text_kept v) H). reflexivity.
Qed.

(** A cell whose digits and points form a numeral is cleaned to what
    the reader gives for it, and to zero when the reader gives nothing. *)
Lemma clean_amount_numeral (v : value) (ip : list N) (fr : option (list N)) :
  kept_text v = numeral_text ip fr ->
  digits ip -> digits (default [] fr) -> ip ++ default [] fr <> [] ->
  clean_amount v = filled (xstrtod (mknumeral false ip fr None)).
Proof.
  intros Hk Hip Hfp Hne. unfold clean_amount.
  rewrite Hk, (read_text_numeral ip fr Hip Hfp Hne).
  destruct (xstrtod _) as [[q | neg] |]; reflexivity.
Qed.

Lemma int64_min_neg : (int64_min < 0)%Z.
Proof. reflexivity. Qed.

(** The cells that can stay integers: digits alone, up to [uint64_max],
    that the reader has converted. *)
Lemma integer_amount_spec (v : value) (z : Z) :
  integer_amount v = Some z <->
  exists ip, kept_text v = numeral_text ip None /\ digits ip /\ ip <> []
             /\ z = Z.of_N (digits_value ip) /\ (z <= uint64_max)%Z
             /\ xstrtod (mknumeral false ip None None) <> None.
Proof.
  unfold integer_amount. split.
  - rewrite (read_text_kept _ (kept_text_kept v)).
    destruct (read_numeral (kept_text v)) as [n |] eqn:Hn; [| discriminate].
    destruct (read_numeral_kept _ n (kept_text_kept v) Hn)
      as [ip [fr [-> [Hk [Hip [Hfp Hne]]]]]].
    destruct (xstrtod _) as [f |] eqn:Hf; [| discriminate].
    destruct fr as [fp |]; [discriminate |].
    cbn [maybe_int fraction exponent as_integer].
    destruct ((int64_min <=? _)%Z && (_ <=? uint64_max)%Z) eqn:Hrange; [| discriminate].
    intros [= <-]. apply andb_true_iff in Hrange. destruct Hrange as [_ Hmax].
    apply Z.leb_le in Hmax.
    exists ip. cbn [default from_option id] in Hne. rewrite app_nil_r in Hne.
    repeat split; [exact Hk | exact Hip | exact Hne | exact Hmax | congruence].
  - intros [ip [Hk [Hip [Hne [-> [Hmax Hread]]]]]].
    assert (Hall : ip ++ default [] (@None (list N)) <> []).
    { cbn [default from_option id]. rewrite app_nil_r. exact Hne. }
    rewrite Hk, (read_text_numeral ip None Hip (List.Forall_nil _) Hall).
    destruct (xstrtod _) as [f |]; [| contradiction].
    cbn [as_integer].
    pose proof int64_min_neg as Hmin.
    assert ((int64_min <=? Z.of_N (digits_value ip))%Z = true) as -> by (apply Z.leb_le; lia).
    apply Z.leb_le in Hmax. rewrite Hmax. reflexivity.
Qed.

Lemma integer_amount_nonneg (v : value) (z : Z) :
  integer_amount v = Some z -> (0 <= z)%Z.
Proof.
  intros H. apply integer_amount_spec in H. destruct H as [ip [_ [_ [_ [-> _]]]]]. lia.
Qed.

(** The integer of digits is the exact value of the numeral. *)
Lemma numeral_value_integer (ip : list N) :
  numeral_value (mknumeral false ip None None) = inject_Z (Z.of_N (digits_value ip)).
Proof.
  unfold numeral_value, decimal. cbn [negative int_digits fraction exponent].
  cbn [default from_option id length]. rewrite app_nil_r. reflexivity.
Qed.

Lemma integer_column_amounts (vals : list value) :
  integer_column (List.map (fun v => read_text (kept_text v)) vals)
  = integer_amounts vals.
Proof.
  unfold integer_column, integer_amounts.
  assert (Hneg : existsb (fun r => match as_integer r with
                                   | Some z => (z <? 0)%Z
                                   | None => false
                                   end)
                   (List.map (fun v => read_text (kept_text v)) vals) = false).
  { induction vals as [|v vals IH]; [reflexivity |].
    cbn [List.map existsb]. rewrite IH, orb_false_r.
    destruct (as_integer (read_text (kept_text v))) as [z |] eqn:Hz; [| reflexivity].
    apply integer_amount_nonneg in Hz. apply Z.ltb_ge. exact Hz. }
  rewrite Hneg. cbn [andb negb]. rewrite andb_true_r. clear Hneg.
  induction vals as [|v vals IH]; [reflexivity |].
  cbn [List.map forallb]. rewrite IH. reflexivity.
Qed.

(** The three statements on an amount column give [amount_column]. *)
Lemma amount_statements (vals vals1 vals2 : list value) :
  series_replace (py ",") [] vals = Return vals1 ->
  series_re_sub vals1 = Return vals2 ->
  series_to_numeric vals2 = Return (amount_column vals).
Proof.
  unfold series_replace, series_re_sub, series_to_numeric.
  intros [= <-] [= <-]. f_equal. unfold to_numeric, amount_column.
  rewrite !List.map_map. cbn [astype_str read_value].
  change (fun x : value =>
            read_text (re_sub_non_numeric (str_replace (py ",") [] (astype_str x))))
    with (fun v : value => read_text (kept_text v)).
  rewrite integer_column_amounts.
  destruct (integer_amounts vals); rewrite !List.map_map; apply List.map_ext; intros v.
  - unfold integer_amount. destruct (as_integer _); reflexivity.
  - reflexivity.
Qed.

Lemma length_amount_column (vals : list value) :
  length (amount_column vals) = length vals.
Proof.
  unfold amount_column. destruct (integer_amounts vals); apply length_map.
Qed.

(** When the reader keeps the sign, a cleaned amount is not below zero. *)
Lemma clean_amount_nonneg (v : value) :
  reader_keeps_sign ->
  (exists q, clean_amount v = VNum q /\ (0 <= q)%Q) \/ clean_amount v = VInf false.
Proof.
  intros Hsign. unfold clean_amount.
  rewrite (read_text_kept _ (kept_text_kept v)).
  destruct (read_numeral (kept_text v)) as [n |] eqn:Hn.
  - destruct (read_numeral_kept _ n (kept_text_kept v) Hn) as [ip [fr [-> _]]].
    destruct (xstrtod _) as [f |] eqn:Hf.
    + specialize (Hsign _ f Hf eq_refl).
      destruct f as [q | neg]; cbn [float_nonneg] in Hsign; cbn [as_float fillna].
      * left. eauto.
      * right. rewrite Hsign. reflexivity.
    + left. exists 0%Q. split; [reflexivity | apply Qle_refl].
  - left. exists 0%Q. split; [reflexivity | apply Qle_refl].
Qed.

Lemma amount_column_nonneg (vals : list value) (x : value) :
  reader_keeps_sign -> In x (amount_column vals) ->
  (exists q, x = VNum q /\ (0 <= q)%Q) \/ x = VInf false.
Proof.
  intros Hsign. unfold amount_column.
  destruct (integer_amounts vals); intros Hin; apply in_map_iff in Hin;
    destruct Hin as [v [<- _]].
  - left. eexists. split; [reflexivity |].
    destruct (integer_amount v) as [z |] eqn:Hz; cbn [default from_option id].
    + apply integer_amount_nonneg in Hz. unfold Qle. cbn [inject_Z Qnum Qden]. lia.
    + apply Qle_refl.
  - apply (clean_amount_nonneg v Hsign).
Qed.

(** ** Frames: writing a column *)

Lemma column_body (j : nat) (df : frame) :
  column j df = List.map (fun cells => default VNone (cells !! j)) (body df).
Proof. unfold column, body. rewrite List.map_map. reflexivity. Qed.

Lemma length_column (j : nat) (df : frame) : length (column j df) = length (rows df).
Proof. unfold column. apply length_map. Qed.

Lemma length_index (df : frame) : length (index df) = length (rows df).
Proof. unfold index. apply length_map. Qed.

Section WriteColumn.

Variable j : nat.

Local Abbreviation write := (write_cell j).

Lemma write_index (rs : list (nat * list value)) (vals : list value) :
  length vals = length rs ->
  List.map fst (zip_with write rs vals) = List.map fst rs.
Proof.
  revert vals. induction rs as [|r rs IH]; intros [|v vals] Hlen;
    try discriminate; [reflexivity |].
  cbn [zip_with List.map]. rewrite IH by (simpl in Hlen; lia). reflexivity.
Qed.

Lemma write_rectangular (w : nat) (rs : list (nat * list value)) (vals : list value) :
  Forall (fun r => length r.2 = w) rs ->
  Forall (fun r => length r.2 = w) (zip_with write rs vals).
Proof.
  intros Hrs. revert vals. induction Hrs as [|r rs Hr _ IH]; intros [|v vals];
    cbn [zip_with]; try constructor.
  - unfold write_cell. cbn [snd]. rewrite length_insert. exact Hr.
  - apply IH.
Qed.

Lemma write_same (w : nat) (rs : list (nat * list value)) (vals : list value) :
  length vals = length rs ->
  Forall (fun r => length r.2 = w) rs -> j < w ->
  List.map (fun r => default VNone (r.2 !! j)) (zip_with write rs vals) = vals.
Proof.
  intros Hlen Hrs Hj. revert vals Hlen.
  induction Hrs as [|r rs Hr _ IH]; intros [|v vals] Hlen; try discriminate;
    [reflexivity |].
  cbn [zip_with List.map]. rewrite IH by (simpl in Hlen; lia).
  unfold write_cell at 1. cbn [snd].
  rewrite list_lookup_insert_eq by lia. reflexivity.
Qed.

Lemma write_other (j' : nat) (rs : list (nat * list value)) (vals : list value) :
  length vals = length rs -> j' <> j ->
  List.map (fun r => default VNone (r.2 !! j')) (zip_with write rs vals)
  = List.map (fun r => default VNone (r.2 !! j')) rs.
Proof.
  intros Hlen Hne. revert vals Hlen.
  induction rs as [|r rs IH]; intros [|v vals] Hlen; try discriminate;
    [reflexivity |].
  cbn [zip_with List.map]. rewrite IH by (simpl in Hlen; lia).
  unfold write_cell at 1. cbn [snd].
  rewrite list_lookup_insert_ne by congruence. reflexivity.
Qed.

(** What [set_column] does when it returns. *)
Lemma set_column_spec (vals : list value) (df df' : frame) :
  set_column j vals df = Return df' ->
  rectangular df -> j < length (columns df) ->
  columns df' = columns df /\ index df' = index df /\ rectangular df'
  /\ column j df' = vals
  /\ forall j', j' <> j -> column j' df' = column j' df.
Proof.
  unfold set_column, rectangular, index, column.
  destruct (Nat.eqb_spec (length vals) (length (rows df))) as [Hlen |]; [| discriminate].
  intros [= <-] Hrect Hj. cbn [columns rows].
  split; [reflexivity |].
  split; [apply (write_index _ _ Hlen) |].
  split; [apply write_rectangular; exact Hrect |].
  split; [apply (write_same _ _ _ Hlen Hrect Hj) |].
  intros j' Hne. apply (write_other _ _ _ Hlen Hne).
Qed.

End WriteColumn.

(** ** Frames: finding a column by its label *)

Lemma get_loc_spec (col : pystr) (df : frame) (j : nat) :
  In j (get_loc col df) <->
  exists l, columns df !! j = Some l /\ is_label col l = true.
Proof.
  unfold get_loc. rewrite List.filter_In, in_seq. split.
  - intros [[_ Hj] Hl]. cbn in Hj.
    destruct (columns df !! j) as [l |] eqn:Hlk.
    + exists l. split; [reflexivity | exact Hl].
    + apply lookup_ge_None in Hlk. lia.
  - intros [l [Hlk Hl]]. split.
    + apply lookup_lt_Some in Hlk. lia.
    + rewrite Hlk. exact Hl.
Qed.

Lemma has_column_false (col : pystr) (df : frame) (j : nat) (l : label) :
  has_column col df = false -> columns df !! j = Some l -> is_label col l = false.
Proof.
  unfold has_column. intros Hnone Hlk.
  destruct (is_label col l) eqn:Hl; [| reflexivity].
  assert (existsb (is_label col) (columns df) = true) as Hsome; [| congruence].
  apply existsb_exists. exists l. split; [| exact Hl].
  apply list_elem_of_In. apply list_elem_of_lookup. eauto.
Qed.

Lemma get_loc_columns (col : pystr) (df df' : frame) :
  columns df' = columns df -> get_loc col df' = get_loc col df.
Proof. unfold get_loc. intros ->. reflexivity. Qed.

(** ** The steps of the field cleaner *)

Lemma bind_Return {A B} (m : result A) (k : A -> result B) (b : B) :
  (m ≫= k) = Return b -> exists a, m = Return a /\ k a = Return b.
Proof.
  destruct m as [a | e]; cbn; [| discriminate]. intros H. exists a. auto.
Qed.

Lemma update_column_step (col : pystr) (f : list value -> result (list value))
    (on_frame : exn) (df df' : frame) :
  update_column col f on_frame df = Return df' -> rectangular df ->
  column_step col (fun old new => f old = Return new) df df'.
Proof.
  unfold update_column. intros Hrun Hrect.
  destruct (get_loc col df) as [|j [|j2 js]] eqn:Hloc; try discriminate.
  apply bind_Return in Hrun. destruct Hrun as [vals [Hf Hset]].
  assert (Hj : In j (get_loc col df)) by (rewrite Hloc; left; reflexivity).
  apply get_loc_spec in Hj. destruct Hj as [lj [Hlj Hlab]].
  pose proof (lookup_lt_Some _ _ _ Hlj) as Hlt.
  destruct (set_column_spec j vals df df' Hset Hrect Hlt)
    as [Hcols [Hidx [Hrect' [Hsame Hother]]]].
  split; [exact Hcols | split; [exact Hidx | split; [exact Hrect' |]]].
  intros j' l Hl. destruct (is_label col l) eqn:Hcol.
  - assert (Hin : In j' (get_loc col df)) by (apply get_loc_spec; eauto).
    rewrite Hloc in Hin. destruct Hin as [<- | []]. rewrite Hsame. exact Hf.
  - apply Hother. intros ->. congruence.
Qed.

Lemma column_step_skip (col : pystr) (g : list value -> list value -> Prop)
    (df : frame) :
  has_column col df = false -> rectangular df -> column_step col g df df.
Proof.
  intros Hnone Hrect. repeat split; try assumption.
  intros j l Hl. rewrite (has_column_false col df j l Hnone Hl). reflexivity.
Qed.

Lemma column_step_trans (col : pystr) (g1 g2 : list value -> list value -> Prop)
    (df df1 df2 : frame) :
  column_step col g1 df df1 -> column_step col g2 df1 df2 ->
  column_step col (fun a c => exists b, g1 a b /\ g2 b c) df df2.
Proof.
  intros [Hc1 [Hi1 [Hr1 H1]]] [Hc2 [Hi2 [Hr2 H2]]].
  split; [congruence | split; [congruence | split; [exact Hr2 |]]].
  intros j l Hl. specialize (H1 j l Hl).
  rewrite <- Hc1 in Hl. specialize (H2 j l Hl).
  destruct (is_label col l); [eauto | congruence].
Qed.

Lemma column_step_mono (col : pystr) (g g' : list value -> list value -> Prop)
    (df df' : frame) :
  (forall a b, g a b -> g' a b) -> column_step col g df df' -> column_step col g' df df'.
Proof.
  intros Hg [Hc [Hi [Hr H]]]. repeat split; try assumption.
  intros j l Hl. specialize (H j l Hl). destruct (is_label col l); auto.
Qed.

Lemma clean_amount_column_step (col : pystr) (df df' : frame) :
  clean_amount_column col df = Return df' -> rectangular df ->
  column_step col (fun old new => new = amount_column old) df df'.
Proof.
  unfold clean_amount_column. intros Hrun Hrect.
  destruct (has_column col df) eqn:Hhas.
  - apply bind_Return in Hrun. destruct Hrun as [df1 [H1 Hrun]].
    apply bind_Return in Hrun. destruct Hrun as [df2 [H2 H3]].
    pose proof (update_column_step _ _ _ _ _ H1 Hrect) as S1.
    pose proof (update_column_step _ _ _ _ _ H2 (proj1 (proj2 (proj2 S1)))) as S2.
    pose proof (update_column_step _ _ _ _ _ H3 (proj1 (proj2 (proj2 S2)))) as S3.
    pose proof (column_step_trans _ _ _ _ _ _ (column_step_trans _ _ _ _ _ _ S1 S2) S3) as S.
    revert S. apply column_step_mono.
    intros a c [b [[b0 [Ha Hb]] Hc]].
    pose proof (amount_statements a b0 b Ha Hb) as Hall. congruence.
  - injection Hrun as <-. apply column_step_skip; assumption.
Qed.

Lemma clean_date_column_step (col : pystr) (df df' : frame) :
  clean_date_column col df = Return df' -> rectangular df ->
  column_step col (fun old new => clean_dates old = Return new) df df'.
Proof.
  unfold clean_date_column. intros Hrun Hrect.
  destruct (has_column col df) eqn:Hhas.
  - apply bind_Return in Hrun. destruct Hrun as [df1 [H1 H2]].
    pose proof (update_column_step _ _ _ _ _ H1 Hrect) as S1.
    pose proof (update_column_step _ _ _ _ _ H2 (proj1 (proj2 (proj2 S1)))) as S2.
    pose proof (column_step_trans _ _ _ _ _ _ S1 S2) as S.
    revert S. apply column_step_mono.
    intros a c [b [Ha Hb]]. unfold clean_dates. rewrite Ha. exact Hb.
  - injection Hrun as <-. apply column_step_skip; assumption.
Qed.

Lemma clean_narration_column_step (df df' : frame) :
  clean_narration_column df = Return df' -> rectangular df ->
  column_step (py "Narration")
    (fun old new => new = List.map clean_narration old) df df'.
Proof.
  unfold clean_narration_column. intros Hrun Hrect.
  destruct (has_column (py "Narration") df) eqn:Hhas.
  - pose proof (update_column_step _ _ _ _ _ Hrun Hrect) as S.
    revert S. apply column_step_mono.
    intros a b Hab. rewrite series_replace_newline in Hab. congruence.
  - injection Hrun as <-. apply column_step_skip; assumption.
Qed.

(** ** The field cleaner as a whole *)

Lemma imap_index {A} (f : A -> list value) (rs : list A) (k : nat) :
  List.map fst (imap (fun i r => (k + i, f r)) rs) = seq k (length rs).
Proof.
  revert k. induction rs as [|r rs IH]; intros k; [reflexivity |].
  cbn [imap List.map length seq fst]. rewrite Nat.add_0_r. f_equal.
  rewrite <- (IH (S k)). f_equal. apply imap_ext. intros i x _. cbn.
  f_equal. lia.
Qed.

Lemma imap_body {A} (f : A -> list value) (rs : list A) (k : nat) :
  List.map snd (imap (fun i r => (k + i, f r)) rs) = List.map f rs.
Proof.
  revert k. induction rs as [|r rs IH]; intros k; [reflexivity |].
  cbn [imap List.map snd]. f_equal.
  rewrite <- (IH (S k)). f_equal. apply imap_ext. intros i x _. cbn.
  f_equal. lia.
Qed.

Lemma rectangular_body (df df' : frame) :
  columns df' = columns df -> body df' = body df ->
  rectangular df -> rectangular df'.
Proof.
  unfold rectangular, body. intros -> Hbody Hrect.
  apply (List.Forall_map snd (fun cells => length cells = length (columns df))).
  rewrite Hbody.
  apply (List.Forall_map snd (fun cells => length cells = length (columns df))).
  exact Hrect.
Qed.

Lemma reset_index_spec (df : frame) :
  columns (reset_index df) = columns df
  /\ body (reset_index df) = body df
  /\ index (reset_index df) = seq 0 (length (rows df))
  /\ forall j, column j (reset_index df) = column j df.
Proof.
  assert (Hbody : body (reset_index df) = body df) by apply (imap_body snd (rows df) 0).
  split; [reflexivity | split; [exact Hbody | split]].
  - apply (imap_index snd (rows df) 0).
  - intros j. rewrite !column_body, Hbody. reflexivity.
Qed.

Lemma is_label_other (col col' : pystr) (l : label) :
  is_label col l = true -> pystr_eqb col' col = false -> is_label col' l = false.
Proof.
  destruct l as [i | [s | | | | | |]]; try discriminate.
  unfold is_label, pystr_eqb. intros Hs Hne.
  apply bool_decide_eq_true in Hs. subst s. rewrite <- Hne.
  apply bool_decide_ext. split; congruence.
Qed.

Lemma column_step_length (col : pystr) (g : list value -> list value -> Prop)
    (df df' : frame) :
  column_step col g df df' -> length (rows df') = length (rows df).
Proof.
  intros [_ [Hidx _]]. rewrite <- !length_index, Hidx. reflexivity.
Qed.

(** Use the label known to hold of a column in the facts about the steps. *)
Ltac use_label H :=
  repeat match goal with
         | F : context [is_label ?c ?l] |- _ =>
             lazymatch F with
             | H => fail
             | _ => first [ rewrite H in F
                          | rewrite (is_label_other _ c l H eq_refl) in F ]
             end
         end.

(** What [clean_fields] does to a rectangular frame when it returns:
    labels and row count stay, the index is renumbered, each column is
    transformed according to its label. *)
Lemma clean_fields_spec (df df' : frame) :
  clean_fields df = Return df' -> rectangular df ->
  columns df' = columns df
  /\ index df' = seq 0 (length (rows df))
  /\ length (rows df') = length (rows df)
  /\ rectangular df'
  /\ forall j l, columns df !! j = Some l ->
       (forall col, In col cols_to_clean -> is_label col l = true ->
          column j df' = amount_column (column j df))
       /\ (forall col, In col [py "Date"; py "Value Date"] -> is_label col l = true ->
             clean_dates (column j df) = Return (column j df'))
       /\ (is_label (py "Narration") l = true ->
             column j df' = List.map clean_narration (column j df))
       /\ (is_cleaned_label l = false -> column j df' = column j df).
Proof.
  unfold clean_fields. intros Hrun Hrect.
  apply bind_Return in Hrun. destruct Hrun as [d3 [Ha Hrun]].
  apply bind_Return in Hrun. destruct Hrun as [d4 [Hd Hrun]].
  apply bind_Return in Hrun. destruct Hrun as [d5 [Hv Hrun]].
  apply bind_Return in Hrun. destruct Hrun as [d6 [Hn Hrun]].
  injection Hrun as <-.
  cbn [clean_amounts cols_to_clean] in Ha.
  apply bind_Return in Ha. destruct Ha as [d1 [Ha1 Ha]].
  apply bind_Return in Ha. destruct Ha as [d2 [Ha2 Ha]].
  apply bind_Return in Ha. destruct Ha as [d3' [Ha3 Ha]].
  injection Ha as ->.
  pose proof (clean_amount_column_step _ _ _ Ha1 Hrect) as S1.
  pose proof (clean_amount_column_step _ _ _ Ha2 (proj1 (proj2 (proj2 S1)))) as S2.
  pose proof (clean_amount_column_step _ _ _ Ha3 (proj1 (proj2 (proj2 S2)))) as S3.
  pose proof (clean_date_column_step _ _ _ Hd (proj1 (proj2 (proj2 S3)))) as S4.
  pose proof (clean_date_column_step _ _ _ Hv (proj1 (proj2 (proj2 S4)))) as S5.
  pose proof (clean_narration_column_step _ _ Hn (proj1 (proj2 (proj2 S5)))) as S6.
  pose proof (column_step_length _ _ _ _ S1) as L1.
  pose proof (column_step_length _ _ _ _ S2) as L2.
  pose proof (column_step_length _ _ _ _ S3) as L3.
  pose proof (column_step_length _ _ _ _ S4) as L4.
  pose proof (column_step_length _ _ _ _ S5) as L5.
  pose proof (column_step_length _ _ _ _ S6) as L6.
  destruct S1 as [C1 [_ [_ F1]]], S2 as [C2 [_ [_ F2]]], S3 as [C3 [_ [_ F3]]],
    S4 as [C4 [_ [_ F4]]], S5 as [C5 [_ [_ F5]]], S6 as [C6 [_ [R6 F6]]].
  destruct (reset_index_spec d6) as [C7 [B7 [I7 F7]]].
  assert (Hcols : columns (reset_index d6) = columns df) by congruence.
  split; [exact Hcols |].
  split; [rewrite I7; f_equal; congruence |].
  split; [unfold reset_index; cbn [rows]; rewrite length_imap; congruence |].
  split; [exact (rectangular_body d6 _ C7 B7 R6) |].
  intros j l Hl.
  specialize (F1 j l Hl). rewrite <- C1 in Hl.
  specialize (F2 j l Hl). rewrite <- C2 in Hl.
  specialize (F3 j l Hl). rewrite <- C3 in Hl.
  specialize (F4 j l Hl). rewrite <- C4 in Hl.
  specialize (F5 j l Hl). rewrite <- C5 in Hl.
  specialize (F6 j l Hl). specialize (F7 j).
  split; [| split; [| split]].
  - intros col Hin Hcol. cbn [In cols_to_clean] in Hin.
    destruct Hin as [<- | [<- | [<- | []]]]; use_label Hcol; congruence.
  - intros col Hin Hcol. cbn [In] in Hin.
    destruct Hin as [<- | [<- | []]]; use_label Hcol; congruence.
  - intros Hcol. use_label Hcol. congruence.
  - unfold is_cleaned_label, cleaned_labels, cols_to_clean. cbn [app existsb].
    rewrite !orb_false_iff. intros [E1 [E2 [E3 [E4 [E5 [E6 _]]]]]].
    rewrite E1 in F1. rewrite E2 in F2. rewrite E3 in F3.
    rewrite E4 in F4. rewrite E5 in F5. rewrite E6 in F6. congruence.
Qed.

(** ** The initial frame and the header *)

Lemma width_ge (data : list (list pystr)) (r : list pystr) :
  In r data -> length r <= width data.
Proof.
  induction data as [|x data IH]; [intros [] |].
  cbn [width foldr]. fold (width data). intros [-> | Hin]; [lia |].
  specialize (IH Hin). lia.
Qed.

Lemma length_pad_row (w : nat) (r : list pystr) :
  length r <= w -> length (pad_row w r) = w.
Proof.
  intros Hle. unfold pad_row. rewrite length_app, length_map, length_replicate. lia.
Qed.

Lemma DataFrame_spec (data : list (list pystr)) :
  length (columns (DataFrame data)) = width data
  /\ body (DataFrame data) = List.map (pad_row (width data)) data
  /\ index (DataFrame data) = seq 0 (length data)
  /\ length (rows (DataFrame data)) = length data
  /\ rectangular (DataFrame data).
Proof.
  assert (Hbody : body (DataFrame data) = List.map (pad_row (width data)) data)
    by apply (imap_body (pad_row (width data)) data 0).
  assert (Hcols : length (columns (DataFrame data)) = width data).
  { unfold DataFrame. cbn [columns]. rewrite length_map, length_seq. reflexivity. }
  split; [exact Hcols | split; [exact Hbody | split; [| split]]].
  - apply (imap_index (pad_row (width data)) data 0).
  - unfold DataFrame. cbn [rows]. apply length_imap.
  - unfold rectangular.
    apply (List.Forall_map snd (fun cells => length cells = length (columns (DataFrame data)))).
    fold (body (DataFrame data)). rewrite Hbody, Hcols.
    apply List.Forall_map. apply List.Forall_forall. intros r Hr.
    apply length_pad_row. apply width_ge. exact Hr.
Qed.

Lemma header_mask_rows (df : frame) :
  header_mask df = List.map (fun r => row_is_header r.2) (rows df).
Proof.
  unfold header_mask, column, row_is_header.
  induction (rows df) as [|r rs IH]; [reflexivity |].
  cbn [List.map zip_with]. rewrite IH. reflexivity.
Qed.

Lemma select_filter {A} (p : A -> bool) (l : list A) :
  List.map fst (List.filter snd (zip l (List.map p l))) = List.filter p l.
Proof.
  induction l as [|x l IH]; [reflexivity |].
  cbn [List.map zip zip_with List.filter snd]. destruct (p x); cbn [List.map fst];
    rewrite IH; reflexivity.
Qed.

Lemma existsb_id_map {A} (p : A -> bool) (l : list A) :
  existsb id (List.map p l) = existsb p l.
Proof. induction l as [|x l IH]; [reflexivity |]. cbn. rewrite IH. reflexivity. Qed.

(** The three ways header resolution can go. *)
Lemma resolve_header_spec (df : frame) :
  (existsb (fun r => row_is_header r.2) (rows df) = true ->
   length (columns df) = 7 ->
   resolve_header df
   = Return {| columns := List.map (fun h => LVal (VStr h)) headers;
               rows := data_rows df |})
  /\ (existsb (fun r => row_is_header r.2) (rows df) = true ->
      length (columns df) <> 7 ->
      resolve_header df = Raise (length_mismatch (length (columns df)) 7))
  /\ (existsb (fun r => row_is_header r.2) (rows df) = false ->
      forall first rest, rows df = first :: rest ->
      length first.2 = length (columns df) ->
      resolve_header df
      = Return {| columns := List.map LVal first.2; rows := rest |}).
Proof.
  unfold resolve_header. rewrite header_mask_rows, existsb_id_map.
  split; [| split].
  - intros -> Hw. unfold set_columns. cbn [length headers List.map].
    rewrite Hw. cbn [Nat.eqb mbind result_bind mret result_ret].
    unfold select_rows, data_rows. cbn [columns rows]. f_equal. f_equal.
    rewrite List.map_map. apply (select_filter (fun r => negb (row_is_header r.2))).
  - intros -> Hw. unfold set_columns. cbn [length headers List.map].
    destruct (Nat.eqb_spec 7 (length (columns df))) as [E |]; [congruence |].
    reflexivity.
  - intros -> first rest Hrows Hlen. unfold iloc0, set_columns. rewrite Hrows.
    cbn [mbind result_bind mret result_ret]. rewrite length_map, Hlen, Nat.eqb_refl.
    unfold tail_rows. cbn [columns rows]. reflexivity.
Qed.

Lemma resolve_header_rectangular (df df' : frame) :
  resolve_header df = Return df' -> rectangular df -> rectangular df'.
Proof.
  intros Hrun Hrect.
  destruct (resolve_header_spec df) as [H1 [H2 H3]].
  destruct (existsb (fun r => row_is_header r.2) (rows df)) eqn:Hany.
  - destruct (Nat.eq_dec (length (columns df)) 7) as [Hw | Hw].
    + rewrite (H1 eq_refl Hw) in Hrun. injection Hrun as <-.
      unfold rectangular, data_rows in *. cbn [columns rows].
      apply List.Forall_forall. intros r Hr. apply List.filter_In in Hr.
      destruct Hr as [Hr _]. rewrite List.Forall_forall in Hrect.
      rewrite (Hrect r Hr). exact Hw.
    + rewrite (H2 eq_refl Hw) in Hrun. discriminate.
  - destruct (rows df) as [|first rest] eqn:Hrows.
    + unfold resolve_header, iloc0 in Hrun. rewrite header_mask_rows in Hrun.
      rewrite Hrows in Hrun. cbn in Hrun. discriminate.
    + unfold rectangular in Hrect. rewrite Hrows in Hrect.
      pose proof (Forall_inv Hrect) as Hfirst.
      rewrite (H3 eq_refl first rest eq_refl Hfirst) in Hrun. injection Hrun as <-.
      unfold rectangular. cbn [columns rows]. rewrite length_map.
      apply Forall_inv_tail in Hrect. rewrite Hfirst. exact Hrect.
Qed.

Lemma resolve_header_body (df df' : frame) (cells : list value) :
  resolve_header df = Return df' -> In cells (body df') -> In cells (body df).
Proof.
  unfold resolve_header, body. intros Hrun Hin.
  apply in_map_iff in Hin. destruct Hin as [r [<- Hr]].
  apply in_map. revert Hrun.
  destruct (existsb id (header_mask df)); intros Hrun.
  - apply bind_Return in Hrun. destruct Hrun as [d [Hset Hret]].
    unfold set_columns in Hset.
    destruct (length _ =? length _)%nat; [| discriminate].
    injection Hset as <-. injection Hret as <-.
    unfold select_rows in Hr. cbn [rows] in Hr.
    apply in_map_iff in Hr. destruct Hr as [[r' b] [<- Hr]].
    apply List.filter_In in Hr. destruct Hr as [Hr _].
    apply list_elem_of_In, elem_of_zip_l in Hr. apply list_elem_of_In. exact Hr.
  - apply bind_Return in Hrun. destruct Hrun as [first [_ Hrun]].
    apply bind_Return in Hrun. destruct Hrun as [d [Hset Hret]].
    unfold set_columns in Hset.
    destruct (length _ =? length _)%nat; [| discriminate].
    injection Hset as <-. injection Hret as <-.
    unfold tail_rows in Hr. cbn [rows] in Hr.
    apply list_elem_of_In. apply list_elem_of_In in Hr.
    destruct (rows df) as [|x xs]; [exact Hr |]. right. exact Hr.
Qed.

Lemma pad_row_lookup (w : nat) (r : list pystr) (j : nat) (s : pystr) :
  r !! j = Some s -> pad_row w r !! j = Some (VStr s).
Proof.
  intros Hj. unfold pad_row. rewrite lookup_app_l.
  - rewrite lookup_map, Hj. reflexivity.
  - rewrite length_map. exact (lookup_lt_Some _ _ _ Hj).
Qed.

(** ** The extraction function *)

(** The run of the extraction function, stage by stage. *)
Lemma extract_run (w : world) (pdf_path : pystr) (password : option pystr) :
  extract_hdfc_statement w pdf_path password =
  match pdfplumber_open w pdf_path password with
  | Raise e => IO [] (Raise e)
  | Return pages =>
      let line := Printed (processing_message (length pages) pdf_path) in
      match read_pages [] pages with
      | Raise e => IO [line] (Raise e)
      | Return [] => IO [line; Printed no_data_message] (Return None)
      | Return (r :: data) =>
          match resolve_header (DataFrame (r :: data)) ≫= clean_fields with
          | Return df => IO [line] (Return (Some df))
          | Raise e => IO [line] (Raise e)
          end
      end
  end.
Proof.
  unfold extract_hdfc_statement, lift, print.
  destruct (pdfplumber_open w pdf_path password) as [pages | e]; [| reflexivity].
  cbn [mbind io_bind mret io_ret outcome output app].
  destruct (read_pages [] pages) as [[|r data] | e];
    cbn [mbind io_bind mret io_ret outcome output app]; try reflexivity.
  destruct (resolve_header (DataFrame (r :: data))) as [df0 | e];
    cbn [mbind io_bind result_bind mret io_ret outcome output app]; [| reflexivity].
  destruct (clean_fields df0) as [df | e]; reflexivity.
Qed.

Lemma extract_returns (w : world) (pdf_path : pystr) (password : option pystr)
    (df : frame) :
  outcome (extract_hdfc_statement w pdf_path password) = Return (Some df) ->
  exists pages data df0,
    pdfplumber_open w pdf_path password = Return pages
    /\ read_pages [] pages = Return data
    /\ data <> []
    /\ resolve_header (DataFrame data) = Return df0
    /\ rectangular df0
    /\ clean_fields df0 = Return df.
Proof.
  rewrite extract_run.
  destruct (pdfplumber_open w pdf_path password) as [pages | e] eqn:Hopen;
    [| discriminate].
  cbn zeta.
  destruct (read_pages [] pages) as [[|r data] | e] eqn:Hread; try discriminate.
  destruct (resolve_header (DataFrame (r :: data))) as [df0 | e] eqn:Hres;
    cbn [mbind result_bind outcome]; [| discriminate].
  destruct (clean_fields df0) as [df' | e] eqn:Hclean; cbn [outcome]; [| discriminate].
  intros [= <-].
  exists pages, (r :: data), df0.
  split; [reflexivity | split; [exact Hread | split; [discriminate |]]].
  split; [exact Hres | split; [| exact Hclean]].
  apply (resolve_header_rectangular _ _ Hres). apply DataFrame_spec.
Qed.

(** ** The claims about a whole run *)

(** C5. When no row survives normalisation, the extraction function
    prints the no-data message after the progress line and returns
    [None] without raising, and the entry point then prints nothing
    more and writes no spreadsheet. *)
Theorem no_data_found (w : world) (pdf_path : pystr) (password : option pystr)
    (pages : list page) :
  pdfplumber_open w pdf_path password = Return pages ->
  read_pages [] pages = Return [] ->
  extract_hdfc_statement w pdf_path password
  = IO [Printed (processing_message (length pages) pdf_path); Printed no_data_message]
       (Return None)
  /\ (pdf_path = pdf_filename -> password = None ->
      main w = [Printed (processing_message (length pages) pdf_filename);
                Printed no_data_message]
      /\ forall path df, ~ In (ToExcel path df) (main w)).
Proof.
  intros Hopen Hread.
  assert (Hrun : extract_hdfc_statement w pdf_path password
                 = IO [Printed (processing_message (length pages) pdf_path);
                       Printed no_data_message] (Return None)).
  { rewrite extract_run, Hopen. cbn zeta. rewrite Hread. reflexivity. }
  split; [exact Hrun |].
  intros -> ->.
  assert (Hmain : main w = [Printed (processing_message (length pages) pdf_filename);
                            Printed no_data_message]).
  { unfold main, try_block. rewrite Hrun. reflexivity. }
  split; [exact Hmain |].
  intros path df Hin. rewrite Hmain in Hin.
  destruct Hin as [H | [H | []]]; discriminate H.
Qed.

(** C8. In the table a run returns, every value of the Withdrawal
    Amount, Deposit Amount and Closing Balance columns is a number
    greater than or equal to zero: a finite number from zero on (zero
    for a cell that is not read), or the positive infinity, should the
    reader overflow to it.  Line 61 has deleted every sign before the
    text is read, and the reader is taken to give no number below zero
    for a numeral without a minus sign. *)
Theorem amounts_nonnegative (w : world) (pdf_path : pystr) (password : option pystr)
    (df : frame) :
  reader_keeps_sign ->
  outcome (extract_hdfc_statement w pdf_path password) = Return (Some df) ->
  forall col j row,
    In col cols_to_clean -> columns df !! j = Some (LVal (VStr col)) ->
    In row (rows df) ->
    (exists q, row.2 !! j = Some (VNum q) /\ (0 <= q)%Q)
    \/ row.2 !! j = Some (VInf false).
Proof.
  intros Hsign Hrun col j row Hcol Hj Hrow.
  destruct (extract_returns _ _ _ _ Hrun)
    as [pages [data [df0 [_ [_ [_ [_ [Hrect Hclean]]]]]]]].
  destruct (clean_fields_spec _ _ Hclean Hrect) as [Hcols [_ [_ [Hrect' Hcolumn]]]].
  rewrite Hcols in Hj. destruct (Hcolumn j _ Hj) as [Hamount _].
  assert (Hlab : is_label col (LVal (VStr col)) = true).
  { unfold is_label, pystr_eqb. apply bool_decide_eq_true. reflexivity. }
  specialize (Hamount col Hcol Hlab).
  assert (Hcell : In (default VNone (row.2 !! j)) (column j df)).
  { unfold column. apply (in_map (fun r => default VNone (r.2 !! j))). exact Hrow. }
  rewrite Hamount in Hcell. apply (amount_column_nonneg _ _ Hsign) in Hcell.
  unfold rectangular in Hrect'. rewrite List.Forall_forall in Hrect'.
  specialize (Hrect' row Hrow). cbn beta in Hrect'.
  destruct (row.2 !! j) as [x |] eqn:Hx.
  - cbn [default from_option id] in Hcell.
    destruct Hcell as [[q [-> Hq]] | ->]; [left; eauto | right; reflexivity].
  - apply lookup_ge_None in Hx. apply lookup_lt_Some in Hj. rewrite Hcols in Hrect'. lia.
Qed.

(** C9. The table a run returns has the index 0, 1, ..., n-1, where n
    is the number of rows left by header resolution: the field cleaner
    and the index reset keep the labels and the number of records. *)
Theorem result_index (w : world) (pdf_path : pystr) (password : option pystr)
    (df : frame) :
  outcome (extract_hdfc_statement w pdf_path password) = Return (Some df) ->
  exists pages data df0,
    pdfplumber_open w pdf_path password = Return pages
    /\ read_pages [] pages = Return data
    /\ resolve_header (DataFrame data) = Return df0
    /\ index df = seq 0 (length (rows df0))
    /\ length (rows df) = length (rows df0)
    /\ columns df = columns df0.
Proof.
  intros Hrun.
  destruct (extract_returns _ _ _ _ Hrun)
    as [pages [data [df0 [Hopen [Hread [_ [Hres [Hrect Hclean]]]]]]]].
  destruct (clean_fields_spec _ _ Hclean Hrect) as [Hcols [Hidx [Hlen _]]].
  exists pages, data, df0. auto 10.
Qed.

(** C10. The field cleaner changes only the columns labelled Withdrawal
    Amount, Deposit Amount, Closing Balance, Date, Value Date and
    Narration: every other column of the returned table, whatever its
    label, holds the values it had after header resolution, which are
    the stripped cells of the normalised rows (or the padding of a
    short row). *)
Theorem other_columns_unchanged (w : world) (pdf_path : pystr)
    (password : option pystr) (df : frame) :
  outcome (extract_hdfc_statement w pdf_path password) = Return (Some df) ->
  exists pages data df0,
    pdfplumber_open w pdf_path password = Return pages
    /\ read_pages [] pages = Return data
    /\ resolve_header (DataFrame data) = Return df0
    /\ columns df = columns df0
    /\ (forall j l, columns df0 !! j = Some l -> is_cleaned_label l = false ->
          column j df = column j df0)
    /\ (forall cells, In cells (body df0) ->
          exists r, In r data /\ cells = pad_row (width data) r
            /\ forall j s, r !! j = Some s -> cells !! j = Some (VStr s)).
Proof.
  intros Hrun.
  destruct (extract_returns _ _ _ _ Hrun)
    as [pages [data [df0 [Hopen [Hread [_ [Hres [Hrect Hclean]]]]]]]].
  destruct (clean_fields_spec _ _ Hclean Hrect) as [Hcols [_ [_ [_ Hcolumn]]]].
  exists pages, data, df0.
  split; [exact Hopen | split; [exact Hread | split; [exact Hres |]]].
  split; [exact Hcols | split].
  - intros j l Hl Hother. apply (Hcolumn j l Hl). exact Hother.
  - intros cells Hin. apply (resolve_header_body _ _ _ Hres) in Hin.
    destruct (DataFrame_spec data) as [_ [Hbody _]].
    rewrite Hbody in Hin. apply in_map_iff in Hin. destruct Hin as [r [<- Hr]].
    exists r. split; [exact Hr | split; [reflexivity |]].
    intros j s. apply pad_row_lookup.
Qed.

(** ** The date columns *)

Lemma div10_facts (n : N) :
  (n = 10 * (n / 10) + n mod 10 /\ n mod 10 < 10 /\ 0 <= n mod 10 /\ 0 <= n / 10)%N.
Proof.
  split; [apply N.div_mod; discriminate |].
  split; [apply N.mod_upper_bound; discriminate |].
  split; apply N.le_0_l.
Qed.

Lemma digit_char_is_digit (n : N) : is_ascii_digit (digit_char (n mod 10)) = true.
Proof.
  apply between_spec. unfold digit_char. pose proof (div10_facts n). lia.
Qed.

Lemma digit_char_value (n : N) : (digit_char n - 48 = n)%N.
Proof. unfold digit_char. lia. Qed.

Lemma pad2_value (n : N) :
  (n < 100)%N -> digits_value (List.map (fun c => c - 48)%N (zero_pad2 n)) = n.
Proof.
  intros Hn. unfold zero_pad2, digits_value. cbn [List.map fold_left].
  rewrite !digit_char_value.
  pose proof (div10_facts n). pose proof (div10_facts (n / 10)). lia.
Qed.

Lemma pad4_value (n : N) :
  (n < 10000)%N -> digits_value (List.map (fun c => c - 48)%N (zero_pad4 n)) = n.
Proof.
  intros Hn. unfold zero_pad4, digits_value. cbn [List.map fold_left].
  rewrite !digit_char_value.
  replace (n / 1000)%N with (n / 10 / 10 / 10)%N
    by (rewrite !N.Div0.div_div; reflexivity).
  replace (n / 100)%N with (n / 10 / 10)%N
    by (rewrite !N.Div0.div_div; reflexivity).
  pose proof (div10_facts n). pose proof (div10_facts (n / 10)).
  pose proof (div10_facts (n / 10 / 10)).
  pose proof (div10_facts (n / 10 / 10 / 10)). lia.
Qed.

Lemma days_in_month_le (y m : N) : (days_in_month y m <= 31)%N.
Proof.
  unfold days_in_month.
  destruct (m =? 2)%N; [destruct (is_leap y); lia |].
  destruct ((m =? 4) || (m =? 6) || (m =? 9) || (m =? 11))%N; lia.
Qed.

(** Reading the rendered text day first gives the date back. *)
Lemma strftime_roundtrip (d : date) :
  valid_date d = true -> parse_ddmmyyyy (strftime d) = Some d.
Proof.
  destruct d as [y m dd]. intros Hvalid.
  pose proof Hvalid as Hb. unfold valid_date in Hb. cbn [year month day] in Hb.
  rewrite !andb_true_iff, !between_spec in Hb.
  destruct Hb as [[[_ Hy] [_ Hm]] [_ Hd]].
  pose proof (days_in_month_le y m) as Hdim.
  unfold strftime, parse_ddmmyyyy. cbn [zero_pad2 zero_pad4 app year month day].
  cbn [forallb]. rewrite !digit_char_is_digit, !N.eqb_refl. cbn [andb].
  change [digit_char (y / 1000 mod 10); digit_char (y / 100 mod 10);
          digit_char (y / 10 mod 10); digit_char (y mod 10)] with (zero_pad4 y).
  change [digit_char (m / 10 mod 10); digit_char (m mod 10)] with (zero_pad2 m).
  change [digit_char (dd / 10 mod 10); digit_char (dd mod 10)] with (zero_pad2 dd).
  rewrite pad4_value, !pad2_value by lia.
  rewrite Hvalid. reflexivity.
Qed.

Lemma timestamps_datetimelike (ds : list (option date)) :
  forallb is_datetimelike
    (List.map (fun o => match o with Some d => VDate d | None => VNaT end) ds) = true.
Proof.
  induction ds as [|[d |] ds IH]; [reflexivity | exact IH | exact IH].
Qed.

(** The two statements on a date column, given what the parser read. *)
Lemma clean_dates_spec (vals : list value) (ds : list (option date)) :
  to_datetime vals = Return ds ->
  clean_dates vals
  = Return (List.map (fun o => match o with
                               | Some d => VStr (strftime d)
                               | None => VNaN
                               end) ds).
Proof.
  intros Hds. unfold clean_dates, series_to_datetime. rewrite Hds.
  cbn [mbind result_bind mret result_ret]. unfold dt_strftime.
  rewrite timestamps_datetimelike, List.map_map. f_equal.
  apply List.map_ext. intros [d |]; reflexivity.
Qed.

(** ** Where header resolution does complete *)

(** On a rectangular frame with at least one row, header resolution
    returns whenever the frame is seven columns wide or no row matches
    the header pattern; only a matching row in a wider (or narrower)
    frame makes it raise. *)
Lemma resolve_header_returns (df : frame) :
  rectangular df -> rows df <> [] ->
  length (columns df) = 7 \/ existsb (fun r => row_is_header r.2) (rows df) = false ->
  exists df', resolve_header df = Return df'.
Proof.
  intros Hrect Hrows Hcase.
  destruct (resolve_header_spec df) as [H1 [_ H3]].
  destruct (existsb (fun r => row_is_header r.2) (rows df)) eqn:Hany.
  - destruct Hcase as [Hw | Hno]; [| discriminate].
    eexists. apply (H1 eq_refl Hw).
  - destruct (rows df) as [|first rest] eqn:Hr; [contradiction |].
    eexists. apply (H3 eq_refl first rest eq_refl).
    unfold rectangular in Hrect. rewrite Hr in Hrect. exact (Forall_inv Hrect).
Qed.

(** ** The cell functions are what a run applies *)

(** In the table a run returns, the amount columns hold [amount_column]
    of the columns left by header resolution, the date columns hold
    [clean_dates] of theirs, and the narration column [clean_narration]
    of its cells. *)
Lemma returned_columns (w : world) (pdf_path : pystr) (password : option pystr)
    (df : frame) :
  outcome (extract_hdfc_statement w pdf_path password) = Return (Some df) ->
  exists pages data df0,
    pdfplumber_open w pdf_path password = Return pages
    /\ read_pages [] pages = Return data
    /\ resolve_header (DataFrame data) = Return df0
    /\ forall j l, columns df0 !! j = Some l ->
         (forall col, In col cols_to_clean -> is_label col l = true ->
            column j df = amount_column (column j df0))
         /\ (forall col, In col [py "Date"; py "Value Date"] -> is_label col l = true ->
               clean_dates (column j df0) = Return (column j df))
         /\ (is_label (py "Narration") l = true ->
               column j df = List.map clean_narration (column j df0)).
Proof.
  intros Hrun.
  destruct (extract_returns _ _ _ _ Hrun)
    as [pages [data [df0 [Hopen [Hread [_ [Hres [Hrect Hclean]]]]]]]].
  destruct (clean_fields_spec _ _ Hclean Hrect) as [_ [_ [_ [_ Hcolumn]]]].
  exists pages, data, df0.
  split; [exact Hopen | split; [exact Hread | split; [exact Hres |]]].
  intros j l Hl. destruct (Hcolumn j l Hl) as [Ha [Hd [Hn _]]]. auto.
Qed.

(** ** The cleaned columns of a returned table *)

Lemma label_self (col : pystr) : is_label col (LVal (VStr col)) = true.
Proof. unfold is_label, pystr_eqb. apply bool_decide_eq_true. reflexivity. Qed.

Lemma numeral_text_inj (ip ip' : list N) (fr fr' : option (list N)) :
  digits ip -> digits (default [] fr) -> ip ++ default [] fr <> [] ->
  digits ip' -> digits (default [] fr') -> ip' ++ default [] fr' <> [] ->
  numeral_text ip fr = numeral_text ip' fr' -> ip = ip' /\ fr = fr'.
Proof.
  intros H1 H2 H3 H1' H2' H3' Heq.
  pose proof (read_numeral_text ip fr H1 H2 H3) as R.
  rewrite Heq, (read_numeral_text ip' fr' H1' H2' H3') in R.
  injection R as -> ->. auto.
Qed.

(** One cell of a cleaned amount column. *)
Lemma amount_column_lookup (vals : list value) (i : nat) (v : value) :
  vals !! i = Some v ->
  amount_column vals !! i
  = Some (if integer_amounts vals
          then VNum (inject_Z (default 0%Z (integer_amount v)))
          else clean_amount v).
Proof.
  intros Hv. unfold amount_column.
  destruct (integer_amounts vals); rewrite lookup_map, Hv; reflexivity.
Qed.

Lemma integer_amounts_spec (vals : list value) :
  integer_amounts vals = true <->
  forall v, In v vals ->
    exists ip, kept_text v = numeral_text ip None /\ digits ip /\ ip <> []
               /\ (Z.of_N (digits_value ip) <= uint64_max)%Z
               /\ xstrtod (mknumeral false ip None None) <> None.
Proof.
  unfold integer_amounts. rewrite forallb_forall. split.
  - intros H v Hv. specialize (H v Hv).
    destruct (integer_amount v) as [z |] eqn:Hz; [| discriminate].
    apply integer_amount_spec in Hz.
    destruct Hz as [ip [Hk [Hip [Hne [-> [Hmax Hread]]]]]]. eauto 10.
  - intros H v Hv. destruct (H v Hv) as [ip [Hk [Hip [Hne [Hmax Hread]]]]].
    assert (Hz : integer_amount v = Some (Z.of_N (digits_value ip)))
      by (apply integer_amount_spec; eauto 10).
    rewrite Hz. reflexivity.
Qed.

(** C1 (amended). In the table a run returns, a cell of the Withdrawal
    Amount, Deposit Amount or Closing Balance column is decided by the
    text that remains of the cell left by header resolution once every
    character other than a digit or a point is deleted; a text that
    matches the amount pattern after comma removal remains as it is.
    If what remains is a numeral (ASCII digits with at most one point
    and at least one digit), the value is what [pd.to_numeric] reads
    from it: the exact integer when the column is stored as integers,
    which is when every cell of it is left as digits alone, up to
    [uint64_max], that the reader has converted; and otherwise the
    binary64 number the reader gives, or 0.0 when it gives none.
    Either way the value is the number the numeral denotes whenever
    the reader is exact on it.  If what remains is no numeral (no ASCII
    digit, as for the empty text and a lone point; more than one
    point; a digit from outside ASCII), the value is 0.0.  Every cell
    falls under one of the two cases, so a cell with other content
    than the pattern allows is not forced to zero: its digits and
    points are still read. *)
Theorem amount_cell_value (w : world) (pdf_path : pystr) (password : option pystr)
    (df : frame) :
  outcome (extract_hdfc_statement w pdf_path password) = Return (Some df) ->
  exists pages data df0,
    pdfplumber_open w pdf_path password = Return pages
    /\ read_pages [] pages = Return data
    /\ resolve_header (DataFrame data) = Return df0
    /\ forall col j,
         In col cols_to_clean -> columns df0 !! j = Some (LVal (VStr col)) ->
         let whole := integer_amounts (column j df0) in
         (whole = true <->
            forall v, In v (column j df0) ->
              exists ip, kept_text v = numeral_text ip None /\ digits ip /\ ip <> []
                         /\ (Z.of_N (digits_value ip) <= uint64_max)%Z
                         /\ xstrtod (mknumeral false ip None None) <> None)
         /\ length (column j df) = length (column j df0)
         /\ forall i v, column j df0 !! i = Some v ->
              exists out,
                column j df !! i = Some out
                /\ kept_text v = List.filter kept_char (astype_str v)
                /\ (amount_pattern (str_replace (py ",") [] (astype_str v)) = true ->
                    kept_text v = str_replace (py ",") [] (astype_str v))
                /\ (not_a_numeral (kept_text v) -> out = VNum 0)
                /\ (forall ip fr,
                      kept_text v = numeral_text ip fr ->
                      digits ip -> digits (default [] fr) -> ip ++ default [] fr <> [] ->
                      let n := mknumeral false ip fr None in
                      out = (if whole
                             then VNum (inject_Z (Z.of_N (digits_value ip)))
                             else filled (xstrtod n))
                      /\ (xstrtod n = Some (Finite (numeral_value n)) ->
                          out = VNum (numeral_value n)))
                /\ (not_a_numeral (kept_text v)
                    \/ exists ip fr,
                         kept_text v = numeral_text ip fr /\ digits ip
                         /\ digits (default [] fr) /\ ip ++ default [] fr <> []).
Proof.
  intros Hrun.
  destruct (extract_returns _ _ _ _ Hrun)
    as [pages [data [df0 [Hopen [Hread [_ [Hres [Hrect Hclean]]]]]]]].
  destruct (clean_fields_spec _ _ Hclean Hrect) as [_ [_ [Hlen [_ Hcolumn]]]].
  exists pages, data, df0.
  split; [exact Hopen | split; [exact Hread | split; [exact Hres |]]].
  intros col j Hcol Hj whole.
  destruct (Hcolumn j _ Hj) as [Hamount _].
  specialize (Hamount col Hcol (label_self col)).
  split; [apply integer_amounts_spec |].
  split; [rewrite !length_column; exact Hlen |].
  intros i v Hv.
  pose proof (amount_column_lookup _ i v Hv) as Hout. rewrite <- Hamount in Hout.
  fold whole in Hout.
  eexists. split; [exact Hout |].
  split; [apply kept_text_filter |].
  split.
  { intros Hpat. unfold kept_text. apply (amount_pattern_kept _ Hpat).
    rewrite replace_comma. apply forallb_forall. intros c Hc.
    apply List.filter_In in Hc. apply Hc. }
  split.
  { intros Hnot. destruct whole.
    - unfold integer_amount.
      rewrite (read_text_not_a_numeral _ (kept_text_kept v) Hnot). reflexivity.
    - apply (clean_amount_zero v Hnot). }
  split; [| apply kept_text_shape, kept_text_kept].
  intros ip fr Hk Hip Hfp Hne n.
  assert (Hval : (if whole
                  then VNum (inject_Z (default 0%Z (integer_amount v)))
                  else clean_amount v)
                 = (if whole
                    then VNum (inject_Z (Z.of_N (digits_value ip)))
                    else filled (xstrtod n))
                 /\ (whole = true -> fr = None)).
  { destruct whole eqn:Hwhole.
    - assert (Hin : In v (column j df0))
        by (apply list_elem_of_In, list_elem_of_lookup; eauto).
      destruct (proj1 (integer_amounts_spec _) Hwhole v Hin)
        as [ip' [Hk' [Hip' [Hne' [Hmax Hread']]]]].
      assert (Hall' : ip' ++ default [] (@None (list N)) <> []).
      { cbn [default from_option id]. rewrite app_nil_r. exact Hne'. }
      rewrite Hk in Hk'.
      destruct (numeral_text_inj ip ip' fr None Hip Hfp Hne Hip' (List.Forall_nil _)
                  Hall' Hk') as [-> ->].
      assert (Hz : integer_amount v = Some (Z.of_N (digits_value ip')))
        by (apply integer_amount_spec; exists ip'; rewrite Hk; auto 10).
      rewrite Hz. auto.
    - split; [apply (clean_amount_numeral v ip fr Hk Hip Hfp Hne) | discriminate]. }
  destruct Hval as [Hval Hint]. split; [exact Hval |].
  intros Hexact. rewrite Hval. destruct whole.
  - specialize (Hint eq_refl). subst fr. unfold n.
    rewrite numeral_value_integer. reflexivity.
  - rewrite Hexact. reflexivity.
Qed.

Lemma clean_dates_inv (vals out : list value) :
  clean_dates vals = Return out ->
  exists ds, to_datetime vals = Return ds /\ out = List.map render_date ds.
Proof.
  intros H. destruct (to_datetime vals) as [ds | e] eqn:Hds.
  - exists ds. split; [reflexivity |].
    rewrite (clean_dates_spec vals ds Hds) in H. injection H as <-. reflexivity.
  - unfold clean_dates, series_to_datetime in H. rewrite Hds in H. discriminate H.
Qed.

(** C6 (amended). In the table a run returns, the Date and the Value
    Date column hold what the two statements make of the dates
    [pd.to_datetime] has read from the column left by header
    resolution: a cell read as a date comes out as zero-padded
    day/month/four-digit-year text, ten characters long, and reading
    that text day first gives the date that was read; a cell read as
    NaT comes out as the missing marker NaN, not as a date.  Which
    date is read from a cell is the parser's decision for the column
    as a whole. *)
Theorem dates_rendered (w : world) (pdf_path : pystr) (password : option pystr)
    (df : frame) :
  outcome (extract_hdfc_statement w pdf_path password) = Return (Some df) ->
  exists pages data df0,
    pdfplumber_open w pdf_path password = Return pages
    /\ read_pages [] pages = Return data
    /\ resolve_header (DataFrame data) = Return df0
    /\ forall col j,
         In col [py "Date"; py "Value Date"] ->
         columns df0 !! j = Some (LVal (VStr col)) ->
         exists ds,
           to_datetime (column j df0) = Return ds
           /\ length ds = length (column j df0)
           /\ column j df = List.map render_date ds
           /\ forall i,
                (forall d, ds !! i = Some (Some d) ->
                   column j df !! i = Some (VStr (strftime d))
                   /\ length (strftime d) = 10
                   /\ (valid_date d = true -> parse_ddmmyyyy (strftime d) = Some d))
                /\ (ds !! i = Some None -> column j df !! i = Some VNaN).
Proof.
  intros Hrun.
  destruct (extract_returns _ _ _ _ Hrun)
    as [pages [data [df0 [Hopen [Hread [_ [Hres [Hrect Hclean]]]]]]]].
  destruct (clean_fields_spec _ _ Hclean Hrect) as [_ [_ [Hlen [_ Hcolumn]]]].
  exists pages, data, df0.
  split; [exact Hopen | split; [exact Hread | split; [exact Hres |]]].
  intros col j Hcol Hj.
  destruct (Hcolumn j _ Hj) as [_ [Hdate _]].
  specialize (Hdate col Hcol (label_self col)).
  destruct (clean_dates_inv _ _ Hdate) as [ds [Hds Hout]].
  exists ds. split; [exact Hds |].
  split.
  { rewrite <- (length_map render_date ds), <- Hout, !length_column. exact Hlen. }
  split; [exact Hout |].
  intros i. rewrite Hout. split.
  - intros d Hd. rewrite lookup_map, Hd.
    split; [reflexivity | split; [reflexivity | apply strftime_roundtrip]].
  - intros Hd. rewrite lookup_map, Hd. reflexivity.
Qed.

(** C7. In the table a run returns, every cell of the Narration column
    is text without a newline.  For a text cell left by header
    resolution it is that text with each newline replaced by one space
    and every other character where it was, so the length is the same
    and nothing is merged. *)
Theorem narration_newlines (w : world) (pdf_path : pystr) (password : option pystr)
    (df : frame) :
  outcome (extract_hdfc_statement w pdf_path password) = Return (Some df) ->
  exists pages data df0,
    pdfplumber_open w pdf_path password = Return pages
    /\ read_pages [] pages = Return data
    /\ resolve_header (DataFrame data) = Return df0
    /\ forall j,
         columns df0 !! j = Some (LVal (VStr (py "Narration"))) ->
         columns df !! j = Some (LVal (VStr (py "Narration")))
         /\ length (column j df) = length (column j df0)
         /\ (forall i x, column j df !! i = Some x ->
               exists t, x = VStr t /\ ~ In 10%N t)
         /\ forall i s, column j df0 !! i = Some (VStr s) ->
              let out := List.map (fun c => if (c =? 10)%N then 32%N else c) s in
              column j df !! i = Some (VStr out)
              /\ length out = length s
              /\ forall k c, s !! k = Some c ->
                   out !! k = Some (if (c =? 10)%N then 32%N else c).
Proof.
  intros Hrun.
  destruct (extract_returns _ _ _ _ Hrun)
    as [pages [data [df0 [Hopen [Hread [_ [Hres [Hrect Hclean]]]]]]]].
  destruct (clean_fields_spec _ _ Hclean Hrect) as [Hcols [_ [Hlen [_ Hcolumn]]]].
  exists pages, data, df0.
  split; [exact Hopen | split; [exact Hread | split; [exact Hres |]]].
  intros j Hj.
  destruct (Hcolumn j _ Hj) as [_ [_ [Hnarr _]]].
  specialize (Hnarr (label_self _)).
  split; [rewrite Hcols; exact Hj |].
  split; [rewrite !length_column; exact Hlen |].
  split.
  - intros i x Hx. rewrite Hnarr, lookup_map in Hx.
    destruct (column j df0 !! i) as [v |]; [| discriminate Hx].
    injection Hx as <-. unfold clean_narration. rewrite replace_newline.
    eexists. split; [reflexivity |].
    intros Hin. apply in_map_iff in Hin. destruct Hin as [c [Hc _]].
    destruct (N.eqb_spec c 10); [discriminate | contradiction].
  - intros i s Hs out. rewrite Hnarr, lookup_map, Hs.
    split; [| split].
    + cbn [fmap option_fmap option_map]. unfold clean_narration.
      cbn [astype_str]. rewrite replace_newline. reflexivity.
    + apply length_map.
    + intros k c Hk. unfold out. rewrite lookup_map, Hk. reflexivity.
Qed.

(** ** The entry point *)

(** The extraction function prints the progress line and the no-data
    message, nothing else. *)
Lemma extract_output_lines (w : world) (pdf_path : pystr) (password : option pystr)
    (ev : event) :
  In ev (output (extract_hdfc_statement w pdf_path password)) ->
  (exists n, ev = Printed (processing_message n pdf_path))
  \/ ev = Printed no_data_message.
Proof.
  rewrite extract_run.
  destruct (pdfplumber_open w pdf_path password) as [pages | e]; [| intros []].
  cbn zeta.
  destruct (read_pages [] pages) as [[|r data] | e].
  - intros [<- | [<- | []]]; [left; eauto | right; reflexivity].
  - destruct (resolve_header (DataFrame (r :: data)) ≫= clean_fields);
      (intros [<- | []]; left; eauto).
  - intros [<- | []]. left. eauto.
Qed.

(** The run of the entry point, case by case. *)
Lemma main_run (w : world) :
  main w =
  match outcome (extract_hdfc_statement w pdf_filename None) with
  | Raise e => output (extract_hdfc_statement w pdf_filename None) ++ [report e]
  | Return None => output (extract_hdfc_statement w pdf_filename None)
  | Return (Some df) =>
      output (extract_hdfc_statement w pdf_filename None)
      ++ [Printed preview_line; PrintedFrame (head 10 df)]
      ++ match to_excel_error w output_file df with
         | Some e => [report e]
         | None => [ToExcel output_file df; Printed success_line]
         end
  end.
Proof.
  unfold main, try_block, to_excel, print, print_frame, report.
  destruct (extract_hdfc_statement w pdf_filename None) as [out [[df |] | e]];
    cbn [mbind io_bind mret io_ret outcome output].
  - destruct (to_excel_error w output_file df) as [e |];
      cbn [mbind io_bind mret io_ret outcome output app].
    + destruct (exn_kind e); rewrite ?app_nil_r, <- ?app_assoc; reflexivity.
    + rewrite <- ?app_assoc. reflexivity.
  - apply app_nil_r.
  - destruct (exn_kind e); reflexivity.
Qed.

(** X1. When the PDF cannot be opened the run prints exactly one line
    and nothing else: the file-not-found message for a
    [FileNotFoundError], the unexpected-error line with the exception
    text for any other exception.  No progress line is printed and no
    spreadsheet is written. *)
Theorem open_failure_reported (w : world) (e : exn) :
  pdfplumber_open w pdf_filename None = Raise e ->
  main w = [report e]
  /\ forall path df, ~ In (ToExcel path df) (main w).
Proof.
  intros Hopen.
  assert (Hmain : main w = [report e]).
  { rewrite main_run, extract_run, Hopen. reflexivity. }
  split; [exact Hmain |].
  intros path df Hin. rewrite Hmain in Hin. unfold report in Hin.
  destruct Hin as [H | []]. destruct (exn_kind e); discriminate H.
Qed.

(** X2. When a table was extracted but writing the spreadsheet raises,
    the preview has already been printed, the exception is reported by
    the same two handlers (so a [FileNotFoundError] of the writer is
    reported as the input file not found), no success line follows and
    no spreadsheet counts as written. *)
Theorem write_failure_reported (w : world) (df : frame) (e : exn) :
  outcome (extract_hdfc_statement w pdf_filename None) = Return (Some df) ->
  to_excel_error w output_file df = Some e ->
  main w = output (extract_hdfc_statement w pdf_filename None)
           ++ [Printed preview_line; PrintedFrame (head 10 df); report e]
  /\ (forall path d, ~ In (ToExcel path d) (main w))
  /\ ~ In (Printed success_line) (main w).
Proof.
  intros Hrun Hwrite.
  assert (Hmain : main w = output (extract_hdfc_statement w pdf_filename None)
                           ++ [Printed preview_line; PrintedFrame (head 10 df); report e]).
  { rewrite main_run, Hrun, Hwrite. reflexivity. }
  split; [exact Hmain | split].
  - intros path d Hin. rewrite Hmain in Hin. apply in_app_or in Hin.
    destruct Hin as [Hin | [H | [H | [H | []]]]]; try discriminate H.
    + apply extract_output_lines in Hin. destruct Hin as [[n H] | H]; discriminate H.
    + unfold report in H. destruct (exn_kind e); discriminate H.
  - intros Hin. rewrite Hmain in Hin. apply in_app_or in Hin.
    destruct Hin as [Hin | [H | [H | [H | []]]]]; try discriminate H.
    + apply extract_output_lines in Hin.
      destruct Hin as [[n H] | H]; vm_compute in H; discriminate H.
    + unfold report in H. destruct (exn_kind e); vm_compute in H; discriminate H.
Qed.

(** X3. The run writes a spreadsheet in one case only: the extraction
    returned a table and the writer did not raise; the file is then
    [hdfc_cleaned_data.xlsx] and holds the whole returned table, not
    the ten-row preview. *)
Theorem spreadsheet_written_iff (w : world) (path : pystr) (df : frame) :
  In (ToExcel path df) (main w) <->
  path = output_file
  /\ outcome (extract_hdfc_statement w pdf_filename None) = Return (Some df)
  /\ to_excel_error w output_file df = None.
Proof.
  rewrite main_run.
  assert (Hout : ~ In (ToExcel path df)
                     (output (extract_hdfc_statement w pdf_filename None))).
  { intros Hin. apply extract_output_lines in Hin.
    destruct Hin as [[n H] | H]; discriminate H. }
  destruct (outcome (extract_hdfc_statement w pdf_filename None)) as [[d |] | e].
  - destruct (to_excel_error w output_file d) as [e |] eqn:Hwrite.
    + split.
      * intros Hin. apply in_app_or in Hin.
        destruct Hin as [Hin | [H | [H | [H | []]]]]; try discriminate H;
          [contradiction |].
        unfold report in H. destruct (exn_kind e); discriminate H.
      * intros [_ [[= ->] Hnone]]. congruence.
    + split.
      * intros Hin. apply in_app_or in Hin.
        destruct Hin as [Hin | [H | [H | [H | [H | []]]]]]; try discriminate H;
          [contradiction |].
        injection H as <- <-. auto.
      * intros [-> [[= ->] _]]. apply in_or_app. right. cbn. auto.
  - split; [intros Hin; contradiction | intros [_ [H _]]; discriminate H].
  - split; [| intros [_ [H _]]; discriminate H].
    intros Hin. apply in_app_or in Hin. destruct Hin as [Hin | [H | []]];
      [contradiction |].
    unfold report in H. destruct (exn_kind e); discriminate H.
Qed.

(** X4. The success line is printed exactly when a spreadsheet was
    written: the run never reports success after a failure, and never
    writes without reporting it. *)
Theorem success_reported_iff (w : world) :
  In (Printed success_line) (main w) <->
  exists df, In (ToExcel output_file df) (main w).
Proof.
  rewrite main_run.
  assert (Hout : forall ev, In ev (output (extract_hdfc_statement w pdf_filename None)) ->
                   ev <> Printed success_line
                   /\ forall df, ev <> ToExcel output_file df).
  { intros ev Hin. apply extract_output_lines in Hin.
    destruct Hin as [[n ->] | ->]; (split; [| intros df H; discriminate H]);
      intros H; vm_compute in H; discriminate H. }
  assert (Hrep : forall e, report e <> Printed success_line
                           /\ forall df, report e <> ToExcel output_file df).
  { intros e. unfold report.
    destruct (exn_kind e); (split; [| intros df H; discriminate H]);
      intros H; vm_compute in H; discriminate H. }
  destruct (outcome (extract_hdfc_statement w pdf_filename None)) as [[d |] | e].
  - destruct (to_excel_error w output_file d) as [e |].
    + split.
      * intros Hin. apply in_app_or in Hin.
        destruct Hin as [Hin | [H | [H | [H | []]]]].
        -- destruct (proj1 (Hout _ Hin) eq_refl).
        -- vm_compute in H. discriminate H.
        -- discriminate H.
        -- destruct (proj1 (Hrep e) H).
      * intros [df Hin]. apply in_app_or in Hin.
        destruct Hin as [Hin | [H | [H | [H | []]]]]; try discriminate H.
        -- destruct (proj2 (Hout _ Hin) df eq_refl).
        -- destruct (proj2 (Hrep e) df H).
    + split.
      * intros _. exists d. apply in_or_app. right. cbn. auto.
      * intros _. apply in_or_app. right. cbn. auto.
  - split.
    + intros Hin. destruct (proj1 (Hout _ Hin) eq_refl).
    + intros [df Hin]. destruct (proj2 (Hout _ Hin) df eq_refl).
  - split.
    + intros Hin. apply in_app_or in Hin. destruct Hin as [Hin | [H | []]].
      * destruct (proj1 (Hout _ Hin) eq_refl).
      * destruct (proj1 (Hrep e) H).
    + intros [df Hin]. apply in_app_or in Hin. destruct Hin as [Hin | [H | []]].
      * destruct (proj2 (Hout _ Hin) df eq_refl).
      * destruct (proj2 (Hrep e) df H).
Qed.

(** ** More on the extraction function *)

Lemma filter_nil_Forall {A} (p : A -> bool) (l : list A) :
  List.filter p l = [] <-> Forall (fun x => p x = false) l.
Proof.
  induction l as [|x l IH]; cbn [List.filter].
  - split; constructor.
  - destruct (p x) eqn:Hx.
    + split; [discriminate |]. intros H. apply Forall_inv in H. congruence.
    + rewrite IH. split; [intros H; constructor; assumption | apply Forall_inv_tail].
Qed.

(** X5. A page whose tables cannot be extracted ends the extraction
    with that page's exception: the progress line (counting every
    page) has been printed, the rows of the pages before it are
    discarded, the pages after it are not read, and no table and no
    [None] is returned. *)
Theorem unreadable_page_aborts (w : world) (pdf_path : pystr) (password : option pystr)
    (before : list (list (list raw_row))) (e : exn) (after : list page) :
  pdfplumber_open w pdf_path password
  = Return (List.map Return before ++ Raise e :: after) ->
  extract_hdfc_statement w pdf_path password
  = IO [Printed (processing_message (length before + S (length after)) pdf_path)]
       (Raise e).
Proof.
  intros Hopen. rewrite extract_run, Hopen. cbn zeta.
  rewrite read_pages_raise, length_app, length_map. reflexivity.
Qed.

(** X6. For a PDF whose pages can all be read, the extraction returns
    [None] exactly when every raw row has fewer than seven cells (in
    particular when there is no table at all); a single row of seven
    or more cells leads to a table or to an exception, never to
    [None]. *)
Theorem none_returned_iff (w : world) (pdf_path : pystr) (password : option pystr)
    (pages : list (list (list raw_row))) :
  pdfplumber_open w pdf_path password = Return (List.map Return pages) ->
  (outcome (extract_hdfc_statement w pdf_path password) = Return None
   <-> Forall (fun r : raw_row => length r < 7) (concat (concat pages))).
Proof.
  intros Hopen. rewrite extract_run, Hopen. cbn zeta.
  rewrite (read_pages_spec pages []). cbn [app].
  match goal with
  | |- context [List.filter ?p ?l] => set (kept := List.filter p l)
  end.
  assert (Hkept : kept = [] <-> Forall (fun r : raw_row => length r < 7)
                                  (concat (concat pages))).
  { unfold kept. rewrite filter_nil_Forall. apply Forall_iff. intros r.
    destruct (Nat.leb_spec 7 (length r)); split; intros; try lia; try discriminate;
      reflexivity. }
  rewrite <- Hkept. destruct kept as [|r rest]; cbn [List.map].
  - split; reflexivity.
  - split; [| discriminate].
    destruct (resolve_header _ ≫= clean_fields); discriminate.
Qed.

(** ** Header resolution on the normalised rows *)

Lemma pad_row_cell (w : nat) (r : list pystr) (j : nat) :
  default VNone (pad_row w r !! j) = from_option VStr VNone (r !! j).
Proof.
  destruct (r !! j) as [s |] eqn:Hj.
  - rewrite (pad_row_lookup w r j s Hj). reflexivity.
  - apply lookup_ge_None in Hj. unfold pad_row.
    rewrite lookup_app_r by (rewrite length_map; exact Hj).
    destruct (replicate (w - length r) VNone !! (j - length (List.map VStr r)))
      as [v |] eqn:Hv; [| reflexivity].
    apply lookup_replicate in Hv. destruct Hv as [-> _]. reflexivity.
Qed.

Lemma row_is_header_pad (w : nat) (r : list pystr) :
  row_is_header (pad_row w r) = row_matches r.
Proof.
  unfold row_is_header, row_matches. rewrite !pad_row_cell.
  destruct (r !! 0%nat) as [a |]; destruct (r !! 1%nat) as [b |]; reflexivity.
Qed.

Lemma existsb_map {A B} (f : A -> B) (p : B -> bool) (l : list A) :
  existsb p (List.map f l) = existsb (fun x => p (f x)) l.
Proof. induction l as [|x l IH]; [reflexivity |]. cbn. rewrite IH. reflexivity. Qed.

Lemma filter_map_swap {A B} (f : A -> B) (p : B -> bool) (l : list A) :
  List.filter p (List.map f l) = List.map f (List.filter (fun x => p (f x)) l).
Proof.
  induction l as [|x l IH]; [reflexivity |]. cbn [List.map List.filter].
  destruct (p (f x)); cbn [List.map]; rewrite IH; reflexivity.
Qed.

(** A row of the initial frame matches exactly when its text row does. *)
Lemma DataFrame_header_any (data : list (list pystr)) :
  existsb (fun r => row_is_header r.2) (rows (DataFrame data))
  = existsb row_matches data.
Proof.
  rewrite <- (existsb_map snd row_is_header). fold (body (DataFrame data)).
  destruct (DataFrame_spec data) as [_ [-> _]].
  rewrite existsb_map. generalize (width data). intros w.
  induction data as [|r data IH]; [reflexivity |].
  cbn [existsb]. rewrite IH, row_is_header_pad. reflexivity.
Qed.

Lemma DataFrame_data_rows (data : list (list pystr)) :
  List.map snd (data_rows (DataFrame data))
  = List.map (pad_row (width data)) (List.filter (fun r => negb (row_matches r)) data).
Proof.
  unfold data_rows.
  rewrite <- (filter_map_swap snd (fun cells => negb (row_is_header cells))).
  fold (body (DataFrame data)). destruct (DataFrame_spec data) as [_ [-> _]].
  rewrite filter_map_swap. f_equal. apply List.filter_ext. intros r.
  rewrite row_is_header_pad. reflexivity.
Qed.

Lemma width_uniform (n : nat) (data : list (list pystr)) :
  data <> [] -> Forall (fun r => length r = n) data -> width data = n.
Proof.
  intros Hne Hall. induction Hall as [|r data Hr Hall IH]; [contradiction |].
  cbn [width foldr]. fold (width data). destruct data as [|r' data'].
  - cbn. lia.
  - rewrite IH by discriminate. lia.
Qed.

Lemma pad_row_full (r : list pystr) : pad_row (length r) r = List.map VStr r.
Proof. unfold pad_row. rewrite Nat.sub_diag. apply app_nil_r. Qed.

Lemma existsb_nonempty {A} (p : A -> bool) (l : list A) :
  existsb p l = true -> l <> [].
Proof. destruct l; [discriminate | discriminate]. Qed.

(** X7. On normalised rows of exactly seven cells with at least one row
    matching the header pattern, header resolution returns: the column
    names are the fixed seven, the data are the rows that do not match,
    in their order, each cell as text, and no returned row matches the
    pattern, however many header rows the pages repeated. *)
Theorem header_rows_removed (data : list (list pystr)) :
  Forall (fun r => length r = 7) data ->
  existsb row_matches data = true ->
  exists df,
    resolve_header (DataFrame data) = Return df
    /\ columns df = List.map (fun h => LVal (VStr h)) headers
    /\ body df = List.map (List.map VStr)
                   (List.filter (fun r => negb (row_matches r)) data)
    /\ Forall (fun cells => row_is_header cells = false) (body df).
Proof.
  intros Hseven Hany.
  pose proof (width_uniform 7 data (existsb_nonempty _ _ Hany) Hseven) as Hw.
  destruct (resolve_header_spec (DataFrame data)) as [H1 _].
  destruct (DataFrame_spec data) as [Hcols _].
  rewrite DataFrame_header_any, Hcols in H1. specialize (H1 Hany Hw).
  eexists. split; [exact H1 |]. split; [reflexivity |].
  assert (Hbody : List.map snd (data_rows (DataFrame data))
                  = List.map (List.map VStr)
                      (List.filter (fun r => negb (row_matches r)) data)).
  { rewrite DataFrame_data_rows, Hw. apply List.map_ext_in. intros r Hr.
    apply List.filter_In in Hr. destruct Hr as [Hr _].
    rewrite List.Forall_forall in Hseven. rewrite <- (Hseven r Hr).
    apply pad_row_full. }
  split; [exact Hbody |].
  unfold body. cbn [rows]. unfold data_rows.
  apply List.Forall_forall. intros cells Hin. apply in_map_iff in Hin.
  destruct Hin as [r [<- Hr]]. apply List.filter_In in Hr.
  destruct Hr as [_ Hr]. apply negb_true_iff. exact Hr.
Qed.

(** X8. When no normalised row matches the header pattern, header
    resolution never raises, whatever the widths of the rows: the cells
    of the first row (padded to the table width) become the column
    names, that row alone is dropped even if it is a transaction, and
    the other rows keep their order and their index labels 1, 2, ... *)
Theorem first_row_becomes_header (first : list pystr) (rest : list (list pystr)) :
  existsb row_matches (first :: rest) = false ->
  exists df,
    resolve_header (DataFrame (first :: rest)) = Return df
    /\ columns df = List.map LVal (pad_row (width (first :: rest)) first)
    /\ body df = List.map (pad_row (width (first :: rest))) rest
    /\ index df = seq 1 (length rest).
Proof.
  intros Hnone.
  destruct (resolve_header_spec (DataFrame (first :: rest))) as [_ [_ H3]].
  destruct (DataFrame_spec (first :: rest)) as [Hcols [Hbody [Hidx [_ Hrect]]]].
  rewrite DataFrame_header_any in H3.
  unfold body in Hbody. unfold index in Hidx. unfold rectangular in Hrect.
  remember (rows (DataFrame (first :: rest))) as rs0 eqn:Hrows.
  destruct rs0 as [|r0 rs]; [discriminate Hidx |].
  cbn [List.map length seq] in Hbody, Hidx.
  injection Hbody as Hb0 Hbs. injection Hidx as _ His.
  specialize (H3 Hnone r0 rs eq_refl (Forall_inv Hrect)).
  eexists. split; [exact H3 |]. cbn [columns]. unfold body, index. cbn [rows].
  rewrite Hb0. auto.
Qed.

(** X9. Header resolution of a non-empty normalised table raises in one
    case only: some row matches the header pattern and the table is not
    exactly seven columns wide.  The exception is then the length
    mismatch between the table width and the seven names. *)
Theorem header_resolution_raises_iff (data : list (list pystr)) :
  data <> [] ->
  ((exists e, resolve_header (DataFrame data) = Raise e)
   <-> existsb row_matches data = true /\ width data <> 7)
  /\ forall e, resolve_header (DataFrame data) = Raise e ->
       e = length_mismatch (width data) 7.
Proof.
  intros Hne.
  destruct (resolve_header_spec (DataFrame data)) as [H1 [H2 H3]].
  destruct (DataFrame_spec data) as [Hcols [_ [_ [Hlen Hrect]]]].
  rewrite DataFrame_header_any, Hcols in H1, H2, H3.
  assert (Hfirst : exists r0 rs, rows (DataFrame data) = r0 :: rs).
  { destruct (rows (DataFrame data)) as [|r0 rs]; [| eauto].
    destruct data; [contradiction | discriminate Hlen]. }
  destruct Hfirst as [r0 [rs Hrows]].
  unfold rectangular in Hrect. rewrite Hrows in Hrect.
  pose proof (Forall_inv Hrect) as Hr0. rewrite Hcols in Hr0.
  destruct (existsb row_matches data) eqn:Hany.
  - destruct (Nat.eq_dec (width data) 7) as [Hw | Hw].
    + rewrite (H1 eq_refl Hw). split; [| discriminate].
      split; [intros [e He]; discriminate He | intros [_ Hc]; contradiction].
    + rewrite (H2 eq_refl Hw). split; [| intros e [= <-]; reflexivity].
      split; [auto | eauto].
  - rewrite (H3 eq_refl r0 rs Hrows Hr0). split; [| discriminate].
    split; [intros [e He]; discriminate He | intros [Hc _]; discriminate Hc].
Qed.

(** ** When the field cleaner returns *)

Lemma get_loc_nil (col : pystr) (df : frame) :
  has_column col df = false -> get_loc col df = [].
Proof.
  intros Hnone. unfold get_loc. apply filter_nil_Forall.
  apply List.Forall_forall. intros j Hj. apply in_seq in Hj.
  destruct (columns df !! j) as [l |] eqn:Hl.
  - exact (has_column_false col df j l Hnone Hl).
  - apply lookup_ge_None in Hl. lia.
Qed.

Lemma get_loc_cons (col : pystr) (df : frame) :
  has_column col df = true -> get_loc col df <> [].
Proof.
  unfold has_column. intros Hsome Hnil.
  apply existsb_exists in Hsome. destruct Hsome as [l [Hin Hl]].
  apply list_elem_of_In, list_elem_of_lookup in Hin. destruct Hin as [j Hj].
  assert (Hloc : In j (get_loc col df)) by (apply get_loc_spec; eauto).
  rewrite Hnil in Hloc. exact Hloc.
Qed.

Lemma update_column_loc (col : pystr) (f : list value -> result (list value))
    (on_frame : exn) (df df' : frame) :
  update_column col f on_frame df = Return df' -> length (get_loc col df) = 1.
Proof.
  unfold update_column.
  destruct (get_loc col df) as [|j [|j2 js]]; [discriminate | reflexivity | discriminate].
Qed.

Lemma update_column_returns (col : pystr) (f : list value -> result (list value))
    (on_frame : exn) (df : frame) (j : nat) (out : list value) :
  get_loc col df = [j] -> f (column j df) = Return out ->
  length out = length (rows df) ->
  exists df', update_column col f on_frame df = Return df'.
Proof.
  intros Hloc Hf Hlen. unfold update_column. rewrite Hloc, Hf.
  cbn [mbind result_bind]. unfold set_column. rewrite Hlen, Nat.eqb_refl. eauto.
Qed.

Lemma single_loc (col : pystr) (df : frame) :
  has_column col df = true -> length (get_loc col df) <= 1 ->
  exists j, get_loc col df = [j].
Proof.
  intros Hhas Hle. pose proof (get_loc_cons col df Hhas) as Hne.
  destruct (get_loc col df) as [|j [|j2 js]]; [contradiction | eauto |].
  cbn in Hle. lia.
Qed.

(** A step that gives one new cell per cell of the column always returns. *)
Lemma total_update_returns (col : pystr) (g : list value -> list value)
    (on_frame : exn) (df : frame) :
  (forall vals, length (g vals) = length vals) ->
  rectangular df -> length (get_loc col df) = 1 ->
  exists df',
    update_column col (fun vals => Return (g vals)) on_frame df = Return df'
    /\ columns df' = columns df /\ rectangular df'.
Proof.
  intros Hg Hrect Hone.
  destruct (get_loc col df) as [|j [|j2 js]] eqn:Hloc; try discriminate Hone.
  destruct (update_column_returns col (fun vals => Return (g vals)) on_frame
              df j (g (column j df)) Hloc eq_refl) as [df' Hrun].
  { rewrite Hg. apply length_column. }
  exists df'. split; [exact Hrun |].
  destruct (update_column_step _ _ _ _ _ Hrun Hrect) as [Hc [_ [Hr _]]]. auto.
Qed.

Lemma length_to_numeric (vals : list value) :
  length (List.map (fillna (VNum 0)) (to_numeric vals)) = length vals.
Proof.
  unfold to_numeric. destruct (integer_column _); rewrite !length_map; reflexivity.
Qed.

Lemma clean_amount_column_returns (col : pystr) (df : frame) :
  rectangular df -> length (get_loc col df) <= 1 ->
  exists df', clean_amount_column col df = Return df'
    /\ columns df' = columns df /\ rectangular df'.
Proof.
  intros Hrect Hle. unfold clean_amount_column.
  destruct (has_column col df) eqn:Hhas; [| eauto].
  destruct (single_loc col df Hhas Hle) as [j Hloc].
  assert (Hone : length (get_loc col df) = 1) by (rewrite Hloc; reflexivity).
  destruct (total_update_returns col
              (List.map (fun v => VStr (str_replace (py ",") [] (astype_str v))))
              no_str_accessor df (fun vals => length_map _ vals) Hrect Hone)
    as [d1 [H1 [C1 R1]]].
  unfold series_replace at 1. rewrite H1. cbn [mbind result_bind].
  rewrite <- (get_loc_columns col df d1 C1) in Hone.
  destruct (total_update_returns col
              (List.map (fun v => VStr (re_sub_non_numeric (astype_str v))))
              no_str_accessor d1 (fun vals => length_map _ vals) R1 Hone)
    as [d2 [H2 [C2 R2]]].
  unfold series_re_sub at 1. rewrite H2. cbn [mbind result_bind].
  rewrite <- (get_loc_columns col d1 d2 C2) in Hone.
  destruct (total_update_returns col
              (fun vals => List.map (fillna (VNum 0)) (to_numeric vals))
              frame_to_numeric d2 length_to_numeric R2 Hone) as [d3 [H3 [C3 R3]]].
  exists d3. split; [exact H3 | split; [congruence | exact R3]].
Qed.

Lemma clean_narration_column_returns (df : frame) :
  rectangular df -> length (get_loc (py "Narration") df) <= 1 ->
  exists df', clean_narration_column df = Return df'
    /\ columns df' = columns df /\ rectangular df'.
Proof.
  intros Hrect Hle. unfold clean_narration_column.
  destruct (has_column (py "Narration") df) eqn:Hhas; [| eauto].
  destruct (single_loc _ df Hhas Hle) as [j Hloc].
  assert (Hone : length (get_loc (py "Narration") df) = 1) by (rewrite Hloc; reflexivity).
  exact (total_update_returns (py "Narration")
           (List.map (fun v => VStr (str_replace [10%N] [32%N] (astype_str v))))
           no_str_accessor df (fun vals => length_map _ vals) Hrect Hone).
Qed.

(** The two statements on a date column return when the parser reads
    the column. *)
Lemma clean_date_column_returns (col : pystr) (df : frame) :
  rectangular df -> length (get_loc col df) <= 1 ->
  (forall j, get_loc col df = [j] ->
     exists ds, to_datetime (column j df) = Return ds
                /\ length ds = length (column j df)) ->
  exists df', clean_date_column col df = Return df'
    /\ columns df' = columns df /\ rectangular df'.
Proof.
  intros Hrect Hle Hread. unfold clean_date_column.
  destruct (has_column col df) eqn:Hhas; [| eauto].
  destruct (single_loc col df Hhas Hle) as [j Hloc].
  destruct (Hread j Hloc) as [ds [Hds Hlen]].
  destruct (update_column_returns col series_to_datetime duplicate_keys df j
              (List.map (fun o => match o with Some d => VDate d | None => VNaT end) ds)
              Hloc) as [d1 H1].
  { unfold series_to_datetime. rewrite Hds. reflexivity. }
  { rewrite length_map, Hlen. apply length_column. }
  rewrite H1. cbn [mbind result_bind].
  destruct (update_column_step _ _ _ _ _ H1 Hrect) as [C1 [I1 [R1 F1]]].
  assert (Hj : In j (get_loc col df)) by (rewrite Hloc; left; reflexivity).
  apply get_loc_spec in Hj. destruct Hj as [l [Hl Hlab]].
  specialize (F1 j l Hl). rewrite Hlab in F1.
  unfold series_to_datetime in F1. rewrite Hds in F1.
  cbn [mbind result_bind mret result_ret] in F1. injection F1 as F1.
  destruct (update_column_returns col dt_strftime frame_dt d1 j
              (List.map (fun v => match v with
                                  | VDate d => VStr (strftime d)
                                  | _ => VNaN
                                  end) (column j d1))) as [d2 H2].
  { rewrite (get_loc_columns col df d1 C1). exact Hloc. }
  { unfold dt_strftime. rewrite <- F1, timestamps_datetimelike. reflexivity. }
  { rewrite length_map. apply length_column. }
  exists d2. split; [exact H2 |].
  destruct (update_column_step _ _ _ _ _ H2 R1) as [C2 [_ [R2 _]]].
  split; [congruence | exact R2].
Qed.

Lemma labels_unique_columns (df df' : frame) :
  columns df' = columns df -> labels_unique df -> labels_unique df'.
Proof.
  intros Hc Hu col Hin. rewrite (get_loc_columns col df df' Hc). apply Hu, Hin.
Qed.

(** A step on one label leaves the columns of another label as they are. *)
Lemma column_step_other (col col' : pystr) (g : list value -> list value -> Prop)
    (df df' : frame) (j : nat) :
  column_step col g df df' -> In j (get_loc col' df) ->
  pystr_eqb col col' = false -> column j df' = column j df.
Proof.
  intros [_ [_ [_ F]]] Hj Hne.
  apply get_loc_spec in Hj. destruct Hj as [l [Hl Hlab]].
  specialize (F j l Hl). rewrite (is_label_other col' col l Hlab Hne) in F. exact F.
Qed.

(** When the parser reads its two date columns, the field cleaner
    returns on every rectangular frame whose six labels are each
    carried by at most one column. *)
Lemma clean_fields_returns (df : frame) :
  rectangular df -> labels_unique df -> dates_read df ->
  exists df', clean_fields df = Return df'.
Proof.
  intros Hrect Huniq Hdates. unfold clean_fields.
  cbn [clean_amounts cols_to_clean].
  destruct (clean_amount_column_returns (py "Withdrawal Amount") df Hrect)
    as [d1 [H1 [C1 R1]]]; [apply Huniq; cbn; auto |].
  pose proof (labels_unique_columns df d1 C1 Huniq) as U1.
  destruct (clean_amount_column_returns (py "Deposit Amount") d1 R1)
    as [d2 [H2 [C2 R2]]]; [apply U1; cbn; auto |].
  pose proof (labels_unique_columns d1 d2 C2 U1) as U2.
  destruct (clean_amount_column_returns (py "Closing Balance") d2 R2)
    as [d3 [H3 [C3 R3]]]; [apply U2; cbn; auto |].
  pose proof (labels_unique_columns d2 d3 C3 U2) as U3.
  pose proof (clean_amount_column_step _ _ _ H1 Hrect) as S1.
  pose proof (clean_amount_column_step _ _ _ H2 R1) as S2.
  pose proof (clean_amount_column_step _ _ _ H3 R2) as S3.
  assert (L1 : forall col, get_loc col d1 = get_loc col df)
    by (intros col; apply get_loc_columns; exact C1).
  assert (L2 : forall col, get_loc col d2 = get_loc col df)
    by (intros col; apply get_loc_columns; congruence).
  assert (L3 : forall col, get_loc col d3 = get_loc col df)
    by (intros col; apply get_loc_columns; congruence).
  assert (K3 : forall col j, In col [py "Date"; py "Value Date"] ->
            In j (get_loc col df) -> column j d3 = column j df).
  { intros col j Hcol Hj.
    transitivity (column j d2);
      [apply (column_step_other _ col _ _ _ j S3); [rewrite L2; exact Hj |] |].
    { cbn [In] in Hcol. destruct Hcol as [<- | [<- | []]]; reflexivity. }
    transitivity (column j d1);
      [apply (column_step_other _ col _ _ _ j S2); [rewrite L1; exact Hj |] |].
    { cbn [In] in Hcol. destruct Hcol as [<- | [<- | []]]; reflexivity. }
    apply (column_step_other _ col _ _ _ j S1); [exact Hj |].
    cbn [In] in Hcol. destruct Hcol as [<- | [<- | []]]; reflexivity. }
  destruct (clean_date_column_returns (py "Date") d3 R3)
    as [d4 [H4 [C4 R4]]]; [apply U3; cbn; auto 10 | |].
  { intros j Hloc. rewrite L3 in Hloc.
    destruct (Hdates (py "Date") j ltac:(cbn; auto) Hloc) as [ds [Hds Hlen]].
    assert (Hj : In j (get_loc (py "Date") df)) by (rewrite Hloc; left; reflexivity).
    exists ds. rewrite (K3 (py "Date") j (or_introl eq_refl) Hj). auto. }
  pose proof (labels_unique_columns d3 d4 C4 U3) as U4.
  pose proof (clean_date_column_step _ _ _ H4 R3) as S4.
  destruct (clean_date_column_returns (py "Value Date") d4 R4)
    as [d5 [H5 [C5 R5]]]; [apply U4; cbn; auto 10 | |].
  { intros j Hloc. rewrite (get_loc_columns _ d3 d4 C4), L3 in Hloc.
    destruct (Hdates (py "Value Date") j ltac:(cbn; auto) Hloc) as [ds [Hds Hlen]].
    assert (Hj : In j (get_loc (py "Value Date") df))
      by (rewrite Hloc; left; reflexivity).
    exists ds.
    assert (Hj3 : In j (get_loc (py "Value Date") d3)) by (rewrite L3; exact Hj).
    rewrite (column_step_other _ (py "Value Date") _ _ _ j S4 Hj3 eq_refl).
    rewrite (K3 (py "Value Date") j (or_intror (or_introl eq_refl)) Hj). auto. }
  pose proof (labels_unique_columns d4 d5 C5 U4) as U5.
  destruct (clean_narration_column_returns d5 R5)
    as [d6 [H6 _]]; [apply U5; cbn; auto 10 |].
  rewrite H1. cbn [mbind result_bind]. rewrite H2. cbn [mbind result_bind].
  rewrite H3. cbn [mbind result_bind]. rewrite H4. cbn [mbind result_bind].
  rewrite H5. cbn [mbind result_bind]. rewrite H6. cbn [mbind result_bind].
  eauto.
Qed.

Lemma clean_amount_column_loc (col : pystr) (df df' : frame) :
  clean_amount_column col df = Return df' -> length (get_loc col df) <= 1.
Proof.
  unfold clean_amount_column. destruct (has_column col df) eqn:Hhas.
  - intros Hrun. apply bind_Return in Hrun. destruct Hrun as [d1 [H1 _]].
    rewrite (update_column_loc _ _ _ _ _ H1). lia.
  - intros _. rewrite (get_loc_nil col df Hhas). cbn. lia.
Qed.

Lemma clean_date_column_loc (col : pystr) (df df' : frame) :
  clean_date_column col df = Return df' -> length (get_loc col df) <= 1.
Proof.
  unfold clean_date_column. destruct (has_column col df) eqn:Hhas.
  - intros Hrun. apply bind_Return in Hrun. destruct Hrun as [d1 [H1 _]].
    rewrite (update_column_loc _ _ _ _ _ H1). lia.
  - intros _. rewrite (get_loc_nil col df Hhas). cbn. lia.
Qed.

Lemma clean_narration_column_loc (df df' : frame) :
  clean_narration_column df = Return df' ->
  length (get_loc (py "Narration") df) <= 1.
Proof.
  unfold clean_narration_column. destruct (has_column (py "Narration") df) eqn:Hhas.
  - intros Hrun. rewrite (update_column_loc _ _ _ _ _ Hrun). lia.
  - intros _. rewrite (get_loc_nil _ df Hhas). cbn. lia.
Qed.

(** X10. The field cleaner returns a table only if each of the six
    labels it looks for is carried by at most one column.  Under the
    first-row header a label can occur twice; the statement that reads
    that label then gets a frame instead of a series and raises, so
    the run ends in an exception and no table is returned. *)
Theorem cleaner_needs_unique_labels (df df' : frame) :
  clean_fields df = Return df' -> rectangular df -> labels_unique df.
Proof.
  unfold clean_fields. intros Hrun Hrect.
  apply bind_Return in Hrun. destruct Hrun as [d3 [Ha Hrun]].
  apply bind_Return in Hrun. destruct Hrun as [d4 [Hd Hrun]].
  apply bind_Return in Hrun. destruct Hrun as [d5 [Hv Hrun]].
  apply bind_Return in Hrun. destruct Hrun as [d6 [Hn _]].
  cbn [clean_amounts cols_to_clean] in Ha.
  apply bind_Return in Ha. destruct Ha as [d1 [Ha1 Ha]].
  apply bind_Return in Ha. destruct Ha as [d2 [Ha2 Ha]].
  apply bind_Return in Ha. destruct Ha as [d3' [Ha3 Ha]].
  injection Ha as ->.
  pose proof (clean_amount_column_step _ _ _ Ha1 Hrect) as S1.
  pose proof (clean_amount_column_step _ _ _ Ha2 (proj1 (proj2 (proj2 S1)))) as S2.
  pose proof (clean_amount_column_step _ _ _ Ha3 (proj1 (proj2 (proj2 S2)))) as S3.
  pose proof (clean_date_column_step _ _ _ Hd (proj1 (proj2 (proj2 S3)))) as S4.
  pose proof (clean_date_column_step _ _ _ Hv (proj1 (proj2 (proj2 S4)))) as S5.
  destruct S1 as [C1 _], S2 as [C2 _], S3 as [C3 _], S4 as [C4 _], S5 as [C5 _].
  pose proof (clean_amount_column_loc _ _ _ Ha1) as L1.
  pose proof (clean_amount_column_loc _ _ _ Ha2) as L2.
  pose proof (clean_amount_column_loc _ _ _ Ha3) as L3.
  pose proof (clean_date_column_loc _ _ _ Hd) as L4.
  pose proof (clean_date_column_loc _ _ _ Hv) as L5.
  pose proof (clean_narration_column_loc _ _ Hn) as L6.
  rewrite (get_loc_columns _ df d1) in L2 by congruence.
  rewrite (get_loc_columns _ df d2) in L3 by congruence.
  rewrite (get_loc_columns _ df d3) in L4 by congruence.
  rewrite (get_loc_columns _ df d4) in L5 by congruence.
  rewrite (get_loc_columns _ df d5) in L6 by congruence.
  intros col Hin. unfold cleaned_labels, cols_to_clean in Hin. cbn [app In] in Hin.
  destruct Hin as [<- | [<- | [<- | [<- | [<- | [<- | []]]]]]]; assumption.
Qed.

(** X11. Conversely, the field cleaner returns on every rectangular
    frame whose six labels are each carried by at most one column,
    provided [pd.to_datetime] reads the Date and the Value Date column
    of that frame (one result per cell, no exception): unparseable
    amounts and dates never make it raise. *)
Theorem cleaner_returns_on_unique_labels (df : frame) :
  rectangular df -> labels_unique df -> dates_read df ->
  exists df', clean_fields df = Return df'
    /\ columns df' = columns df
    /\ index df' = seq 0 (length (rows df)).
Proof.
  intros Hrect Huniq Hdates.
  destruct (clean_fields_returns df Hrect Huniq Hdates) as [df' Hrun].
  destruct (clean_fields_spec df df' Hrun Hrect) as [Hc [Hi _]].
  eauto.
Qed.

(** X12. A frame that carries none of the six labels (a first-row
    header of another layout) passes through the field cleaner with
    every cell as it was: all six steps are skipped without an error
    and only the index is renumbered. *)
Theorem unlabelled_frame_only_reindexed (df : frame) :
  (forall col, In col cleaned_labels -> has_column col df = false) ->
  clean_fields df = Return (reset_index df)
  /\ body (reset_index df) = body df
  /\ columns (reset_index df) = columns df.
Proof.
  intros Hnone. split; [| split; [apply reset_index_spec | reflexivity]].
  assert (Ha : forall col, In col cols_to_clean -> clean_amount_column col df = Return df).
  { intros col Hin. unfold clean_amount_column. rewrite Hnone; [reflexivity |].
    unfold cleaned_labels. apply in_or_app. left. exact Hin. }
  assert (Hd : forall col, In col [py "Date"; py "Value Date"] ->
                 clean_date_column col df = Return df).
  { intros col Hin. unfold clean_date_column. rewrite Hnone; [reflexivity |].
    unfold cleaned_labels. apply in_or_app. right.
    cbn [In] in *. destruct Hin as [<- | [<- | []]]; auto. }
  assert (Hn : clean_narration_column df = Return df).
  { unfold clean_narration_column. rewrite Hnone; [reflexivity |].
    unfold cleaned_labels. apply in_or_app. right. cbn [In]. auto. }
  unfold clean_fields. cbn [clean_amounts cols_to_clean].
  rewrite Ha by (cbn [In cols_to_clean]; auto). cbn [mbind result_bind].
  rewrite Ha by (cbn [In cols_to_clean]; auto). cbn [mbind result_bind].
  rewrite Ha by (cbn [In cols_to_clean]; auto). cbn [mbind result_bind].
  rewrite Hd by (cbn [In]; auto). cbn [mbind result_bind].
  rewrite Hd by (cbn [In]; auto). cbn [mbind result_bind].
  rewrite Hn. reflexivity.
Qed.

Lemma headers_unique (df : frame) :
  columns df = List.map (fun h => LVal (VStr h)) headers -> labels_unique df.
Proof.
  intros Hc col Hin. unfold get_loc. rewrite Hc.
  unfold cleaned_labels, cols_to_clean in Hin. cbn [app In] in Hin.
  destruct Hin as [<- | [<- | [<- | [<- | [<- | [<- | []]]]]]];
    vm_compute; lia.
Qed.

(** X13. A statement whose tables are at most seven columns wide and
    show a header row is always extracted, provided [pd.to_datetime]
    reads the Date and the Value Date column of its records: the run
    returns a table after the progress line, its columns are the seven
    fixed names, it has one record for each row of seven cells that is
    not a header row, and its index counts them from zero. *)
Theorem seven_column_statement_returns (w : world) (pdf_path : pystr)
    (password : option pystr) (pages : list (list (list raw_row))) :
  pdfplumber_open w pdf_path password = Return (List.map Return pages) ->
  Forall (fun r : raw_row => length r <= 7) (concat (concat pages)) ->
  existsb row_matches
    (List.map (List.map clean_cell)
       (List.filter (fun r : raw_row => (7 <=? length r)%nat) (concat (concat pages))))
  = true ->
  dates_read
    (statement_frame
       (List.map (List.map clean_cell)
          (List.filter (fun r : raw_row => (7 <=? length r)%nat)
             (concat (concat pages))))) ->
  exists df,
    extract_hdfc_statement w pdf_path password
    = IO [Printed (processing_message (length pages) pdf_path)] (Return (Some df))
    /\ columns df = List.map (fun h => LVal (VStr h)) headers
    /\ length (rows df)
       = length (List.filter (fun r => negb (row_matches r))
                   (List.map (List.map clean_cell)
                      (List.filter (fun r : raw_row => (7 <=? length r)%nat)
                         (concat (concat pages)))))
    /\ index df = seq 0 (length (rows df)).
Proof.
  intros Hopen Hwide Hany Hdates.
  remember (List.map (List.map clean_cell)
              (List.filter (fun r : raw_row => (7 <=? length r)%nat)
                 (concat (concat pages)))) as data eqn:Hdata.
  assert (Hseven : Forall (fun r => length r = 7) data).
  { rewrite Hdata. apply List.Forall_forall. intros r Hr.
    apply in_map_iff in Hr. destruct Hr as [raw [<- Hraw]].
    apply List.filter_In in Hraw. destruct Hraw as [Hin Hlen].
    rewrite List.Forall_forall in Hwide. specialize (Hwide raw Hin).
    apply Nat.leb_le in Hlen. rewrite length_map. lia. }
  pose proof (width_uniform 7 data (existsb_nonempty _ _ Hany) Hseven) as Hw.
  destruct (resolve_header_spec (DataFrame data)) as [H1 _].
  destruct (DataFrame_spec data) as [Hcols [_ [_ [_ Hrect]]]].
  rewrite DataFrame_header_any, Hcols in H1. specialize (H1 Hany Hw).
  pose proof (resolve_header_rectangular _ _ H1 Hrect) as Hrect0.
  set (df0 := {| columns := List.map (fun h => LVal (VStr h)) headers;
                 rows := data_rows (DataFrame data) |}) in *.
  assert (Huniq : labels_unique df0) by (apply headers_unique; reflexivity).
  destruct (clean_fields_returns df0 Hrect0 Huniq Hdates) as [df Hclean].
  destruct (clean_fields_spec _ _ Hclean Hrect0) as [Hc [Hi [Hl _]]].
  unfold df0 in Hc, Hi, Hl. cbn [columns rows] in Hc, Hi, Hl.
  exists df. split; [| split; [exact Hc | split]].
  - rewrite extract_run, Hopen. cbn zeta.
    rewrite (read_pages_spec pages []), length_map. cbn [app].
    match goal with
    | |- context [List.map (List.map clean_cell) ?k] =>
        replace (List.map (List.map clean_cell) k) with data
          by (rewrite Hdata; reflexivity)
    end.
    clear Hdata. destruct data as [|r rest]; [discriminate Hany |].
    rewrite H1. cbn [mbind result_bind]. fold df0. rewrite Hclean. reflexivity.
  - rewrite Hl, <- (length_map snd), DataFrame_data_rows, length_map. reflexivity.
  - rewrite Hi, Hl. reflexivity.
Qed.

(** ** More on the amount cells *)


(** ** More on the text functions *)

Lemma dropwhile_all (p : N -> bool) (s : pystr) :
  forallb p s = true -> dropwhile p s = [].
Proof.
  induction s as [|c s IH]; [reflexivity |]. cbn [forallb dropwhile].
  intros H. apply andb_true_iff in H. destruct H as [-> Hs]. exact (IH Hs).
Qed.

Lemma strip_idempotent (s : pystr) : strip (strip s) = strip s.
Proof.
  assert (Hl : lstrip (strip s) = strip s).
  { apply dropwhile_fixed. intros c rest. apply strip_first. }
  unfold strip at 1. rewrite Hl. unfold rstrip, lstrip.
  rewrite dropwhile_fixed; [apply rev_involutive |].
  intros c rest Hrev. apply (strip_last s c (rev rest)).
  rewrite <- (rev_involutive (strip s)), Hrev. reflexivity.
Qed.

Lemma clean_cell_idempotent (cell : option pystr) :
  clean_cell (Some (clean_cell cell)) = clean_cell cell.
Proof.
  rewrite clean_cell_strip. destruct cell as [s |]; [| reflexivity].
  rewrite clean_cell_strip. apply strip_idempotent.
Qed.

(** X16. Row normalisation is idempotent: stripping a stripped cell
    changes nothing, and reading the normalised table again as the one
    table of a page gives the same table back, every row kept. *)
Theorem normalisation_idempotent (pages : list (list (list raw_row))) :
  (forall s, strip (strip s) = strip s)
  /\ forall data,
       read_pages [] (List.map Return pages) = Return data ->
       read_pages [] [Return [List.map (List.map Some) data]] = Return data.
Proof.
  split; [apply strip_idempotent |].
  intros data Hdata. rewrite (read_pages_spec pages []) in Hdata.
  injection Hdata as Hdata. cbn [app] in Hdata.
  refine (eq_trans (read_pages_spec [[List.map (List.map Some) data]] []) _).
  cbn [app concat]. rewrite !app_nil_r. f_equal.
  rewrite filter_id.
  - rewrite List.map_map. rewrite <- Hdata at 2. rewrite <- Hdata.
    rewrite List.map_map. apply List.map_ext. intros r.
    rewrite !List.map_map. apply List.map_ext. intros c.
    apply clean_cell_idempotent.
  - apply forallb_forall. intros r Hr. apply in_map_iff in Hr.
    destruct Hr as [r0 [<- Hr0]]. rewrite <- Hdata in Hr0.
    apply in_map_iff in Hr0. destruct Hr0 as [raw [<- Hraw]].
    apply List.filter_In in Hraw. rewrite !length_map. apply Hraw.
Qed.

(** X17. Stripping leaves the empty text exactly for the cells made of
    white space only (the empty cell included): such cells are
    indistinguishable from missing ones after normalisation. *)
Theorem strip_empty_iff (s : pystr) :
  strip s = [] <-> forallb py_isspace s = true.
Proof.
  split.
  - intros Hs. destruct (strip_split s) as [pre [suf [Heq [Hpre Hsuf]]]].
    rewrite Hs in Heq. cbn [app] in Heq.
    rewrite Heq, forallb_app, Hpre, Hsuf. reflexivity.
  - intros Hall. unfold strip, rstrip, lstrip.
    rewrite (dropwhile_all _ _ Hall). reflexivity.
Qed.

Lemma startswith_ci_spec (pat s : pystr) :
  startswith_ci pat s = true <->
  exists mid suf, s = mid ++ suf /\ Forall2 (fun p c => sre_ieq p c = true) pat mid.
Proof.
  revert s. induction pat as [|p pat IH]; intros s.
  - split; [intros _; exists [], s; split; [reflexivity | constructor] | reflexivity].
  - destruct s as [|c s]; cbn [startswith_ci].
    + split; [discriminate |]. intros [mid [suf [Heq H]]].
      inversion H; subst. discriminate Heq.
    + rewrite andb_true_iff, IH. split.
      * intros [Hc [mid [suf [-> H]]]]. exists (c :: mid), suf.
        split; [reflexivity | constructor; assumption].
      * intros [mid [suf [Heq H]]]. inversion H; subst.
        injection Heq as <- ->. split; [assumption | eauto].
Qed.

(** X18. The header test is a case-insensitive substring search: a
    cell contains the pattern exactly when some run of consecutive
    characters of the cell matches the pattern letter by letter up to
    case, wherever it stands.  So a longer cell such as a transaction
    date heading, or a narration that merely mentions the word, also
    counts. *)
Theorem contains_ci_spec (pat s : pystr) :
  contains_ci pat s = true <->
  exists pre mid suf,
    s = pre ++ mid ++ suf /\ Forall2 (fun p c => sre_ieq p c = true) pat mid.
Proof.
  induction s as [|c s IH].
  - cbn [contains_ci]. rewrite orb_false_r, startswith_ci_spec. split.
    + intros [mid [suf [Heq H]]]. exists [], mid, suf. auto.
    + intros [pre [mid [suf [Heq H]]]]. symmetry in Heq.
      apply app_eq_nil in Heq. destruct Heq as [-> Heq]. eauto.
  - cbn [contains_ci]. rewrite orb_true_iff, startswith_ci_spec, IH. split.
    + intros [[mid [suf [Heq H]]] | [pre [mid [suf [Heq H]]]]].
      * exists [], mid, suf. auto.
      * exists (c :: pre), mid, suf. rewrite Heq. auto.
    + intros [[|x pre] [mid [suf [Heq H]]]]; cbn [app] in Heq.
      * left. exists mid, suf. auto.
      * injection Heq as <- ->. right. exists pre, mid, suf. auto.
Qed.

(** X19. Rendering is injective on calendar dates: two different dates
    of the years 1 to 9999 are never rendered as the same text, so the
    day/month/year text of a cleaned date column identifies the date. *)
Theorem strftime_injective (d1 d2 : date) :
  valid_date d1 = true -> valid_date d2 = true ->
  strftime d1 = strftime d2 -> d1 = d2.
Proof.
  intros H1 H2 Heq.
  pose proof (strftime_roundtrip d1 H1) as R1.
  pose proof (strftime_roundtrip d2 H2) as R2.
  rewrite Heq, R2 in R1. injection R1 as ->. reflexivity.
Qed.

End Pipeline.

(** ** Closed examples *)

(** A page with a one-cell table between two statement tables. *)
Lemma normalized_rows_witness :
  read_pages []
    (List.map Return [[[header_row]; [[Some (py "carried forward")]]; [salary_row]]])
  = Return [List.map clean_cell header_row; List.map clean_cell salary_row].
Proof.
  exact (proj1 (normalized_rows
                  [[[header_row]; [[Some (py "carried forward")]]; [salary_row]]])).
Defined.

Lemma no_data_found_witness :
  read_pages [] (List.map Return blank_pages) = Return []
  /\ main arabic_indic_digit plain_str to_datetime_slash exact_reader (world_of blank_pages)
     = [Printed (processing_message 1 pdf_filename); Printed no_data_message].
Proof.
  split; [reflexivity |].
  exact (proj1 (proj2 (no_data_found arabic_indic_digit plain_str
                         to_datetime_slash exact_reader
                         (world_of blank_pages) pdf_filename None
                         (List.map Return blank_pages) eq_refl eq_refl)
                 eq_refl eq_refl)).
Defined.

(** The scenario of the specification: one header row and one record. *)
Lemma salary_statement :
  outcome (extract_hdfc_statement arabic_indic_digit plain_str
             to_datetime_slash exact_reader
             (world_of statement_pages) pdf_filename None)
  = Return (Some salary_frame).
Proof. vm_compute. reflexivity. Qed.

(** The exact reader keeps the sign. *)
Lemma exact_reader_keeps_sign : reader_keeps_sign exact_reader.
Proof.
  intros n f [= <-] Hneg. unfold float_nonneg, numeral_value. rewrite Hneg.
  pose proof (decimal_nonneg (int_digits n) (default [] (fraction n))) as Hm.
  destruct (exponent n) as [e |]; [| exact Hm].
  apply Qmult_le_0_compat; [exact Hm |]. apply Qpower_0_le. discriminate.
Qed.

(** The sample parser gives one result per cell. *)
Lemma to_datetime_slash_total (vals : list value) :
  exists ds, to_datetime_slash vals = Return ds /\ length ds = length vals.
Proof.
  unfold to_datetime_slash.
  destruct (List.filter _ vals) as [|[s | | | | | |] rest];
    try (eexists; split; [reflexivity | apply length_map]).
  destruct (slash_fields s) as [f |]; cbn zeta;
    [destruct (valid_date _); [destruct (in_timestamp_range _) |] |];
    eexists; split; try reflexivity; apply length_map.
Qed.

Lemma amount_cell_value_witness :
  outcome (extract_hdfc_statement arabic_indic_digit plain_str to_datetime_slash
             exact_reader (world_of credit_pages) pdf_filename None)
  = Return (Some credit_frame)
  /\ exists pages data df0,
       pdfplumber_open (world_of credit_pages) pdf_filename None = Return pages
       /\ read_pages [] pages = Return data
       /\ resolve_header (DataFrame data) = Return df0
       /\ forall col j,
            In col cols_to_clean -> columns df0 !! j = Some (LVal (VStr col)) ->
            let whole :=
              integer_amounts arabic_indic_digit plain_str exact_reader (column j df0) in
            (whole = true <->
               forall v, In v (column j df0) ->
                 exists ip,
                   kept_text arabic_indic_digit plain_str v = numeral_text ip None
                   /\ digits ip /\ ip <> []
                   /\ (Z.of_N (digits_value ip) <= uint64_max)%Z
                   /\ exact_reader (mknumeral false ip None None) <> None)
            /\ length (column j credit_frame) = length (column j df0)
            /\ forall i v, column j df0 !! i = Some v ->
                 exists out,
                   column j credit_frame !! i = Some out
                   /\ kept_text arabic_indic_digit plain_str v
                      = List.filter (kept_char arabic_indic_digit) (astype_str plain_str v)
                   /\ (amount_pattern arabic_indic_digit
                         (str_replace (py ",") [] (astype_str plain_str v)) = true ->
                       kept_text arabic_indic_digit plain_str v
                       = str_replace (py ",") [] (astype_str plain_str v))
                   /\ (not_a_numeral (kept_text arabic_indic_digit plain_str v) ->
                       out = VNum 0)
                   /\ (forall ip fr,
                         kept_text arabic_indic_digit plain_str v = numeral_text ip fr ->
                         digits ip -> digits (default [] fr) ->
                         ip ++ default [] fr <> [] ->
                         let n := mknumeral false ip fr None in
                         out = (if whole
                                then VNum (inject_Z (Z.of_N (digits_value ip)))
                                else filled (exact_reader n))
                         /\ (exact_reader n = Some (Finite (numeral_value n)) ->
                             out = VNum (numeral_value n)))
                   /\ (not_a_numeral (kept_text arabic_indic_digit plain_str v)
                       \/ exists ip fr,
                            kept_text arabic_indic_digit plain_str v = numeral_text ip fr
                            /\ digits ip /\ digits (default [] fr)
                            /\ ip ++ default [] fr <> []).
Proof.
  assert (Hrun : outcome (extract_hdfc_statement arabic_indic_digit plain_str
                            to_datetime_slash exact_reader (world_of credit_pages)
                            pdf_filename None)
                 = Return (Some credit_frame)) by (vm_compute; reflexivity).
  split; [exact Hrun |].
  exact (amount_cell_value arabic_indic_digit plain_str to_datetime_slash exact_reader
           (world_of credit_pages) pdf_filename None credit_frame Hrun).
Defined.

(** The counterexample to C1 as stated.  The closing balance of the
    record does not match the amount pattern after comma removal, so
    the claim wants it cleaned to 0.0; the run cleans it to 12. *)
Lemma other_content_not_zero :
  credit_row !! 6%nat = Some (Some (py "12 Cr"))
  /\ amount_pattern arabic_indic_digit (str_replace (py ",") [] (py "12 Cr")) = false
  /\ outcome (extract_hdfc_statement arabic_indic_digit plain_str to_datetime_slash
                exact_reader (world_of credit_pages) pdf_filename None)
     = Return (Some credit_frame)
  /\ columns credit_frame !! 6%nat = Some (LVal (VStr (py "Closing Balance")))
  /\ column 6 credit_frame = [VNum 12]
  /\ VNum 12 <> VNum 0.
Proof.
  split; [reflexivity | split; [reflexivity | split; [vm_compute; reflexivity |]]].
  split; [reflexivity | split; [reflexivity | discriminate]].
Qed.

Lemma dates_rendered_witness :
  outcome (extract_hdfc_statement arabic_indic_digit plain_str to_datetime_slash
             exact_reader (world_of statement_pages) pdf_filename None)
  = Return (Some salary_frame)
  /\ exists pages data df0,
       pdfplumber_open (world_of statement_pages) pdf_filename None = Return pages
       /\ read_pages [] pages = Return data
       /\ resolve_header (DataFrame data) = Return df0
       /\ forall col j,
            In col [py "Date"; py "Value Date"] ->
            columns df0 !! j = Some (LVal (VStr col)) ->
            exists ds,
              to_datetime_slash (column j df0) = Return ds
              /\ length ds = length (column j df0)
              /\ column j salary_frame = List.map render_date ds
              /\ forall i,
                   (forall d, ds !! i = Some (Some d) ->
                      column j salary_frame !! i = Some (VStr (strftime d))
                      /\ length (strftime d) = 10
                      /\ (valid_date d = true -> parse_ddmmyyyy (strftime d) = Some d))
                   /\ (ds !! i = Some None -> column j salary_frame !! i = Some VNaN).
Proof.
  assert (Hrun : outcome (extract_hdfc_statement arabic_indic_digit plain_str
                            to_datetime_slash exact_reader (world_of statement_pages)
                            pdf_filename None)
                 = Return (Some salary_frame)) by (vm_compute; reflexivity).
  split; [exact Hrun |].
  exact (dates_rendered arabic_indic_digit plain_str to_datetime_slash exact_reader
           (world_of statement_pages) pdf_filename None salary_frame Hrun).
Defined.

(** The counterexample to C6 as stated.  The Date cell of the second
    record reads 1 April 2024 day first.  The date of the first record
    can only be read month first, pandas takes that order for the
    whole column, and the run returns for the second record the text
    that reads 4 January 2024 day first. *)
Lemma day_first_not_kept :
  ambiguous_row !! 0%nat = Some (Some (py "01/04/2024"))
  /\ parse_ddmmyyyy (py "01/04/2024") = Some (mkdate 2024 4 1)
  /\ outcome (extract_hdfc_statement arabic_indic_digit plain_str to_datetime_slash
                exact_reader (world_of mixed_date_pages) pdf_filename None)
     = Return (Some mixed_date_frame)
  /\ column 0 mixed_date_frame = [VStr (py "13/04/2024"); VStr (py "04/01/2024")]
  /\ parse_ddmmyyyy (py "04/01/2024") = Some (mkdate 2024 1 4)
  /\ mkdate 2024 1 4 <> mkdate 2024 4 1.
Proof.
  split; [reflexivity | split; [reflexivity | split; [vm_compute; reflexivity |]]].
  split; [reflexivity | split; [reflexivity | discriminate]].
Qed.

Lemma narration_newlines_witness :
  outcome (extract_hdfc_statement arabic_indic_digit plain_str to_datetime_slash
             exact_reader (world_of statement_pages) pdf_filename None)
  = Return (Some salary_frame)
  /\ exists pages data df0,
       pdfplumber_open (world_of statement_pages) pdf_filename None = Return pages
       /\ read_pages [] pages = Return data
       /\ resolve_header (DataFrame data) = Return df0
       /\ forall j,
            columns df0 !! j = Some (LVal (VStr (py "Narration"))) ->
            columns salary_frame !! j = Some (LVal (VStr (py "Narration")))
            /\ length (column j salary_frame) = length (column j df0)
            /\ (forall i x, column j salary_frame !! i = Some x ->
                  exists t, x = VStr t /\ ~ In 10%N t)
            /\ forall i s, column j df0 !! i = Some (VStr s) ->
                 let out := List.map (fun c => if (c =? 10)%N then 32%N else c) s in
                 column j salary_frame !! i = Some (VStr out)
                 /\ length out = length s
                 /\ forall k c, s !! k = Some c ->
                      out !! k = Some (if (c =? 10)%N then 32%N else c).
Proof.
  assert (Hrun : outcome (extract_hdfc_statement arabic_indic_digit plain_str
                            to_datetime_slash exact_reader (world_of statement_pages)
                            pdf_filename None)
                 = Return (Some salary_frame)) by (vm_compute; reflexivity).
  split; [exact Hrun |].
  exact (narration_newlines arabic_indic_digit plain_str to_datetime_slash exact_reader
           (world_of statement_pages) pdf_filename None salary_frame Hrun).
Defined.

Lemma amounts_nonnegative_witness :
  reader_keeps_sign exact_reader
  /\ outcome (extract_hdfc_statement arabic_indic_digit plain_str to_datetime_slash
                exact_reader (world_of statement_pages) pdf_filename None)
     = Return (Some salary_frame)
  /\ ((exists q : Q,
         [VStr (py "01/04/2024"); VStr (py "Salary Credit ABC Corp"); VStr (py "REF1");
          VStr (py "01/04/2024"); VNum 0; VNum (500000 # 100); VNum (1000000 # 100)]
           !! 5%nat = Some (VNum q)
         /\ (0 <= q)%Q)
      \/ [VStr (py "01/04/2024"); VStr (py "Salary Credit ABC Corp"); VStr (py "REF1");
          VStr (py "01/04/2024"); VNum 0; VNum (500000 # 100); VNum (1000000 # 100)]
           !! 5%nat = Some (VInf false)).
Proof.
  assert (Hrun : outcome (extract_hdfc_statement arabic_indic_digit plain_str
                            to_datetime_slash exact_reader (world_of statement_pages)
                            pdf_filename None)
                 = Return (Some salary_frame)) by (vm_compute; reflexivity).
  split; [exact exact_reader_keeps_sign | split; [exact Hrun |]].
  apply (amounts_nonnegative arabic_indic_digit plain_str to_datetime_slash exact_reader
           (world_of statement_pages) pdf_filename None salary_frame
           exact_reader_keeps_sign Hrun
           (py "Deposit Amount") 5%nat
           (0%nat, [VStr (py "01/04/2024"); VStr (py "Salary Credit ABC Corp");
                    VStr (py "REF1"); VStr (py "01/04/2024");
                    VNum 0; VNum (500000 # 100); VNum (1000000 # 100)])).
  - right. left. reflexivity.
  - reflexivity.
  - left. reflexivity.
Defined.

Lemma result_index_witness :
  outcome (extract_hdfc_statement arabic_indic_digit plain_str
             to_datetime_slash exact_reader
             (world_of statement_pages) pdf_filename None)
  = Return (Some salary_frame)
  /\ exists pages data df0,
       pdfplumber_open (world_of statement_pages) pdf_filename None = Return pages
       /\ read_pages [] pages = Return data
       /\ resolve_header (DataFrame data) = Return df0
       /\ index salary_frame = seq 0 (length (rows df0))
       /\ length (rows salary_frame) = length (rows df0)
       /\ columns salary_frame = columns df0.
Proof.
  assert (Hrun : outcome (extract_hdfc_statement arabic_indic_digit plain_str
                            to_datetime_slash exact_reader (world_of statement_pages)
                            pdf_filename None)
                 = Return (Some salary_frame)) by (vm_compute; reflexivity).
  split; [exact Hrun |].
  exact (result_index arabic_indic_digit plain_str to_datetime_slash exact_reader
           (world_of statement_pages) pdf_filename None salary_frame Hrun).
Defined.

Lemma other_columns_unchanged_witness :
  outcome (extract_hdfc_statement arabic_indic_digit plain_str
             to_datetime_slash exact_reader
             (world_of statement_pages) pdf_filename None)
  = Return (Some salary_frame)
  /\ exists pages data df0,
       pdfplumber_open (world_of statement_pages) pdf_filename None = Return pages
       /\ read_pages [] pages = Return data
       /\ resolve_header (DataFrame data) = Return df0
       /\ columns salary_frame = columns df0
       /\ (forall j l, columns df0 !! j = Some l -> is_cleaned_label l = false ->
             column j salary_frame = column j df0)
       /\ (forall cells, In cells (body df0) ->
             exists r, In r data /\ cells = pad_row (width data) r
               /\ forall j s, r !! j = Some s -> cells !! j = Some (VStr s)).
Proof.
  assert (Hrun : outcome (extract_hdfc_statement arabic_indic_digit plain_str
                            to_datetime_slash exact_reader (world_of statement_pages)
                            pdf_filename None)
                 = Return (Some salary_frame)) by (vm_compute; reflexivity).
  split; [exact Hrun |].
  exact (other_columns_unchanged arabic_indic_digit plain_str to_datetime_slash exact_reader
           (world_of statement_pages) pdf_filename None salary_frame Hrun).
Defined.

(** The reference column of the scenario is the stripped cell, untouched. *)
Lemma reference_column_kept :
  column 2 salary_frame = [VStr (py "REF1")]
  /\ is_cleaned_label (LVal (VStr (py "Chq./Ref.No."))) = false.
Proof. split; reflexivity. Qed.

(** C4 at the failing input. A normalised table whose rows all have
    eight cells, so at least seven, and which contains a header row:
    header resolution does not complete, the assignment of the seven
    names raises the length mismatch. *)
Theorem wide_table_raises :
  let data := [List.map clean_cell wide_header_row; List.map clean_cell wide_row] in
  read_pages [] (List.map Return wide_pages) = Return data
  /\ Forall (fun r => 7 <= length r) data
  /\ resolve_header (DataFrame data) = Raise (length_mismatch 8 7).
Proof.
  split; [reflexivity | split; [| reflexivity]].
  repeat constructor.
Qed.

(** C2 at the failing input. The same table has a row that matches the
    header pattern, yet the seven names are not assigned and no header
    row is removed: the run ends in the length mismatch, which the
    entry point reports as an unexpected error, and nothing is written. *)
Theorem header_names_not_assigned (unicode_Nd : N -> bool) (py_str : value -> pystr)
    (to_datetime : list value -> result (list (option date)))
    (xstrtod : numeral -> option float64) :
  let data := [List.map clean_cell wide_header_row; List.map clean_cell wide_row] in
  existsb id (header_mask (DataFrame data)) = true
  /\ extract_hdfc_statement unicode_Nd py_str to_datetime xstrtod
       (world_of wide_pages) pdf_filename None
     = IO [Printed (processing_message 1 pdf_filename)] (Raise (length_mismatch 8 7))
  /\ main unicode_Nd py_str to_datetime xstrtod (world_of wide_pages)
     = [Printed (processing_message 1 pdf_filename);
        Printed (py "An unexpected error occurred: "
               ++ exn_msg (length_mismatch 8 7))].
Proof.
  assert (Hrun : extract_hdfc_statement unicode_Nd py_str to_datetime xstrtod
                   (world_of wide_pages) pdf_filename None
                 = IO [Printed (processing_message 1 pdf_filename)]
                      (Raise (length_mismatch 8 7))).
  { rewrite extract_run. reflexivity. }
  split; [reflexivity | split; [exact Hrun |]].
  unfold main, try_block. rewrite Hrun. reflexivity.
Qed.

(** ** Closed examples for the further properties *)

Lemma open_failure_reported_witness :
  pdfplumber_open missing_world pdf_filename None = Raise no_such_file
  /\ main arabic_indic_digit plain_str to_datetime_slash exact_reader missing_world
     = [Printed file_not_found_line].
Proof.
  split; [reflexivity |].
  exact (proj1 (open_failure_reported arabic_indic_digit plain_str
                  to_datetime_slash exact_reader
                  missing_world no_such_file eq_refl)).
Defined.

Lemma write_failure_reported_witness :
  to_excel_error readonly_world output_file salary_frame = Some permission_denied
  /\ main arabic_indic_digit plain_str to_datetime_slash exact_reader readonly_world
     = output (extract_hdfc_statement arabic_indic_digit plain_str
                 to_datetime_slash exact_reader
                 readonly_world pdf_filename None)
       ++ [Printed preview_line; PrintedFrame (head 10 salary_frame);
           report permission_denied].
Proof.
  split; [reflexivity |].
  refine (proj1 (write_failure_reported arabic_indic_digit plain_str
                   to_datetime_slash exact_reader readonly_world salary_frame
                   permission_denied _ eq_refl)).
  vm_compute. reflexivity.
Defined.

Lemma unreadable_page_aborts_witness :
  extract_hdfc_statement arabic_indic_digit plain_str to_datetime_slash exact_reader
    torn_world pdf_filename None
  = IO [Printed (processing_message 2 pdf_filename)] (Raise broken_page).
Proof.
  exact (unreadable_page_aborts arabic_indic_digit plain_str to_datetime_slash exact_reader
           torn_world pdf_filename None statement_pages broken_page [] eq_refl).
Defined.

Lemma none_returned_iff_witness :
  outcome (extract_hdfc_statement arabic_indic_digit plain_str
             to_datetime_slash exact_reader
             (world_of blank_pages) pdf_filename None) = Return None.
Proof.
  apply (none_returned_iff arabic_indic_digit plain_str to_datetime_slash exact_reader
           (world_of blank_pages) pdf_filename None blank_pages eq_refl).
  repeat constructor.
Defined.

Lemma header_rows_removed_witness :
  exists df,
    resolve_header
      (DataFrame [headers; List.map clean_cell salary_row; headers]) = Return df
    /\ columns df = List.map (fun h => LVal (VStr h)) headers
    /\ body df = [List.map VStr (List.map clean_cell salary_row)]
    /\ Forall (fun cells => row_is_header cells = false) (body df).
Proof.
  exact (header_rows_removed [headers; List.map clean_cell salary_row; headers]
           ltac:(repeat constructor) eq_refl).
Defined.

Lemma first_row_becomes_header_witness :
  exists df,
    resolve_header (DataFrame [ledger_header; ledger_record]) = Return df
    /\ columns df = List.map LVal (List.map VStr ledger_header)
    /\ body df = [List.map VStr ledger_record]
    /\ index df = [1%nat].
Proof.
  exact (first_row_becomes_header ledger_header [ledger_record] eq_refl).
Defined.

Lemma header_resolution_raises_iff_witness :
  exists e,
    resolve_header
      (DataFrame [List.map clean_cell wide_header_row; List.map clean_cell wide_row])
    = Raise e.
Proof.
  apply (proj1 (header_resolution_raises_iff
                  [List.map clean_cell wide_header_row; List.map clean_cell wide_row]
                  ltac:(discriminate))).
  split; [reflexivity | vm_compute; discriminate].
Defined.

(** The field cleaner on the resolved statement, and on a frame whose
    first-row header names two columns Narration. *)
Lemma salary_cleaned :
  clean_fields arabic_indic_digit plain_str to_datetime_slash exact_reader salary_resolved
  = Return salary_frame.
Proof. vm_compute. reflexivity. Qed.

Lemma twin_labels_raise :
  outcome (extract_hdfc_statement arabic_indic_digit plain_str
             to_datetime_slash exact_reader
             (world_of [[[List.map Some twin_header; List.map Some ledger_record]]])
             pdf_filename None)
  = Raise no_str_accessor.
Proof. vm_compute. reflexivity. Qed.

Lemma cleaner_needs_unique_labels_witness : labels_unique salary_resolved.
Proof.
  refine (cleaner_needs_unique_labels arabic_indic_digit plain_str
            to_datetime_slash exact_reader
            salary_resolved salary_frame _ _).
  - vm_compute. reflexivity.
  - repeat constructor.
Defined.

(** The sample parser reads the two date columns of any frame. *)
Lemma to_datetime_slash_reads (df : frame) : dates_read to_datetime_slash df.
Proof. intros col j _ _. apply to_datetime_slash_total. Qed.

Lemma cleaner_returns_on_unique_labels_witness :
  exists df',
    clean_fields arabic_indic_digit plain_str to_datetime_slash exact_reader
      salary_resolved
    = Return df'
    /\ columns df' = columns salary_resolved
    /\ index df' = seq 0 (length (rows salary_resolved)).
Proof.
  refine (cleaner_returns_on_unique_labels arabic_indic_digit plain_str
            to_datetime_slash exact_reader salary_resolved _ _
            (to_datetime_slash_reads salary_resolved)).
  - repeat constructor.
  - intros col Hin. unfold cleaned_labels, cols_to_clean in Hin. cbn [app In] in Hin.
    destruct Hin as [<- | [<- | [<- | [<- | [<- | [<- | []]]]]]]; vm_compute; lia.
Defined.

Lemma unlabelled_frame_only_reindexed_witness :
  clean_fields arabic_indic_digit plain_str to_datetime_slash exact_reader
    (DataFrame [ledger_record])
  = Return (reset_index (DataFrame [ledger_record])).
Proof.
  refine (proj1 (unlabelled_frame_only_reindexed arabic_indic_digit plain_str
                   to_datetime_slash exact_reader (DataFrame [ledger_record]) _)).
  intros col Hin. unfold cleaned_labels, cols_to_clean in Hin. cbn [app In] in Hin.
  destruct Hin as [<- | [<- | [<- | [<- | [<- | [<- | []]]]]]]; reflexivity.
Defined.

Lemma seven_column_statement_returns_witness :
  exists df,
    extract_hdfc_statement arabic_indic_digit plain_str to_datetime_slash exact_reader
      (world_of statement_pages) pdf_filename None
    = IO [Printed (processing_message 1 pdf_filename)] (Return (Some df))
    /\ columns df = List.map (fun h => LVal (VStr h)) headers
    /\ length (rows df) = 1
    /\ index df = seq 0 (length (rows df)).
Proof.
  refine (seven_column_statement_returns arabic_indic_digit plain_str
            to_datetime_slash exact_reader (world_of statement_pages) pdf_filename None
            statement_pages eq_refl _ eq_refl (to_datetime_slash_reads _)).
  repeat constructor.
Defined.


Lemma normalisation_idempotent_witness :
  read_pages []
    [Return [List.map (List.map Some)
               [List.map clean_cell header_row; List.map clean_cell salary_row]]]
  = Return [List.map clean_cell header_row; List.map clean_cell salary_row].
Proof.
  exact (proj2 (normalisation_idempotent statement_pages)
           [List.map clean_cell header_row; List.map clean_cell salary_row] eq_refl).
Defined.

Lemma contains_ci_spec_witness :
  contains_ci (py "Date") (py "Txn DATE (IST)") = true.
Proof.
  apply (proj2 (contains_ci_spec (py "Date") (py "Txn DATE (IST)"))).
  exists (py "Txn "), (py "DATE"), (py " (IST)").
  split; [reflexivity | repeat constructor].
Defined.

Lemma strftime_injective_witness :
  mkdate 2024 4 1 = mkdate 2024 4 1.
Proof.
  exact (strftime_injective (mkdate 2024 4 1) (mkdate 2024 4 1) eq_refl eq_refl eq_refl).
Defined.
